(** * SOM dashboard: a shallow embedding of the data pipeline and of the
    browser-side selection handlers, with the properties of the
    specification proved over it.

    Layout: definitions first (one module per source file), then the
    theorems.

    Conventions of the embedding.
    - A float64 or int64 cell is an exact rational ([Qc], canonical
      rationals with Leibniz equality).  Rounding and NaN cells of the
      input are outside the model.  Where the source can divide by
      zero the division is a partial operation ([palette_index]);
      elsewhere it is written with [/] and the divisor is shown to be
      nonzero ([scale_nonzero], [observations_of_nonempty]).
    - A raised Python exception is a [Raise e] result.
    - The external libraries (pandas, scikit-learn, MiniSom, Bokeh) are
      modelled by their documented behaviour, or taken as parameters
      where the behaviour is an algorithm of the library (square root,
      agglomerative clustering, best-matching unit). *)

From Stdlib Require Import QArith Qcanon ZArith Lia Sorted.
From stdpp Require Import base numbers list strings option gmap pretty sorting.

Local Open Scope Qc_scope.

(* ===================================================================== *)
(** * Python values shared by the modules                                 *)
(* ===================================================================== *)

Module Py.

Inductive exn :=
  ValueError | KeyError | IndexError | TypeError | InvalidRef | Unmodelled.

Inductive result (A : Type) :=
| Ok (a : A)
| Raise (e : exn).
Arguments Ok {A} a.
Arguments Raise {A} e.

#[global] Instance result_ret : MRet result := fun A a => Ok a.
#[global] Instance result_bind : MBind result := fun A B f m =>
  match m with Ok a => f a | Raise e => Raise e end.

Definition is_ok {A} (r : result A) : bool :=
  match r with Ok _ => true | Raise _ => false end.

(** [int(x)] on a finite float: truncation toward zero. *)
Definition int (x : Qc) : Z := Z.quot (Qnum (this x)) (Zpos (Qden (this x))).

Definition Qc_of_nat (n : nat) : Qc := Qc_of_Z (Z.of_nat n).

#[global] Instance Qc_inhabited : Inhabited Qc := populate 0.

(** [l[z]] on a Python list or tuple: negative positions count from the
    end, anything else out of range raises IndexError. *)
Definition getitem {A} (l : list A) (z : Z) : result A :=
  let n := Z.of_nat (length l) in
  let k := if bool_decide (z < 0)%Z then (z + n)%Z else z in
  if bool_decide (0 <= k < n)%Z
  then match l !! Z.to_nat k with Some a => Ok a | None => Raise IndexError end
  else Raise IndexError.

(** [arr[i]] on a numpy array with a non-negative position. *)
Definition at_ {A} (l : list A) (i : nat) : result A :=
  match l !! i with Some a => Ok a | None => Raise IndexError end.

(** [sum(xs)], [min(xs)], [max(xs)] over exact values. *)
Definition sum (xs : list Qc) : Qc := foldr Qcplus 0 xs.

Definition Qcmin (a b : Qc) : Qc := if bool_decide (a ≤ b) then a else b.
Definition Qcmax (a b : Qc) : Qc := if bool_decide (a ≤ b) then b else a.

(** [arr.min()], [arr.max()]: ValueError on an empty array. *)
Definition amin (xs : list Qc) : result Qc :=
  match xs with [] => Raise ValueError | x :: r => Ok (foldl Qcmin x r) end.
Definition amax (xs : list Qc) : result Qc :=
  match xs with [] => Raise ValueError | x :: r => Ok (foldl Qcmax x r) end.

End Py.
Import Py.

(* ===================================================================== *)
(** * pandas data frames                                                  *)
(* ===================================================================== *)

Module Frame.

(** The numeric dtypes of numpy (complex ones apart). *)
Inductive numtype :=
| Float64 | Float32 | Float16
| Int64 | Int32 | Int16 | Int8
| UInt64 | UInt32 | UInt16 | UInt8.

#[global] Instance numtype_eq_dec : EqDecision numtype.
Proof. solve_decision. Defined.

(** A column: numeric cells, or opaque objects (strings, geometries).
    Column names are taken to be distinct, as in a frame read from a
    file; a lookup by name answers with the first match. *)
Inductive column :=
| NumCol (dt : numtype) (xs : list Qc)
| ObjCol (xs : list string).

#[global] Instance column_eq_dec : EqDecision column.
Proof. solve_decision. Defined.

Definition col_length (c : column) : nat :=
  match c with NumCol _ xs => length xs | ObjCol xs => length xs end.

(** A frame: the length of its index and its columns in order. *)
Record DataFrame := mkDF { index : nat; columns : list (string * column) }.

#[global] Instance DataFrame_eq_dec : EqDecision DataFrame.
Proof. solve_decision. Defined.

Definition names (df : DataFrame) : list string := (columns df).*1.

(** Every column has one cell per index entry, names are distinct. *)
Definition wf (df : DataFrame) : Prop :=
  NoDup (names df) /\ Forall (fun nc => col_length nc.2 = index df) (columns df).

#[global] Instance wf_dec (df : DataFrame) : Decision (wf df).
Proof. unfold wf. apply _. Defined.

Fixpoint assoc (name : string) (cs : list (string * column)) : option column :=
  match cs with
  | [] => None
  | (n, c) :: r => if decide (n = name) then Some c else assoc name r
  end.

(** [df[name]] *)
Definition getcol (df : DataFrame) (name : string) : result column :=
  match assoc name (columns df) with Some c => Ok c | None => Raise KeyError end.

Definition has_column (df : DataFrame) (name : string) : bool :=
  bool_decide (name ∈ names df).

Definition is_number (c : column) : bool :=
  match c with NumCol _ _ => true | ObjCol _ => false end.

(** [select_dtypes(include=[float, int])]: pandas reads the Python type
    [float] as float64 and float32, and [int] as int64 and int32; a
    column is selected when its dtype is one of the four. *)
Definition is_float_or_int (c : column) : bool :=
  match c with
  | NumCol (Float64 | Float32 | Int64 | Int32) _ => true
  | _ => false
  end.

Definition select_dtypes (p : column -> bool) (df : DataFrame) : DataFrame :=
  mkDF (index df) (filter (fun nc => p nc.2 = true) (columns df)).

(** [df.drop(columns=cs, errors='ignore')] *)
Definition drop (cs : list string) (df : DataFrame) : DataFrame :=
  mkDF (index df) (filter (fun nc => nc.1 ∉ cs) (columns df)).

Fixpoint replace_or_append (name : string) (c : column)
    (cs : list (string * column)) : list (string * column) :=
  match cs with
  | [] => [(name, c)]
  | (n, c') :: r =>
      if decide (n = name) then (n, c) :: r
      else (n, c') :: replace_or_append name c r
  end.

(** [df[name] = values]: an existing column is replaced in place, a new
    one is appended; the length must match the index. *)
Definition setcol (df : DataFrame) (name : string) (c : column) : result DataFrame :=
  if decide (col_length c = index df)
  then Ok (mkDF (index df) (replace_or_append name c (columns df)))
  else Raise ValueError.

(** The numeric payload of a column as floats ([.values] of a numeric
    frame); an object column has none. *)
Definition floats (c : column) : option (list Qc) :=
  match c with NumCol _ xs => Some xs | ObjCol _ => None end.

(** The payload of the column [c], empty for an object column. *)
Definition series (df : DataFrame) (c : string) : list Qc :=
  match assoc c (columns df) with
  | Some (NumCol _ xs) => xs
  | _ => []
  end.

(** One cell of [.values]. *)
Inductive value := VNum (x : Qc) | VObj (s : string).

Definition cell (c : column) (i : nat) : option value :=
  match c with
  | NumCol _ xs => VNum <$> xs !! i
  | ObjCol xs => VObj <$> xs !! i
  end.

(** Row [i] of [df.values]. *)
Definition row (df : DataFrame) (i : nat) : list value :=
  omap (fun nc => cell nc.2 i) (columns df).

(** [df.values], row by row. *)
Definition values (df : DataFrame) : list (list value) :=
  map (row df) (seq 0 (index df)).

End Frame.
Import Frame.

(* ===================================================================== *)
(** * data_loader.py                                                      *)
(* ===================================================================== *)

Module DataLoader.

(** ** sklearn.preprocessing.StandardScaler

    Defaults [with_mean=True, with_std=True].  Per feature: [mean_],
    the population variance [var_], and [scale_], the square root of
    the variance except for a constant feature, whose scale is set to
    1 by the library's zero-scale guard ("if a variance is zero, we
    can't achieve unit variance, and the data is left as-is, giving a
    scaling factor of 1").  The array is kept as its list of columns;
    the scaler works along axis 0. *)
Section StandardScaler.

(** [np.sqrt] on float64 *)
Variable sqrt : Qc -> Qc.

(** [np.finfo(np.float64).eps] *)
Definition eps : Qc := Q2Qc (1 # (2 ^ 52)).

Definition mean_ (xs : list Qc) : Qc := sum xs / Qc_of_nat (length xs).

Definition var_ (xs : list Qc) : Qc :=
  let m := mean_ xs in
  sum (map (fun x => (x - m) * (x - m)) xs) / Qc_of_nat (length xs).

(** [_is_constant_feature(var, mean, n_samples)] *)
Definition is_constant_feature (var mean : Qc) (n : nat) : bool :=
  let upper := Qc_of_nat n * eps * var
               + (Qc_of_nat n * mean * eps) * (Qc_of_nat n * mean * eps) in
  bool_decide (var ≤ upper).

(** [_handle_zeros_in_scale(np.sqrt(var_), constant_mask=...)] *)
Definition scale_ (xs : list Qc) : Qc :=
  if is_constant_feature (var_ xs) (mean_ xs) (length xs)
  then 1
  else sqrt (var_ xs).

(** [transform]: [(X - mean_) / scale_] *)
Definition transform (xs : list Qc) : list Qc :=
  map (fun x => (x - mean_ xs) / scale_ xs) xs.

(** [fit_transform(X)]: input validation asks for at least one sample
    and one feature. *)
Definition fit_transform (n_samples : nat) (X : list (list Qc))
  : result (list (list Qc)) :=
  if decide (n_samples = 0%nat) then Raise ValueError
  else if decide (X = []) then Raise ValueError
  else Ok (map transform X).

End StandardScaler.

(** ** The object store

    Frames are mutable objects: [drop(..., inplace=True)] and
    [df[name] = ...] update the frame they are called on.  A reference
    is a position in the store; every allocation appends. *)
Definition ref := nat.
Definition store := list DataFrame.

Definition M (A : Type) : Type := store -> result (A * store).

#[global] Instance M_ret : MRet M := fun A a s => Ok (a, s).
#[global] Instance M_bind : MBind M := fun A B f m s =>
  match m s with
  | Ok (a, s') => f a s'
  | Raise e => Raise e
  end.

Definition lift {A} (r : result A) : M A :=
  fun s => match r with Ok a => Ok (a, s) | Raise e => Raise e end.

Definition alloc (df : DataFrame) : M ref :=
  fun s => Ok (length s, s ++ [df]).

Definition deref (r : ref) : M DataFrame :=
  fun s => match s !! r with Some df => Ok (df, s) | None => Raise InvalidRef end.

Definition assign (r : ref) (df : DataFrame) : M unit :=
  fun s => match s !! r with
           | Some _ => Ok (tt, <[r := df]> s)
           | None => Raise InvalidRef
           end.

(** [r.select_dtypes(include=["number"])]: a new frame *)
Definition select_number (r : ref) : M ref :=
  df ← deref r; alloc (select_dtypes is_number df).

(** [r.copy()] *)
Definition copy (r : ref) : M ref :=
  df ← deref r; alloc df.

(** [r.drop(columns=cs, inplace=True, errors='ignore')] *)
Definition drop_inplace (r : ref) (cs : list string) : M unit :=
  df ← deref r; assign r (drop cs df).

(** [r[name] = c] *)
Definition setitem (r : ref) (name : string) (c : column) : M unit :=
  df ← deref r; df' ← lift (setcol df name c); assign r df'.

(** [pd.DataFrame(arr, columns=cols, index=idx)].  The columns take the
    dtype of the scaled array, written float64 here: the dtype numpy
    gives an array of narrower floats alone is not modelled. *)
Definition new_frame (arr : list (list Qc)) (cols : list string) (idx : nat)
  : M ref :=
  alloc (mkDF idx (zip cols (map (NumCol Float64) arr))).

(** The body of the loop [for coord in ("hex_x", "hex_y")]. *)
Definition carry_through (gdf scaled_df : ref) (coord : string) : M unit :=
  g ← deref gdf;
  if has_column g coord
  then c ← lift (getcol g coord); setitem scaled_df coord c
  else mret tt.

Section ScaleData.

Variable sqrt : Qc -> Qc.

Definition scale_data (gdf : ref) (exclude_cols : option (list string))
  : M (ref * ref) :=
  let exclude_cols := default [] exclude_cols in
  (* select numeric columns, minus any excludes *)
  sel ← select_number gdf;
  numeric ← copy sel;
  n ← deref numeric;
  drop_inplace numeric
    (filter (fun c => c ∈ names n) exclude_cols);;
  n ← deref numeric;
  g ← deref gdf;
  scaled_arr ← lift (fit_transform sqrt (index n)
                       (omap (fun nc => floats nc.2) (columns n)));
  scaled_df ← new_frame scaled_arr (names n) (index g);
  (* carry through any grid coordinates *)
  carry_through gdf scaled_df "hex_x";;
  carry_through gdf scaled_df "hex_y";;
  mret (scaled_df, gdf).

End ScaleData.

(** The frame has a numeric column that is not excluded: there is
    something to scale. *)
Definition scalable (g : DataFrame) (ex : option (list string)) : Prop :=
  exists name dt xs, assoc name (columns g) = Some (NumCol dt xs)
                     /\ name ∉ default [] ex.

End DataLoader.

(* ===================================================================== *)
(** * som_model.py                                                        *)
(* ===================================================================== *)

Module SomModel.

(** A trained MiniSom as the repository uses it: the weight array of
    shape (x_dim, y_dim, features), the best-matching unit of an
    observation ([winner], an algorithm of the library, kept as the
    object's method), and the array that [distance_map] returns. *)
Record MiniSom := mkSom {
  get_weights : list (list (list Qc));
  winner : list value -> nat * nat;
  distance_map : list (list Qc)
}.

(** [weights.shape], first two components *)
Definition shape {A} (w : list (list A)) : nat * nat :=
  (length w, length (hd [] w)).

(** [weights.reshape(x_dim * y_dim, -1)], [um.flatten()]: row-major *)
Definition flatten {A} (w : list (list A)) : list A := concat w.

(** The array is rectangular. *)
Definition rectangular {A} (w : list (list A)) : Prop :=
  Forall (fun r => length r = (shape w).2) w.

(** [winner] answers with a node of the grid. *)
Definition winner_in_grid (som : MiniSom) : Prop :=
  forall obs, ((winner som obs).1 < (shape (get_weights som)).1)%nat
           /\ ((winner som obs).2 < (shape (get_weights som)).2)%nat.

Definition compute_umatrix (som : MiniSom) : list Qc :=
  let um := distance_map som in
  flatten um.

End SomModel.
Import SomModel.

(* ===================================================================== *)
(** * sklearn.cluster.AgglomerativeClustering                             *)
(* ===================================================================== *)

Module Sklearn.

(** [AgglomerativeClustering(n_clusters=n).fit_predict(X)] (the same
    labels as [.fit(X).labels_]): an algorithm of the library and a
    deterministic function of its arguments.  It raises on parameters
    it rejects. *)
Class Clustering := { fit_predict : Z -> list (list Qc) -> result (list nat) }.

(** The number of distinct labels in a labelling. *)
Definition n_labels (ls : list nat) : nat := length (remove_dups ls).

(** What the library promises of a labelling it returns: one label per
    sample, and exactly [n] clusters, numbered from 0. *)
Definition lawful (C : Clustering) : Prop :=
  forall n X ls, fit_predict n X = Ok ls ->
    length ls = length X /\ Z.of_nat (n_labels ls) = n
    /\ Forall (fun l => (Z.of_nat l < n)%Z) ls.

End Sklearn.
Import Sklearn.

(* ===================================================================== *)
(** * cluster_analysis.py                                                 *)
(* ===================================================================== *)

Module ClusterAnalysis.

(** A list comprehension whose body can raise. *)
Fixpoint traverse {A B} (f : A -> result B) (l : list A) : result (list B) :=
  match l with
  | [] => Ok []
  | a :: r => b ← f a; bs ← traverse f r; Ok (b :: bs)
  end.

(** A Python list of ints stored as an int64 column. *)
Definition int_column (xs : list nat) : column :=
  NumCol Int64 (map Qc_of_nat xs).

Section AssignClusters.

Context `{C : Clustering}.

Definition assign_clusters (som : MiniSom) (data_df : DataFrame) (n_clusters : Z)
  : result DataFrame :=
  (* 1) Cluster the SOM's nodes *)
  let weights := get_weights som in
  let '(x_dim, y_dim) := shape weights in
  let flat_weights := flatten weights in
  node_labels ← fit_predict n_clusters flat_weights;
  (* 2) For each observation, find its Best Matching Unit (BMU) *)
  let features := drop ["hex_x"; "hex_y"] data_df in
  let values := values features in
  let bmus := map (winner som) values in
  let bmu_x := map fst bmus in
  let bmu_y := map snd bmus in
  let flat_idx := map (fun pt => pt.1 * y_dim + pt.2)%nat bmus in
  (* 3) Assign cluster label based on BMU's node label *)
  clusters ← traverse (fun idx => at_ node_labels idx) flat_idx;
  (* 4) Return augmented DataFrame *)
  let df_out := data_df in
  df_out ← setcol df_out "bmu_x" (int_column bmu_x);
  df_out ← setcol df_out "bmu_y" (int_column bmu_y);
  df_out ← setcol df_out "hc_cluster" (int_column clusters);
  Ok df_out.

End AssignClusters.

(** The default of the parameter [n_clusters]. *)
Definition default_n_clusters : Z := 5.

(** ** pandas [groupby(key)[cols].mean().reset_index()]

    Groups are the distinct key values in ascending order (the default
    [sort=True]).  The aggregation is pandas' one pass over the rows:
    each row adds its value to the running sum of its group and counts
    one observation; the mean of a group is its sum over its count.
    The means are written as float64 columns. *)

Fixpoint insert_key (k : Qc) (l : list Qc) : list Qc :=
  match l with
  | [] => [k]
  | x :: r =>
      if decide (k < x) then k :: l
      else if decide (k = x) then l
      else x :: insert_key k r
  end.

(** The sorted distinct keys. *)
Definition uniques (ks : list Qc) : list Qc := foldr insert_key [] ks.

(** The position of a key among the uniques: the group code of a row. *)
Fixpoint code_of (k : Qc) (us : list Qc) : option nat :=
  match us with
  | [] => None
  | u :: r => if decide (u = k) then Some 0%nat else S <$> code_of k r
  end.

Definition codes (ks us : list Qc) : list nat :=
  omap (fun k => code_of k us) ks.

(** One row of the aggregation: [sumx[lab] += val; nobs[lab] += 1]. *)
Definition accumulate (acc : list Qc * list nat) (row : nat * Qc)
  : list Qc * list nat :=
  let '(sumx, nobs) := acc in
  let '(lab, val) := row in
  (<[lab := sumx !!! lab + val]> sumx, <[lab := S (nobs !!! lab)]> nobs).

Definition group_mean (ngroups : nat) (labels : list nat) (xs : list Qc)
  : list Qc :=
  let '(sumx, nobs) :=
    foldl accumulate (replicate ngroups 0, replicate ngroups 0%nat)
          (zip labels xs) in
  zip_with (fun s n => s / Qc_of_nat n) sumx nobs.

(** The key column of a [groupby]: KeyError when absent.  Cluster ids
    are numbers; a key column of objects is outside the model. *)
Definition key_column (df : DataFrame) (key : string)
  : result (numtype * list Qc) :=
  c ← getcol df key;
  match c with
  | NumCol dt ks => Ok (dt, ks)
  | ObjCol _ => Raise Unmodelled
  end.

Definition groupby_mean (df : DataFrame) (key : string) (cols : list string)
  : result DataFrame :=
  '(dt, ks) ← key_column df key;
  let us := uniques ks in
  let labels := codes ks us in
  means ← traverse (fun c =>
             col ← getcol df c;
             match floats col with
             | Some xs => Ok (c, NumCol Float64 (group_mean (length us) labels xs))
             | None => Raise TypeError
             end) cols;
  Ok (mkDF (length us) ((key, NumCol dt us) :: means)).

(** The specification's reading of the summary, to compare with the
    aggregation above: the values of a column over exactly the
    observations with cluster id [k], and their arithmetic mean. *)
Definition observations_of (ks xs : list Qc) (k : Qc) : list Qc :=
  (filter (fun p : Qc * Qc => p.1 = k) (zip ks xs)).*2.


Definition bookkeeping : list string :=
  ["hc_cluster"; "bmu_x"; "bmu_y"; "hex_x"; "hex_y"].

Definition compute_cluster_means (hex_df : DataFrame) : result DataFrame :=
  let numeric_cols := names (select_dtypes is_float_or_int hex_df) in
  let numeric_cols := filter (fun c => c ∉ bookkeeping) numeric_cols in
  let cluster_means := groupby_mean hex_df "hc_cluster" numeric_cols in
  cluster_means.

End ClusterAnalysis.

(* ===================================================================== *)
(** * Bokeh: data sources as the browser sees them                        *)
(* ===================================================================== *)

Module Bokeh.

(** The two palettes the repository imports from [bokeh.palettes]:
    [Category10[10]] and [Viridis256], tuples of colour strings. *)
Class Palettes := {
  Category10_10 : list string;
  Viridis256 : list string
}.

Definition palettes_ok (P : Palettes) : Prop :=
  length Category10_10 = 10%nat /\ length Viridis256 = 256%nat.

(** A JavaScript primitive. *)
Inductive prim :=
| Undefined
| Null
| Bool (b : bool)
| Num (z : Z)
| Str (s : string).

#[global] Instance prim_eq_dec : EqDecision prim.
Proof. solve_decision. Defined.

(** [a === b] on primitives *)
Definition strict_eq (a b : prim) : bool := bool_decide (a = b).

(** The truth value of a primitive in a condition. *)
Definition truthy (a : prim) : bool :=
  match a with
  | Undefined | Null => false
  | Bool b => b
  | Num z => negb (Z.eqb z 0)
  | Str s => negb (String.eqb s EmptyString)
  end.

(** A ColumnDataSource: [data] maps a column name to its array; the
    handlers also keep two properties of their own on the [data] object,
    [_skip] and [_last_sel], undefined until first written;
    [selected] is [selected.indices]. *)
Record ColumnDataSource := mkCDS {
  data : gmap string (list prim);
  _skip : prim;
  _last_sel : prim;
  selected : list prim
}.

(** [src.data[name]] where the handler goes on to read [.length], an
    element or [.slice()]: a TypeError when the column is undefined. *)
Definition column_of (src : ColumnDataSource) (name : string)
  : result (list prim) :=
  match data src !! name with
  | Some a => Ok a
  | None => Raise TypeError
  end.

(** [a[i]]: undefined outside the array and for an index that is not a
    number. *)
Definition elem (a : list prim) (i : prim) : prim :=
  match i with
  | Num z => if bool_decide (0 <= z)%Z then default Undefined (a !! Z.to_nat z)
             else Undefined
  | _ => Undefined
  end.

(** [a[0]] *)
Definition first (a : list prim) : prim := default Undefined (a !! 0%nat).

(** The positions [0 .. n-1] as JavaScript numbers. *)
Definition positions (n : nat) : list prim :=
  map (fun i => Num (Z.of_nat i)) (seq 0 n).

Definition set_selected (src : ColumnDataSource) (inds : list prim)
  : ColumnDataSource :=
  mkCDS (data src) (_skip src) (_last_sel src) inds.

Definition set_skip (src : ColumnDataSource) (v : prim) : ColumnDataSource :=
  mkCDS (data src) v (_last_sel src) (selected src).

Definition set_last_sel (src : ColumnDataSource) (v : prim) : ColumnDataSource :=
  mkCDS (data src) (_skip src) v (selected src).

Definition set_column (src : ColumnDataSource) (name : string) (a : list prim)
  : ColumnDataSource :=
  mkCDS (<[name := a]> (data src)) (_skip src) (_last_sel src) (selected src).

End Bokeh.
Import Bokeh.

(* ===================================================================== *)
(** * plots.py                                                            *)
(* ===================================================================== *)

Module Plots.

(** [l * k] on a Python list *)
Definition py_repeat {A} (l : list A) (k : Z) : list A :=
  concat (replicate (Z.to_nat k) l).

(** [l[:n]] on a Python list *)
Definition py_prefix {A} (l : list A) (n : Z) : list A :=
  if bool_decide (0 <= n)%Z then take (Z.to_nat n) l
  else take (Z.to_nat (Z.of_nat (length l) + n)) l.

(** [df[name].max()] of a numeric column; on an empty column pandas
    answers NaN and the [int(...)] around it raises ValueError. *)
Definition column_max (df : DataFrame) (name : string) : result Qc :=
  c ← getcol df name;
  match c with
  | NumCol _ xs => amax xs
  | ObjCol _ => Raise Unmodelled
  end.

(** [int((d - um_min)/(um_max - um_min)*255)].  The operands are numpy
    float64 scalars: with [um_max = um_min] the quotient is 0.0/0.0, a
    NaN, and [int] of it raises ValueError. *)
Definition palette_index (d um_min um_max : Qc) : result Z :=
  if decide (um_max - um_min = 0) then Raise ValueError
  else Ok (int ((d - um_min) / (um_max - um_min) * Qc_of_Z 255)).

(** One record of the list [records]. *)
Record node := mkNode {
  bmu_x : nat;
  bmu_y : nat;
  hc_cluster : nat;
  u_color : string;
  color : string;
  alpha : Z
}.

(** [for i in range(X): for j in range(Y)] *)
Definition grid (X Y : nat) : list (nat * nat) :=
  i ← seq 0 X; j ← seq 0 Y; [(i, j)].

(** What the toggle handler works on: the node source and the two
    colour bars' [visible]. *)
Record HexView := mkHexView {
  node_source : ColumnDataSource;
  bar_c_visible : bool;
  bar_u_visible : bool
}.

Definition nums (l : list nat) : list prim := map (fun n => Num (Z.of_nat n)) l.

Section BuildHexPlot.

Context `{C : Clustering} `{P : Palettes}.

(** The list [records] of [build_hex_plot], with the [n_clusters] and
    the node labels it is built from. *)
Definition node_records (hex_df : DataFrame) (som : MiniSom) (um_flat : list Qc)
  : result (list node) :=
  (* 1) cluster palette *)
  m ← column_max hex_df "hc_cluster";
  let n_clusters := (int m + 1)%Z in
  let base := Category10_10 in
  let cluster_palette := py_prefix (py_repeat base (n_clusters / 10 + 1)) n_clusters in
  (* 2) one row per SOM unit *)
  let w := get_weights som in
  let '(X, Y) := shape w in
  let flat_weights := flatten w in
  node_labels ← fit_predict n_clusters flat_weights;
  um_min ← amin um_flat;
  um_max ← amax um_flat;
  ClusterAnalysis.traverse (fun ij =>
    let idx := (ij.1 * Y + ij.2)%nat in
    d ← at_ um_flat idx;
    norm ← palette_index d um_min um_max;
    label ← at_ node_labels idx;
    u ← getitem Viridis256 norm;
    c ← getitem cluster_palette (Z.of_nat label);
    Ok (mkNode ij.1 ij.2 label u c 1)) (grid X Y).

(** [ColumnDataSource(node_df)] after
    [node_df["display_color"] = node_df["color"]]: one array per column
    of [node_df], and its index.  With no record at all [node_df] has no
    column and [node_df["color"]] raises KeyError.  The cluster bar is
    visible, the U-Matrix bar is created with [visible=False]. *)
Definition node_columns (records : list node) : gmap string (list prim) :=
  <["index" := positions (length records)]>
  (<["bmu_x" := nums (map bmu_x records)]>
  (<["bmu_y" := nums (map bmu_y records)]>
  (<["hc_cluster" := nums (map hc_cluster records)]>
  (<["u_color" := map (fun r => Str (u_color r)) records]>
  (<["color" := map (fun r => Str (color r)) records]>
  (<["alpha" := map (fun r => Num (alpha r)) records]>
  (<["display_color" := map (fun r => Str (color r)) records]> ∅))))))).

Definition build_hex_plot (hex_df : DataFrame) (som : MiniSom) (um_flat : list Qc)
  : result HexView :=
  records ← node_records hex_df som um_flat;
  match records with
  | [] => Raise KeyError
  | _ => Ok (mkHexView (mkCDS (node_columns records) Undefined Undefined []) true false)
  end.

End BuildHexPlot.

(** The handler of the toggle's [active] property; [active] is
    [cb_obj.active] after the change. *)
Definition toggle_changed (active : bool) (v : HexView) : result HexView :=
  let src := node_source v in
  let showU := active in
  colors ← column_of src (if showU then "u_color" else "color");
  (* assign a fresh array to ensure change detection *)
  let src := set_column src "display_color" colors in
  Ok (mkHexView src (negb showU) showU).

(** What [build_map_plot] hands to the browser, as far as the model
    goes: the frame that is serialized into the GeoJSON source, and the
    palette and the range of the colour mapper.  The figure and its
    glyphs are Bokeh objects and are not modelled; the parameter
    [cluster_buttons] is not used by the body. *)
Record MapView := mkMapView {
  map_frame : DataFrame;
  map_palette : list string;
  map_low : Z;
  map_high : Z
}.

Section BuildMapPlot.

Context `{P : Palettes}.

Definition build_map_plot (geo_df hex_df : DataFrame) : result MapView :=
  (* attach cluster label by index *)
  let df := geo_df in
  c ← getcol hex_df "hc_cluster";
  df ← setcol df "hc_cluster" c;
  (* match the hex-plot palette exactly *)
  m ← column_max df "hc_cluster";
  let max_c := int m in
  let base := Category10_10 in
  let palette := py_prefix (py_repeat base (max_c / 10 + 1)) (max_c + 1) in
  Ok (mkMapView df palette 0 max_c).

End BuildMapPlot.

(** One [TableColumn] of the data table. *)
Record TableColumn := mkTableColumn {
  field : string;
  title : string;
  column_width : Z
}.

(** [index.drop(label)]: KeyError when the label is not found. *)
Definition index_drop (names : list string) (label : string)
  : result (list string) :=
  if bool_decide (label ∈ names)
  then Ok (filter (fun c => c <> label) names)
  else Raise KeyError.

(** The columns of the [DataTable]; its source, the summary itself, is
    left out. *)
Definition build_data_table (cluster_means_df : DataFrame)
  : result (list TableColumn) :=
  let cols := [mkTableColumn "hc_cluster" "Cluster" 60] in
  rest ← index_drop (names cluster_means_df) "hc_cluster";
  Ok (cols ++ map (fun c => mkTableColumn c c 120) rest).

End Plots.
Import Plots.

(* ===================================================================== *)
(** * widgets.py                                                          *)
(* ===================================================================== *)

Module Widgets.

(** The Bokeh widgets, with the properties the repository sets. *)
Record Toggle := mkToggle {
  toggle_label : string;
  button_type : string;
  active : bool
}.

Record Button := mkButton {
  label : string;
  css_classes : list string;
  width : Z
}.

Definition create_um_toggle : Toggle :=
  mkToggle "Show U-Matrix" "primary" false.

(** [str(i)] on a non-negative int: its decimal digits *)
Definition str (i : nat) : string := pretty i.

Section CreateClusterButtons.

Context `{P : Palettes}.

(** [range(n_clusters)] is empty for a negative argument.  The local
    [palette] is computed and not used. *)
Definition create_cluster_buttons (n_clusters : Z) : list Button :=
  let base := Category10_10 in
  let palette := py_prefix (py_repeat base (n_clusters / 10 + 1)) n_clusters in
  map (fun i => mkButton (str i) ["cluster-btn-" +:+ str i] 30)
      (seq 0 (Z.to_nat n_clusters)).

End CreateClusterButtons.

End Widgets.

(* ===================================================================== *)
(** * main.py                                                             *)
(* ===================================================================== *)

Module Main.

(** The callbacks are JavaScript snippets that BokehJS runs in the
    browser.  Each one is modelled by its body, as a function on the
    three sources it is given; a snippet that reads a property of an
    undefined column throws, which is a [Raise TypeError].  The
    [change.emit()] calls only ask for a redraw.  Which callbacks
    BokehJS runs in turn, when a body assigns [selected.indices] of a
    source, is decided by the library and is not part of the model. *)

(** The three sources the callbacks share. *)
Record sources := mkSources {
  hex_src : ColumnDataSource;
  map_src : ColumnDataSource;
  table_src : ColumnDataSource
}.

(** The positions [j] of [col] with [col[j] === v], in order: the loop
    [for (let j = 0; j < col.length; j++) if (col[j] === v) inds.push(j)]. *)
Definition matching (col : list prim) (v : prim) : list prim :=
  filter (fun j => strict_eq (elem col j) v = true) (positions (length col)).

(** 6a) the ButtonClick callback of cluster button [cl] *)
Definition cluster_button_click (cl : nat) (st : sources) : result sources :=
  let cl := Num (Z.of_nat cl) in
  (* gather unit indices for cluster cl *)
  hx ← column_of (hex_src st) "hc_cluster";
  let hex_inds := matching hx cl in
  (* gather region indices for cluster cl *)
  mx ← column_of (map_src st) "hc_cluster";
  let map_inds := matching mx cl in
  (* toggle-off if already selected *)
  let already :=
    bool_decide (length (selected (table_src st)) = 1%nat)
    && strict_eq (first (selected (table_src st))) cl in
  if already
  then Ok (mkSources (set_selected (hex_src st) [])
                     (set_selected (map_src st) [])
                     (set_selected (table_src st) []))
  else Ok (mkSources (set_selected (hex_src st) hex_inds)
                     (set_selected (map_src st) map_inds)
                     (set_selected (table_src st) [cl])).

(** The loop of 6b: the positions [i] of [xs] with
    [xs[i] === bx && ys[i] === by]; [ys] is read only when the first
    test holds, and reading an element of an undefined [ys] throws. *)
Definition regions_at (xs : list prim) (ys : option (list prim)) (bx by_ : prim)
  : result (list prim) :=
  let hits := matching xs bx in
  match hits, ys with
  | [], _ => Ok []
  | _, None => Raise TypeError
  | _, Some ys => Ok (filter (fun i => strict_eq (elem ys i) by_ = true) hits)
  end.

(** 6b) the callback on [source_hex.selected.indices] *)
Definition hex_selection_changed (st : sources) : result sources :=
  let hex := hex_src st in
  let inds := selected hex in
  if truthy (_skip hex)
  then Ok (mkSources (set_skip hex (Bool false)) (map_src st) (table_src st))
  else if bool_decide (length inds = 1%nat) && strict_eq (_last_sel hex) (first inds)
  then
    let hex := set_skip hex (Bool true) in
    let hex := set_selected hex [] in
    let hex := set_last_sel hex Null in
    Ok (mkSources hex (set_selected (map_src st) []) (set_selected (table_src st) []))
  else
    let hex :=
      set_last_sel hex (if bool_decide (length inds = 1%nat) then first inds else Null) in
    match inds with
    | [] =>
        Ok (mkSources hex (set_selected (map_src st) [])
                          (set_selected (table_src st) []))
    | [idx] =>
        (* find all regions with matching BMU coords *)
        hbx ← column_of hex "bmu_x";
        let bx := elem hbx idx in
        hby ← column_of hex "bmu_y";
        let by_ := elem hby idx in
        xs ← column_of (map_src st) "bmu_x";
        region_inds ← regions_at xs (data (map_src st) !! "bmu_y") bx by_;
        hcl ← column_of hex "hc_cluster";
        let cl := elem hcl idx in
        Ok (mkSources hex (set_selected (map_src st) region_inds)
                          (set_selected (table_src st) [cl]))
    | _ => Ok (mkSources hex (map_src st) (table_src st))
    end.

(** The loop of 6c: the first position [i] of [xs] with
    [xs[i] === bx && ys[i] === by], or null. *)
Fixpoint first_unit (pos : list prim) (xs : list prim) (ys : option (list prim))
    (bx by_ : prim) : result prim :=
  match pos with
  | [] => Ok Null
  | i :: r =>
      if strict_eq (elem xs i) bx
      then match ys with
           | None => Raise TypeError
           | Some ys' =>
               if strict_eq (elem ys' i) by_ then Ok i
               else first_unit r xs ys bx by_
           end
      else first_unit r xs ys bx by_
  end.

(** 6c) the callback on [source_map.selected.indices] *)
Definition map_selection_changed (st : sources) : result sources :=
  let map := map_src st in
  let inds := selected map in
  if truthy (_skip map)
  then Ok (mkSources (hex_src st) (set_skip map (Bool false)) (table_src st))
  else if bool_decide (length inds = 1%nat) && strict_eq (_last_sel map) (first inds)
  then
    let map := set_skip map (Bool true) in
    let map := set_selected map [] in
    let map := set_last_sel map Null in
    Ok (mkSources (set_selected (hex_src st) []) map (set_selected (table_src st) []))
  else
    let map :=
      set_last_sel map (if bool_decide (length inds = 1%nat) then first inds else Null) in
    match inds with
    | [] =>
        Ok (mkSources (set_selected (hex_src st) []) map
                      (set_selected (table_src st) []))
    | [idx] =>
        mbx ← column_of map "bmu_x";
        let bx := elem mbx idx in
        mby ← column_of map "bmu_y";
        let by_ := elem mby idx in
        xs ← column_of (hex_src st) "bmu_x";
        hex_i ← first_unit (positions (length xs)) xs
                           (data (hex_src st) !! "bmu_y") bx by_;
        let hex_inds := if strict_eq hex_i Null then [] else [hex_i] in
        mcl ← column_of map "hc_cluster";
        let cl := elem mcl idx in
        Ok (mkSources (set_selected (hex_src st) hex_inds) map
                      (set_selected (table_src st) [cl]))
    | _ => Ok (mkSources (hex_src st) map (table_src st))
    end.

Section Pipeline.

Context `{C : Clustering} `{P : Palettes}.

(** Steps 2, 3 and 5 of the module body, as far as the node view:
    [main.py] calls [assign_clusters] with the default [n_clusters] and
    hands its result to [build_hex_plot]. *)
Definition node_view (som : MiniSom) (scaled_df : DataFrame)
  : result (DataFrame * HexView) :=
  let um_flat := compute_umatrix som in
  hex_df ← ClusterAnalysis.assign_clusters som scaled_df
             ClusterAnalysis.default_n_clusters;
  v ← build_hex_plot hex_df som um_flat;
  Ok (hex_df, v).


End Pipeline.

End Main.

(* ===================================================================== *)
(** * Concrete inputs                                                     *)
(* ===================================================================== *)

Module Examples.

(** A square root that is exact on squares of rationals. *)
Definition rsqrt (x : Qc) : Qc :=
  Q2Qc (Z.sqrt (Qnum (this x)) # Pos.sqrt (Qden (this x))).

(** Three regions: a varying attribute, a constant one, a geometry and a
    grid key. *)
Definition regions : DataFrame :=
  mkDF 3 [("pop", NumCol Float64 [Qc_of_Z 1; Qc_of_Z 2; Qc_of_Z 3]);
          ("flat", NumCol Int64 [Qc_of_Z 5; Qc_of_Z 5; Qc_of_Z 5]);
          ("geometry", ObjCol ["POLYGON A"; "POLYGON B"; "POLYGON C"]);
          ("hex_x", NumCol Int64 [Qc_of_Z 0; Qc_of_Z 1; Qc_of_Z 2])].

(** The best-matching unit as MiniSom computes it: the node whose weight
    vector is nearest to the observation (squared Euclidean distance),
    the first such node in row-major order. *)
Definition sqdist (w : list Qc) (obs : list value) : Qc :=
  sum (zip_with (fun a v => match v with
                            | VNum x => (a - x) * (a - x)
                            | VObj _ => 0
                            end) w obs).

Fixpoint argmin_from (best : nat) (least : Qc) (i : nat) (ds : list Qc) : nat :=
  match ds with
  | [] => best
  | d :: r =>
      if decide (d < least) then argmin_from i d (S i) r
      else argmin_from best least (S i) r
  end.

Definition bmu (w : list (list (list Qc))) (obs : list value) : nat * nat :=
  match map (fun v => sqdist v obs) (flatten w) with
  | [] => (0, 0)%nat
  | d :: r =>
      let k := argmin_from 0 d 1 r in
      (k `div` (shape w).2, k `mod` (shape w).2)%nat
  end.

(** A map of one row and six nodes over one feature.  The gaps between
    neighbouring weights halve from left to right, so that merging the
    closest clusters first always merges at the right end. *)
Definition line_weights : list (list (list Qc)) :=
  [[ [Qc_of_Z 0]; [Qc_of_Z 16]; [Qc_of_Z 24];
     [Qc_of_Z 28]; [Qc_of_Z 30]; [Qc_of_Z 31] ]].

Definition line_som : MiniSom :=
  mkSom line_weights (bmu line_weights)
        [[ Qc_of_Z 16; Qc_of_Z 12; Qc_of_Z 6; Qc_of_Z 3; Qc_of_Z 2; Qc_of_Z 1 ]].

(** A clustering with the library's contract, for samples laid out as
    in [line_weights]: with [n] clusters, the first [n - 1] samples are
    clusters of their own and the rest is the last cluster. *)
Definition chain_clustering : Clustering :=
  {| fit_predict n X :=
       if bool_decide (1 <= n <= Z.of_nat (length X))%Z
       then Ok (map (fun i => i `min` (Z.to_nat n - 1))%nat (seq 0 (length X)))
       else Raise ValueError |}.

(** Three observations of one standardized feature; their best-matching
    units are the nodes 0, 1 and 2. *)
Definition three_obs : DataFrame :=
  mkDF 3 [("x", NumCol Float64 [Qc_of_Z 1; Qc_of_Z 15; Qc_of_Z 25])].

(** [Category10[10]], and a stand-in for [Viridis256] with 256 entries. *)
Definition palettes : Palettes :=
  {| Category10_10 :=
       ["#1f77b4"; "#ff7f0e"; "#2ca02c"; "#d62728"; "#9467bd";
        "#8c564b"; "#e377c2"; "#7f7f7f"; "#bcbd22"; "#17becf"];
     Viridis256 := map (fun i => String (Ascii.ascii_of_nat i) EmptyString) (seq 0 256) |}.

(** Observations with their clusters: a feature, a small-integer
    attribute and the bookkeeping columns. *)
Definition clustered : DataFrame :=
  mkDF 4 [("x", NumCol Float64 [Qc_of_Z 1; Qc_of_Z 2; Qc_of_Z 3; Qc_of_Z 5]);
          ("rank", NumCol UInt8 [Qc_of_Z 1; Qc_of_Z 1; Qc_of_Z 2; Qc_of_Z 2]);
          ("bmu_x", NumCol Int64 [Qc_of_Z 0; Qc_of_Z 0; Qc_of_Z 1; Qc_of_Z 0]);
          ("bmu_y", NumCol Int64 [Qc_of_Z 0; Qc_of_Z 0; Qc_of_Z 1; Qc_of_Z 0]);
          ("hc_cluster", NumCol Int64 [Qc_of_Z 1; Qc_of_Z 1; Qc_of_Z 0; Qc_of_Z 1])].

(** Two tiles as [build_hex_plot] lays them out, the second one
    selected. *)
Definition two_tiles : HexView :=
  mkHexView
    (mkCDS (<["color" := [Str "#1f77b4"; Str "#ff7f0e"]]>
            (<["u_color" := [Str "#440154"; Str "#fde725"]]>
            (<["display_color" := [Str "#1f77b4"; Str "#ff7f0e"]]> ∅)))
           Undefined Undefined [Num 1])
    true false.

(** The three sources of a dashboard with three nodes, four regions and
    three clusters, nothing selected. *)
Definition hex_source : ColumnDataSource :=
  mkCDS (<["bmu_x" := nums [0; 0; 1]%nat]>
         (<["bmu_y" := nums [0; 1; 0]%nat]>
         (<["hc_cluster" := nums [0; 2; 2]%nat]> ∅)))
        Undefined Undefined [].

Definition map_source : ColumnDataSource :=
  mkCDS (<["bmu_x" := nums [0; 1; 0; 0]%nat]>
         (<["bmu_y" := nums [1; 0; 1; 0]%nat]>
         (<["hc_cluster" := nums [2; 2; 2; 0]%nat]> ∅)))
        Undefined Undefined [].

Definition table_source : ColumnDataSource :=
  mkCDS (<["hc_cluster" := nums [0; 1; 2]%nat]> ∅) Undefined Undefined [].

Definition dashboard : Main.sources :=
  Main.mkSources hex_source map_source table_source.


(** The same dashboard after a tap on node 1. *)
Definition dashboard_node1 : Main.sources :=
  Main.mkSources (set_selected hex_source [Num 1]) map_source table_source.

(** Two sites with one attribute whose variance is a square. *)
Definition two_sites : DataFrame :=
  mkDF 2 [("pop", NumCol Float64 [Qc_of_Z 1; Qc_of_Z 3]);
          ("name", ObjCol ["a"; "b"]);
          ("code", NumCol Int64 [Qc_of_Z 7; Qc_of_Z 9])].

(** A table without rows. *)
Definition no_rows : DataFrame :=
  mkDF 0 [("pop", NumCol Float64 []); ("geometry", ObjCol [])].

(** Observations in the clusters 0, 2 and 4 only. *)
Definition sparse : DataFrame :=
  mkDF 4 [("x", NumCol Float64 [Qc_of_Z 1; Qc_of_Z 2; Qc_of_Z 3; Qc_of_Z 5]);
          ("hc_cluster", ClusterAnalysis.int_column [4; 0; 2; 4]%nat)].

(** The observations of [three_obs] with their best-matching units and
    clusters, as [assign_clusters] returns them on the line map. *)
Definition line_hex_df : DataFrame :=
  mkDF 3 [("x", NumCol Float64 [Qc_of_Z 1; Qc_of_Z 15; Qc_of_Z 25]);
          ("bmu_x", ClusterAnalysis.int_column [0; 0; 0]%nat);
          ("bmu_y", ClusterAnalysis.int_column [0; 1; 2]%nat);
          ("hc_cluster", ClusterAnalysis.int_column [0; 1; 2]%nat)].

(** The line map with a U-Matrix that is flat. *)
Definition flat_som : MiniSom :=
  mkSom line_weights (bmu line_weights)
        [[ Qc_of_Z 1; Qc_of_Z 1; Qc_of_Z 1; Qc_of_Z 1; Qc_of_Z 1; Qc_of_Z 1 ]].

(** The geometry table of the three observations. *)
Definition line_geo_df : DataFrame :=
  mkDF 3 [("geometry", ObjCol ["POLYGON A"; "POLYGON B"; "POLYGON C"]);
          ("x", NumCol Float64 [Qc_of_Z 10; Qc_of_Z 150; Qc_of_Z 250])].


End Examples.

(* ===================================================================== *)
(** * Properties                                                          *)
(* ===================================================================== *)

Import DataLoader ClusterAnalysis Main.

(** ** Arithmetic on exact values *)

Section Arithmetic.

Lemma Qc_of_nat_S (n : nat) : Qc_of_nat (S n) = 1 + Qc_of_nat n.
Proof.
  unfold Qc_of_nat. rewrite Nat2Z.inj_succ, <- Z.add_1_l, Z2Qc_inj_add.
  by rewrite Z2Qc_inj_1.
Qed.

Lemma Qc_of_nat_0 : Qc_of_nat 0 = 0.
Proof. unfold Qc_of_nat. simpl. apply Z2Qc_inj_0. Qed.

Lemma Qc_of_nat_pos (n : nat) : (0 < n)%nat -> 0 < Qc_of_nat n.
Proof.
  intros Hn. unfold Qc_of_nat.
  pose proof (proj1 (Z2Qc_inj_lt 0 (Z.of_nat n))) as H.
  rewrite Z2Qc_inj_0 in H. apply H. lia.
Qed.

Lemma Qc_of_nat_nonzero (n : nat) : (0 < n)%nat -> Qc_of_nat n <> 0.
Proof.
  intros Hn Heq. apply Qc_of_nat_pos in Hn. rewrite Heq in Hn.
  by apply (irreflexivity Qclt 0).
Qed.

Lemma Qc_square_nonneg (a : Qc) : 0 ≤ a * a.
Proof.
  destruct (Qclt_le_dec a 0) as [Hneg | Hpos].
  - replace (a * a) with ((- a) * (- a)) by ring.
    assert (0 ≤ - a).
    { apply Qclt_le_weak in Hneg. apply (Qcplus_le_mono_r _ _ a).
      by replace (- a + a) with 0 by ring; rewrite Qcplus_0_l. }
    by apply Qcmult_nonneg_nonneg.
  - by apply Qcmult_nonneg_nonneg.
Qed.

Lemma sum_replicate (n : nat) (v : Qc) : sum (replicate n v) = Qc_of_nat n * v.
Proof.
  induction n as [| n IH]; simpl.
  - rewrite Qc_of_nat_0. ring.
  - rewrite IH, Qc_of_nat_S. ring.
Qed.

Lemma sum_cons (x : Qc) (l : list Qc) : sum (x :: l) = x + sum l.
Proof. reflexivity. Qed.

End Arithmetic.

(** ** data_loader.py: the scaler *)

Section ScalerFacts.

Variable sqrt : Qc -> Qc.

Lemma mean_replicate (n : nat) (v : Qc) :
  (0 < n)%nat -> mean_ (replicate n v) = v.
Proof.
  intros Hn. unfold mean_.
  rewrite sum_replicate, length_replicate.
  field. by apply Qc_of_nat_nonzero.
Qed.

Lemma var_replicate (n : nat) (v : Qc) :
  (0 < n)%nat -> var_ (replicate n v) = 0.
Proof.
  intros Hn. unfold var_. rewrite mean_replicate by done.
  rewrite length_replicate.
  replace (map (fun x => (x - v) * (x - v)) (replicate n v)) with (replicate n 0).
  - rewrite sum_replicate. field. by apply Qc_of_nat_nonzero.
  - clear Hn. induction n as [| n IH]; simpl; [done |].
    f_equal; [ring | done].
Qed.

(** A feature of variance zero is a constant feature for the guard,
    whatever its mean and the number of samples. *)
Lemma zero_variance_is_constant (m : Qc) (n : nat) :
  is_constant_feature 0 m n = true.
Proof.
  unfold is_constant_feature. apply bool_decide_eq_true.
  rewrite Qcmult_0_r, Qcplus_0_l. apply Qc_square_nonneg.
Qed.

Lemma scale_replicate (n : nat) (v : Qc) :
  (0 < n)%nat -> scale_ sqrt (replicate n v) = 1.
Proof.
  intros Hn. unfold scale_.
  by rewrite var_replicate, zero_variance_is_constant.
Qed.

Lemma transform_replicate (n : nat) (v : Qc) :
  (0 < n)%nat -> transform sqrt (replicate n v) = replicate n 0.
Proof.
  intros Hn. unfold transform.
  rewrite scale_replicate, mean_replicate by done.
  clear Hn. induction n as [| n IH]; simpl; [done |].
  f_equal; [| done]. unfold Qcdiv. ring.
Qed.

End ScalerFacts.

(** With a square root that is positive on positive values, as the real
    one is, no feature is divided by zero. *)
Section Divisors.

Variable sqrt : Qc -> Qc.
Hypothesis sqrt_pos : forall v, 0 < v -> 0 < sqrt v.

Lemma sum_squares_nonneg (m : Qc) (xs : list Qc) :
  0 ≤ sum (map (fun x => (x - m) * (x - m)) xs).
Proof.
  induction xs as [| x xs IH]; [apply Qcle_refl |].
  cbn [map]. rewrite sum_cons.
  apply Qcplus_nonneg_nonneg; [apply Qc_square_nonneg | done].
Qed.

Lemma var_nonneg (xs : list Qc) : 0 ≤ var_ xs.
Proof.
  unfold var_. destruct xs as [| x xs].
  - simpl. unfold Qcdiv. rewrite Qcmult_0_l. apply Qcle_refl.
  - apply Qcmult_nonneg_nonneg; [apply sum_squares_nonneg |].
    apply Qclt_le_weak, Qcinv_pos, Qc_of_nat_pos. simpl. lia.
Qed.

(** The scale that [transform] divides by is never zero. *)
Lemma scale_nonzero (xs : list Qc) : scale_ sqrt xs <> 0.
Proof.
  unfold scale_. destruct (is_constant_feature _ _ _) eqn:Hc; [done |].
  unfold is_constant_feature in Hc. apply bool_decide_eq_false in Hc.
  apply Qcnot_le_lt in Hc.
  assert (Hpos : 0 < var_ xs).
  { eapply Qcle_lt_trans; [| exact Hc].
    apply Qcplus_nonneg_nonneg; [| apply Qc_square_nonneg].
    apply Qcmult_nonneg_nonneg; [| apply var_nonneg].
    apply Qcmult_nonneg_nonneg; [| done].
    destruct (length xs) as [| n]; [rewrite Qc_of_nat_0; apply Qcle_refl |].
    apply Qclt_le_weak, Qc_of_nat_pos. lia. }
  intros Heq. specialize (sqrt_pos _ Hpos). rewrite Heq in sqrt_pos.
  by apply (irreflexivity Qclt 0).
Qed.

End Divisors.

(** ** Data frames *)

Section FrameFacts.

Lemma assoc_Some_elem name cs c : assoc name cs = Some c -> (name, c) ∈ cs.
Proof.
  induction cs as [| [n c'] cs IH]; simpl; [done |].
  destruct (decide (n = name)) as [-> | Hne].
  - intros [= ->]. left.
  - intros H. right. auto.
Qed.

Lemma assoc_is_Some name cs : is_Some (assoc name cs) <-> name ∈ cs.*1.
Proof.
  induction cs as [| [n c'] cs IH]; simpl.
  - split; [intros [? ?]; done | intros H; inversion H].
  - destruct (decide (n = name)) as [-> | Hne].
    + split; [intros _; left | eauto].
    + rewrite IH. split; [intros H; by right |].
      intros H. inversion H; subst; done.
Qed.

Lemma assoc_replace_same name c cs :
  assoc name (replace_or_append name c cs) = Some c.
Proof.
  induction cs as [| [n c'] cs IH]; simpl.
  - by rewrite decide_True.
  - destruct (decide (n = name)) as [-> | Hne]; simpl.
    + by rewrite decide_True.
    + by rewrite decide_False.
Qed.

Lemma assoc_replace_other name n c cs :
  name <> n -> assoc n (replace_or_append name c cs) = assoc n cs.
Proof.
  intros Hne. induction cs as [| [m c'] cs IH]; simpl.
  - by rewrite decide_False.
  - destruct (decide (m = name)) as [-> | Hm]; simpl.
    + by rewrite !decide_False.
    + destruct (decide (m = n)); done.
Qed.

Lemma assoc_filter (P : string * column -> Prop) `{!forall x, Decision (P x)}
    name c cs :
  assoc name cs = Some c -> P (name, c) -> assoc name (filter P cs) = Some c.
Proof.
  intros Ha HP. induction cs as [| [m c'] cs IH]; simpl in *; [done |].
  destruct (decide (m = name)) as [-> | Hm].
  - injection Ha as ->. rewrite filter_cons_True by done. simpl.
    by rewrite decide_True.
  - rewrite filter_cons. destruct (decide (P (m, c'))); simpl; auto.
    rewrite decide_False by done. auto.
Qed.

End FrameFacts.
(** ** The object store *)

Section StoreFacts.
Context {A : Type}.
Implicit Types (s l : list A).

Lemma lookup_fresh s l (k : nat) : (s ++ l) !! (length s + k)%nat = l !! k.
Proof. rewrite lookup_app_r by lia. f_equal. lia. Qed.

Lemma insert_fresh s l (k : nat) x :
  <[(length s + k)%nat := x]> (s ++ l) = s ++ <[k := x]> l.
Proof. rewrite insert_app_r_alt by lia. do 2 f_equal. lia. Qed.

Lemma lookup_old s l (r : nat) a : s !! r = Some a -> (s ++ l) !! r = Some a.
Proof. intros H. by apply lookup_app_l_Some. Qed.

End StoreFacts.

(** Normalises a store built by allocations on top of [s]. *)
Ltac run_store :=
  repeat first
    [ rewrite <- app_assoc
    | rewrite length_app
    | rewrite lookup_fresh
    | rewrite insert_fresh
    | progress simpl ].

(** ** data_loader.py: [scale_data] on the object store *)

Section ScaleDataFacts.

Variable sqrt : Qc -> Qc.

Lemma carry_through_run (s : store) (l : list DataFrame) (gdf : ref) (g sdf : DataFrame)
    (k : nat) (coord : string) :
  s !! gdf = Some g -> l !! k = Some sdf ->
  carry_through gdf (length s + k)%nat coord (s ++ l) =
    if has_column g coord
    then match getcol g coord with
         | Ok c => match setcol sdf coord c with
                   | Ok sdf' => Ok (tt, s ++ <[k := sdf']> l)
                   | Raise e => Raise e
                   end
         | Raise e => Raise e
         end
    else Ok (tt, s ++ l).
Proof.
  intros Hg Hk.
  unfold carry_through, setitem, deref, assign, lift.
  unfold mbind, M_bind, mret, M_ret, ref, store in *.
  rewrite (lookup_old _ _ _ _ Hg).
  destruct (has_column g coord); [| done].
  destruct (getcol g coord) as [c | e]; [| done].
  rewrite lookup_fresh, Hk.
  destruct (setcol sdf coord c) as [sdf' | e]; [| done].
  by rewrite lookup_fresh, Hk, insert_fresh.
Qed.

Lemma scale_data_run (s : store) (gdf : ref) (g : DataFrame) ex :
  s !! gdf = Some g ->
  let sel := select_dtypes is_number g in
  let n := drop (filter (fun c => c ∈ names sel) (default [] ex)) sel in
  scale_data sqrt gdf ex s =
    match fit_transform sqrt (index n) (omap (fun nc => floats nc.2) (columns n)) with
    | Raise e => Raise e
    | Ok arr =>
        let sc := (length s + 2)%nat in
        let s' := s ++ [sel; n; mkDF (index g) (zip (names n) (map (NumCol Float64) arr))] in
        (carry_through gdf sc "hex_x";; carry_through gdf sc "hex_y";; mret (sc, gdf)) s'
    end.
Proof.
  intros Hg sel n.
  unfold scale_data, select_number, copy, drop_inplace, new_frame, deref, alloc, assign, lift.
  unfold mbind, M_bind, mret, M_ret, ref, store in *. simpl.
  rewrite Hg.
  rewrite <- (Nat.add_0_r (length s)) at 1.
  run_store.
  rewrite (lookup_old _ _ _ _ Hg).
  fold sel. fold n.
  destruct (fit_transform _ _ _) as [arr | e]; [| done].
  run_store. done.
Qed.

Lemma has_column_getcol (g : DataFrame) (coord : string) :
  has_column g coord = true <-> exists c, getcol g coord = Ok c.
Proof.
  unfold has_column, getcol, names. rewrite bool_decide_eq_true, <- assoc_is_Some.
  destruct (assoc coord (columns g)) as [c |].
  - split; eauto.
  - split; [intros [? ?]; done | intros [? ?]; done].
Qed.

Lemma getcol_setcol_same (df df' : DataFrame) name c :
  setcol df name c = Ok df' -> getcol df' name = Ok c.
Proof.
  unfold setcol, getcol. destruct (decide _); [| done].
  intros [= <-]. simpl. by rewrite assoc_replace_same.
Qed.

Lemma getcol_setcol_other (df df' : DataFrame) name n c :
  name <> n -> setcol df name c = Ok df' -> getcol df' n = getcol df n.
Proof.
  unfold setcol, getcol. intros Hne. destruct (decide _); [| done].
  intros [= <-]. simpl. by rewrite assoc_replace_other.
Qed.

Lemma setcol_index (df df' : DataFrame) name c :
  setcol df name c = Ok df' -> index df' = index df.
Proof. unfold setcol. destruct (decide _); [| done]. by intros [= <-]. Qed.

Lemma wf_getcol_length (g : DataFrame) name c :
  wf g -> getcol g name = Ok c -> col_length c = index g.
Proof.
  intros [_ Hlen] Hc. unfold getcol in Hc.
  destruct (assoc name (columns g)) as [c' |] eqn:Ha; [| done].
  injection Hc as ->. apply assoc_Some_elem in Ha.
  rewrite Forall_forall in Hlen. by apply (Hlen _ Ha).
Qed.

(** One step of the loop on a frame [sdf] that the function allocated:
    the column [coord] of [g], when there is one, becomes a column of
    [sdf]; nothing else changes. *)
Lemma carry_through_once (s : store) (a b sdf : DataFrame) (gdf : ref)
    (g : DataFrame) (coord : string) :
  s !! gdf = Some g ->
  match carry_through gdf (length s + 2)%nat coord (s ++ [a; b; sdf]) with
  | Ok (_, s') =>
      exists sdf', s' = s ++ [a; b; sdf'] /\ index sdf' = index sdf /\
        forall name,
          getcol sdf' name =
            if bool_decide (name = coord) && has_column g name
            then getcol g name else getcol sdf name
  | Raise e => ~ (wf g /\ index sdf = index g)
  end.
Proof.
  intros Hg.
  rewrite (carry_through_run s [a; b; sdf] gdf g sdf 2 coord Hg eq_refl).
  destruct (has_column g coord) eqn:Hhas.
  - apply has_column_getcol in Hhas as Hcol. destruct Hcol as [c Hc]. rewrite Hc.
    destruct (setcol sdf coord c) as [sdf' | e] eqn:Hset.
    + exists sdf'. split; [done |]. split; [by eapply setcol_index |].
      intros name. destruct (decide (name = coord)) as [-> | Hne].
      * rewrite bool_decide_eq_true_2, Hhas, Hc by done. simpl.
        by eapply getcol_setcol_same.
      * rewrite bool_decide_eq_false_2 by done. simpl.
        by eapply getcol_setcol_other.
    + intros [Hwf Hidx]. unfold setcol in Hset.
      rewrite (wf_getcol_length _ _ _ Hwf Hc), Hidx in Hset.
      by rewrite decide_True in Hset.
  - exists sdf. split; [done |]. split; [done |].
    intros name. destruct (decide (name = coord)) as [-> | Hne].
    + by rewrite Hhas, andb_false_r.
    + by rewrite bool_decide_eq_false_2.
Qed.

(** Where the carried-through columns end up: the two steps of the loop
    on a frame [sdf] of [g]'s index. *)
Lemma carry_through_twice (s : store) (a b sdf : DataFrame) (gdf : ref) (g : DataFrame) :
  s !! gdf = Some g ->
  forall r, (carry_through gdf (length s + 2)%nat "hex_x";;
             carry_through gdf (length s + 2)%nat "hex_y";;
             mret ((length s + 2)%nat, gdf)) (s ++ [a; b; sdf]) = r ->
  match r with
  | Ok ((sc, geo), s') =>
      sc = (length s + 2)%nat /\ geo = gdf /\
      exists sdf', s' = s ++ [a; b; sdf'] /\
        forall name,
          getcol sdf' name =
            if bool_decide (name ∈ ["hex_x"; "hex_y"]) && has_column g name
            then getcol g name else getcol sdf name
  | Raise e => ~ (wf g /\ index sdf = index g)
  end.
Proof.
  intros Hg r <-. unfold mbind at 1. unfold M_bind.
  pose proof (carry_through_once s a b sdf gdf g "hex_x" Hg) as Hx.
  destruct (carry_through gdf _ "hex_x" _) as [[[] s1] | e]; [| done].
  destruct Hx as (sdf1 & -> & Hidx1 & Hcols1).
  unfold mbind at 1. unfold M_bind.
  pose proof (carry_through_once s a b sdf1 gdf g "hex_y" Hg) as Hy.
  destruct (carry_through gdf _ "hex_y" _) as [[[] s2] | e];
    [| by rewrite Hidx1 in Hy].
  destruct Hy as (sdf2 & -> & Hidx2 & Hcols2).
  simpl. split; [done |]. split; [done |]. exists sdf2. split; [done |].
  intros name. rewrite Hcols2, Hcols1.
  destruct (decide (name = "hex_y")) as [-> | Hny].
  { rewrite !bool_decide_eq_true_2 by (done || set_solver). done. }
  rewrite (bool_decide_eq_false_2 (name = "hex_y")) by done. simpl.
  destruct (decide (name = "hex_x")) as [-> | Hnx].
  { rewrite !bool_decide_eq_true_2 by (done || set_solver). done. }
  rewrite !bool_decide_eq_false_2; [done | | done].
  rewrite !elem_of_cons, elem_of_nil. by intros [? | [? | []]].
Qed.

(** The frame that is scaled: [g]'s numeric columns minus the excluded ones. *)
Lemma scaled_frame_columns (g : DataFrame) (ex : list string) name dt xs :
  let sel := select_dtypes is_number g in
  let n := drop (filter (fun c => c ∈ names sel) ex) sel in
  assoc name (columns g) = Some (NumCol dt xs) -> name ∉ ex ->
  assoc name (columns n) = Some (NumCol dt xs).
Proof.
  intros sel n Ha Hex. unfold n, sel, drop, select_dtypes. simpl.
  apply (assoc_filter (fun nc => nc.1 ∉ _)); [| simpl].
  - by apply (assoc_filter (fun nc => is_number nc.2 = true)).
  - intros Hin. apply list_elem_of_filter in Hin. tauto.
Qed.

Lemma scaled_frame_numeric (g : DataFrame) (ex : list string) :
  Forall (fun nc => is_number nc.2 = true)
         (columns (drop ex (select_dtypes is_number g))).
Proof.
  unfold drop, select_dtypes. simpl. apply Forall_forall. intros nc Hin.
  apply list_elem_of_filter in Hin as [_ Hin].
  by apply list_elem_of_filter in Hin as [Hnum _].
Qed.

Lemma assoc_scaled (T : list Qc -> list Qc) cs name dt xs :
  Forall (fun nc : string * column => is_number nc.2 = true) cs ->
  assoc name cs = Some (NumCol dt xs) ->
  assoc name (zip cs.*1 (map (NumCol Float64)
                           (map T (omap (fun nc => floats nc.2) cs))))
  = Some (NumCol Float64 (T xs)).
Proof.
  induction 1 as [| [m c] cs Hc Hcs IH]; simpl; [done |].
  destruct c as [dt' ys | ys]; [| done]. simpl.
  destruct (decide (m = name)) as [-> | Hm].
  - by intros [= -> ->].
  - done.
Qed.

Lemma fit_transform_ok (g : DataFrame) (ex : option (list string)) :
  (0 < index g)%nat -> scalable g ex ->
  let sel := select_dtypes is_number g in
  let n := drop (filter (fun c => c ∈ names sel) (default [] ex)) sel in
  fit_transform sqrt (index n) (omap (fun nc => floats nc.2) (columns n))
  = Ok (map (transform sqrt) (omap (fun nc => floats nc.2) (columns n))).
Proof.
  intros Hpos (name & dt & xs & Ha & Hex) sel n.
  unfold fit_transform. rewrite decide_False by (simpl; lia).
  rewrite decide_False; [done |].
  pose proof (scaled_frame_columns g (default [] ex) name dt xs Ha Hex) as Hn.
  fold sel n in Hn. apply assoc_Some_elem in Hn.
  intros Hnil.
  assert (Hin : xs ∈ omap (fun nc : string * column => floats nc.2) (columns n)).
  { apply list_elem_of_omap. by exists (name, NumCol dt xs). }
  rewrite Hnil in Hin. inversion Hin.
Qed.

(** C9: [scale_data] hands back the geometry table it was given: the
    second component of its result is the reference it received, the
    frame behind it is the frame that was there before the call, and no
    object that existed before the call has changed (everything the
    function writes, it writes to frames it has allocated itself).
    Each of the grid keys [hex_x] and [hex_y] that the input has is a
    column of the standardized table, equal to the input's column, so
    with the original, unscaled values.  The call returns whenever the
    input is well formed, has a row and has a numeric column to scale
    (the scaler rejects an empty array). *)
Theorem scale_data_keeps_geometry (s : store) (gdf : ref) (g : DataFrame)
    (ex : option (list string)) :
  s !! gdf = Some g ->
  (forall sc geo s', scale_data sqrt gdf ex s = Ok ((sc, geo), s') ->
     geo = gdf /\ s' !! gdf = Some g
     /\ (forall r, (r < length s)%nat -> s' !! r = s !! r)
     /\ exists sdf, s' !! sc = Some sdf
        /\ forall coord c, coord ∈ ["hex_x"; "hex_y"] ->
             getcol g coord = Ok c -> getcol sdf coord = Ok c)
  /\ (wf g -> (0 < index g)%nat -> scalable g ex ->
      is_ok (scale_data sqrt gdf ex s) = true).
Proof.
  intros Hg. rewrite (scale_data_run s gdf g ex Hg). cbv zeta.
  set (sel := select_dtypes is_number g).
  set (n := drop _ sel).
  split.
  - intros sc geo s' Hrun.
    destruct (fit_transform _ _ _) as [arr | e]; [| done].
    pose proof (carry_through_twice s sel n _ gdf g Hg _ Hrun) as Hc.
    simpl in Hc. destruct Hc as (-> & -> & sdf' & -> & Hcols).
    split; [done |]. split; [by apply lookup_old |].
    split; [intros r Hr; by apply lookup_app_l |].
    exists sdf'. split; [exact (lookup_fresh s [sel; n; sdf'] 2) |].
    intros coord c Hin Hgc. rewrite Hcols.
    rewrite bool_decide_eq_true_2 by done.
    assert (has_column g coord = true) as -> by (apply has_column_getcol; eauto).
    done.
  - intros Hwf Hpos Hsc.
    unfold n, sel. rewrite (fit_transform_ok g ex Hpos Hsc).
    fold sel. fold n.
    match goal with |- is_ok ?r = true => destruct r as [[[sc geo] s'] | e] eqn:Hrun end;
      [done |].
    pose proof (carry_through_twice s sel n _ gdf g Hg _ Hrun) as Hc.
    simpl in Hc. exfalso. apply Hc. by split.
Qed.

(** C3: a numeric column whose values are all equal to [v] (in a frame
    with at least one row) meets the scaler's guard for constant
    features: its scale is 1, so the division of [transform] is by 1 and
    not by the zero standard deviation, [scale_data] returns, and the
    column of the standardized table is the defined constant 0 in every
    row.  (When the column is itself one of the grid keys it is carried
    through with its original values [v].) *)
Theorem scale_data_constant_column (s : store) (gdf : ref) (g : DataFrame)
    (ex : option (list string)) (name : string) (dt : numtype) (v : Qc) :
  s !! gdf = Some g -> wf g -> (0 < index g)%nat ->
  getcol g name = Ok (NumCol dt (replicate (index g) v)) ->
  name ∉ default [] ex ->
  scale_ sqrt (replicate (index g) v) = 1
  /\ exists sc s' sdf,
       scale_data sqrt gdf ex s = Ok ((sc, gdf), s')
       /\ s' !! sc = Some sdf
       /\ getcol sdf name =
            Ok (if bool_decide (name ∈ ["hex_x"; "hex_y"])
                then NumCol dt (replicate (index g) v)
                else NumCol Float64 (replicate (index g) 0)).
Proof.
  intros Hg Hwf Hpos Hcol Hex.
  split; [by apply scale_replicate |].
  assert (Ha : assoc name (columns g) = Some (NumCol dt (replicate (index g) v))).
  { unfold getcol in Hcol. by destruct (assoc name (columns g)); simplify_eq. }
  assert (Hsc : scalable g ex) by (by exists name, dt, (replicate (index g) v)).
  rewrite (scale_data_run s gdf g ex Hg). cbv zeta.
  rewrite (fit_transform_ok g ex Hpos Hsc).
  set (sel := select_dtypes is_number g).
  set (n := drop _ sel).
  match goal with |- context [?m (s ++ [sel; n; ?d])] =>
    destruct (m (s ++ [sel; n; d])) as [[[sc geo] s'] | e] eqn:Hrun;
    pose proof (carry_through_twice s sel n d gdf g Hg _ Hrun) as Hc
  end; lazy beta iota in Hc; [| exfalso; apply Hc; by split].
  destruct Hc as (-> & -> & sdf' & -> & Hcols).
  exists (length s + 2)%nat, (s ++ [sel; n; sdf']), sdf'.
  split; [done |]. split; [exact (lookup_fresh s [sel; n; sdf'] 2) |].
  rewrite Hcols.
  assert (Hhas : has_column g name = true) by (apply has_column_getcol; eauto).
  rewrite Hhas, andb_true_r.
  destruct (bool_decide (name ∈ ["hex_x"; "hex_y"])); [done |].
  unfold getcol. cbn [columns]. unfold names.
  rewrite (assoc_scaled (transform sqrt) (columns n) name dt (replicate (index g) v)).
  - by rewrite transform_replicate.
  - apply scaled_frame_numeric.
  - by apply scaled_frame_columns.
Qed.

End ScaleDataFacts.

Lemma regions_wf : wf Examples.regions.
Proof. apply (bool_decide_unpack _). vm_compute. reflexivity. Qed.

Lemma scale_data_keeps_geometry_witness :
  (forall sc geo s',
     scale_data Examples.rsqrt 0%nat (Some ["pop"]) [Examples.regions]
       = Ok ((sc, geo), s') ->
     geo = 0%nat /\ s' !! 0%nat = Some Examples.regions
     /\ (forall r, (r < 1)%nat -> s' !! r = [Examples.regions] !! r)
     /\ exists sdf, s' !! sc = Some sdf
        /\ forall coord c, coord ∈ ["hex_x"; "hex_y"] ->
             getcol Examples.regions coord = Ok c -> getcol sdf coord = Ok c)
  /\ (wf Examples.regions -> (0 < 3)%nat ->
      scalable Examples.regions (Some ["pop"]) ->
      is_ok (scale_data Examples.rsqrt 0%nat (Some ["pop"]) [Examples.regions])
        = true).
Proof.
  apply (scale_data_keeps_geometry Examples.rsqrt [Examples.regions] 0%nat
           Examples.regions (Some ["pop"])).
  reflexivity.
Defined.

Lemma scale_data_constant_column_witness :
  scale_ Examples.rsqrt (replicate 3 (Qc_of_Z 5)) = 1
  /\ exists sc s' sdf,
       scale_data Examples.rsqrt 0%nat None [Examples.regions]
         = Ok ((sc, 0%nat), s')
       /\ s' !! sc = Some sdf
       /\ getcol sdf "flat" = Ok (NumCol Float64 (replicate 3 0)).
Proof.
  apply (scale_data_constant_column Examples.rsqrt [Examples.regions] 0%nat
           Examples.regions None "flat" Int64 (Qc_of_Z 5)).
  - reflexivity.
  - apply regions_wf.
  - simpl. lia.
  - reflexivity.
  - simpl. apply not_elem_of_nil.
Defined.

(** ** cluster_analysis.py: [assign_clusters] *)

Lemma bind_Ok {A B} (a : A) (f : A -> result B) : Ok a ≫= f = f a.
Proof. reflexivity. Qed.

Lemma bind_Raise {A B} (e : exn) (f : A -> result B) : Raise e ≫= f = Raise e.
Proof. reflexivity. Qed.

Section TraverseFacts.
Context {A B : Type} (f : A -> result B).

Lemma traverse_Forall2 (l : list A) (bs : list B) :
  traverse f l = Ok bs <-> Forall2 (fun a b => f a = Ok b) l bs.
Proof.
  revert bs. induction l as [| a l IH]; intros bs; simpl.
  - split; [intros [= <-]; constructor | intros H; by inversion H].
  - unfold mbind, result_bind.
    destruct (f a) as [b | e] eqn:Hfa.
    + destruct (traverse f l) as [bs' | e] eqn:Ht.
      * split.
        -- intros [= <-]. constructor; [done | by apply IH].
        -- intros H. inversion H as [| ? b' ? bs'' Hb Hbs]; subst.
           apply IH in Hbs. congruence.
      * split; [done |]. intros H. inversion H as [| ? b' ? bs'' Hb Hbs]; subst.
        apply IH in Hbs. done.
    + split; [done |]. intros H. inversion H; subst. congruence.
Qed.

Lemma traverse_total (l : list A) :
  Forall (fun a => is_ok (f a) = true) l -> is_ok (traverse f l) = true.
Proof.
  induction 1 as [| a l Ha Hl IH]; simpl; [done |].
  unfold mbind, result_bind.
  destruct (f a); [| done]. by destruct (traverse f l).
Qed.

End TraverseFacts.

Section GridFacts.
Context {A : Type}.

Lemma concat_row_major (y : nat) (w : list (list A)) (i j : nat) (r : list A) :
  Forall (fun r => length r = y) w -> w !! i = Some r -> (j < y)%nat ->
  concat w !! (i * y + j)%nat = r !! j.
Proof.
  intros Hrect. revert i.
  induction Hrect as [| r0 w' Hr0 Hw IH]; intros i Hi Hj; [done |].
  simpl. destruct i as [| i]; simpl in *.
  - injection Hi as ->. by rewrite lookup_app_l by lia.
  - rewrite lookup_app_r by lia. rewrite <- (IH i Hi Hj). f_equal. lia.
Qed.

Lemma concat_length_rect (y : nat) (w : list (list A)) :
  Forall (fun r => length r = y) w -> length (concat w) = (length w * y)%nat.
Proof.
  induction 1 as [| r0 w' Hr0 Hw IH]; [done |].
  simpl. rewrite length_app, IH. lia.
Qed.

(** Row-major order: position [i * y_dim + j] of the flattened array
    holds entry [(i, j)]. *)
Lemma flatten_row_major (w : list (list A)) (i j : nat) (r : list A) :
  rectangular w -> w !! i = Some r -> (j < (shape w).2)%nat ->
  flatten w !! (i * (shape w).2 + j)%nat = r !! j.
Proof. apply concat_row_major. Qed.

Lemma flatten_length (w : list (list A)) :
  rectangular w -> length (flatten w) = ((shape w).1 * (shape w).2)%nat.
Proof. apply concat_length_rect. Qed.

End GridFacts.

Section AssignFacts.
Context `{C : Clustering}.

Lemma values_length (df : DataFrame) : length (values df) = index df.
Proof. unfold values. by rewrite length_map, length_seq. Qed.

Lemma setcol_ok (df : DataFrame) name c :
  col_length c = index df ->
  setcol df name c = Ok (mkDF (index df) (replace_or_append name c (columns df))).
Proof. intros H. unfold setcol. by rewrite decide_True. Qed.

Lemma int_column_length (xs : list nat) : col_length (int_column xs) = length xs.
Proof. unfold int_column. simpl. by rewrite length_map. Qed.

Lemma node_index_in_grid (x y i j : nat) :
  (i < x)%nat -> (j < y)%nat -> (i * y + j < x * y)%nat.
Proof. intros Hi Hj. nia. Qed.

(** C1: every observation inherits the cluster label of its
    best-matching unit.  With [node_labels] the agglomerative clustering
    of the flattened (row-major) node weight vectors, the frame that
    [assign_clusters] returns has, in row [k], the coordinates
    [(bmu_x, bmu_y)] that [winner] gives for observation [k] and the
    label [node_labels[bmu_x * y_dim + bmu_y]] as [hc_cluster].  The
    call returns whenever the clustering has one label per node, the
    weight array is rectangular and [winner] answers inside the grid. *)
Theorem assign_clusters_inherits_bmu_label (som : MiniSom) (data_df : DataFrame)
    (n_clusters : Z) (node_labels : list nat) :
  fit_predict n_clusters (flatten (get_weights som)) = Ok node_labels ->
  let y_dim := (shape (get_weights som)).2 in
  let obs := values (drop ["hex_x"; "hex_y"] data_df) in
  (forall df_out, assign_clusters som data_df n_clusters = Ok df_out ->
     exists clusters,
       getcol df_out "hc_cluster" = Ok (int_column clusters)
       /\ getcol df_out "bmu_x" = Ok (int_column (map (fun o => (winner som o).1) obs))
       /\ getcol df_out "bmu_y" = Ok (int_column (map (fun o => (winner som o).2) obs))
       /\ length clusters = index data_df
       /\ forall k o, obs !! k = Some o ->
            exists label, clusters !! k = Some label
              /\ node_labels !! ((winner som o).1 * y_dim + (winner som o).2)%nat
                 = Some label)
  /\ (lawful C -> rectangular (get_weights som) -> winner_in_grid som ->
      is_ok (assign_clusters som data_df n_clusters) = true).
Proof.
  intros Hfit y_dim obs. unfold assign_clusters.
  subst y_dim. destruct (shape (get_weights som)) as [x_dim y_dim] eqn:Hshape.
  cbn [snd]. rewrite Hfit, bind_Ok. fold obs.
  split.
  - intros df_out Hrun.
    destruct (traverse _ _) as [clusters | e] eqn:Htr; [| done].
    apply traverse_Forall2 in Htr.
    unfold mbind, result_bind in Hrun.
    destruct (setcol data_df "bmu_x" _) as [df1 | e] eqn:H1; [| done].
    destruct (setcol df1 "bmu_y" _) as [df2 | e] eqn:H2; [| done].
    destruct (setcol df2 "hc_cluster" _) as [df3 | e] eqn:H3; [| done].
    injection Hrun as <-.
    exists clusters. split; [by eapply getcol_setcol_same |].
    split.
    { rewrite (getcol_setcol_other _ _ "hc_cluster" "bmu_x" _ ltac:(done) H3).
      rewrite (getcol_setcol_other _ _ "bmu_y" "bmu_x" _ ltac:(done) H2).
      rewrite (getcol_setcol_same _ _ _ _ H1). by rewrite map_map. }
    split.
    { rewrite (getcol_setcol_other _ _ "hc_cluster" "bmu_y" _ ltac:(done) H3).
      rewrite (getcol_setcol_same _ _ _ _ H2). by rewrite map_map. }
    split.
    { apply Forall2_length in Htr. rewrite !length_map in Htr.
      unfold obs in Htr. rewrite values_length in Htr. simpl in Htr. lia. }
    intros k o Hk.
    match type of Htr with Forall2 _ ?l _ =>
      assert (Hk' : l !! k = Some ((winner som o).1 * y_dim + (winner som o).2)%nat)
    end.
    { rewrite !list_lookup_fmap, Hk. reflexivity. }
    destruct (Forall2_lookup_l _ _ _ _ _ Htr Hk') as (label & Hl & Hat).
    exists label. split; [done |].
    unfold at_ in Hat. by destruct (node_labels !! _); simplify_eq.
  - intros Hlaw Hrect Hwin.
    destruct (Hlaw _ _ _ Hfit) as (Hlen & _ & _).
    rewrite flatten_length, Hshape in Hlen by done. cbn [fst snd] in Hlen.
    match goal with |- context [traverse ?f ?l] =>
      assert (Htot : is_ok (traverse f l) = true)
    end.
    { apply traverse_total. apply Forall_forall. intros idx Hin.
      apply list_elem_of_fmap in Hin as (pt & -> & Hin).
      apply list_elem_of_fmap in Hin as (o & -> & _).
      destruct (Hwin o) as [Hi Hj]. rewrite Hshape in Hi, Hj. cbn [fst snd] in Hi, Hj.
      unfold at_.
      destruct (node_labels !! _) eqn:Hlk; [done |].
      apply lookup_ge_None in Hlk. rewrite Hlen in Hlk.
      pose proof (node_index_in_grid _ _ _ _ Hi Hj) as Hlt. lia. }
    destruct (traverse _ _) as [clusters | e] eqn:Htr; [clear Htot | done].
    apply traverse_Forall2 in Htr. apply Forall2_length in Htr.
    rewrite !length_map in Htr. unfold obs in Htr. rewrite values_length in Htr.
    simpl in Htr. rewrite bind_Ok.
    assert (Hobs : length obs = index data_df) by (unfold obs; by rewrite values_length).
    rewrite (setcol_ok data_df "bmu_x"), bind_Ok
      by (by rewrite int_column_length, !length_map).
    rewrite (setcol_ok _ "bmu_y"), bind_Ok
      by (by rewrite int_column_length, !length_map).
    rewrite (setcol_ok _ "hc_cluster"), bind_Ok by (by rewrite int_column_length).
    done.
Qed.

End AssignFacts.

(** ** cluster_analysis.py: [compute_cluster_means] *)

Section UniquesFacts.

Lemma insert_key_elem (k x : Qc) (l : list Qc) :
  x ∈ insert_key k l <-> x = k \/ x ∈ l.
Proof.
  induction l as [| y l IH]; simpl.
  - rewrite list_elem_of_singleton, elem_of_nil. tauto.
  - destruct (decide (k < y)).
    + by rewrite elem_of_cons.
    + destruct (decide (k = y)) as [-> | Hne].
      * rewrite elem_of_cons. tauto.
      * rewrite !elem_of_cons, IH. tauto.
Qed.

Lemma insert_key_sorted (k : Qc) (l : list Qc) :
  StronglySorted Qclt l -> StronglySorted Qclt (insert_key k l).
Proof.
  induction 1 as [| y l Hs IH Hy]; simpl.
  - by repeat constructor.
  - destruct (decide (k < y)) as [Hlt | Hnlt].
    + constructor; [by constructor |].
      constructor; [done |].
      eapply Forall_impl; [exact Hy |]. intros z Hz. by trans y.
    + destruct (decide (k = y)) as [-> | Hne]; [by constructor |].
      constructor; [done |].
      apply Forall_forall. intros z Hz. apply insert_key_elem in Hz as [-> | Hz].
      * destruct (Qclt_le_dec k y) as [? | Hle]; [done |].
        destruct (Qcle_lt_or_eq _ _ Hle); [done | congruence].
      * rewrite Forall_forall in Hy. by apply Hy.
Qed.

Lemma uniques_sorted (ks : list Qc) : StronglySorted Qclt (uniques ks).
Proof.
  unfold uniques. induction ks as [| k ks IH]; simpl; [constructor |].
  by apply insert_key_sorted.
Qed.

Lemma uniques_elem (ks : list Qc) (k : Qc) : k ∈ uniques ks <-> k ∈ ks.
Proof.
  unfold uniques. induction ks as [| k0 ks IH]; simpl; [done |].
  rewrite insert_key_elem, elem_of_cons, IH. tauto.
Qed.

Lemma sorted_NoDup (l : list Qc) : StronglySorted Qclt l -> NoDup l.
Proof.
  induction 1 as [| y l Hs IH Hy]; constructor; [| done].
  intros Hin. rewrite Forall_forall in Hy. specialize (Hy _ Hin).
  by apply (irreflexivity Qclt y).
Qed.




End UniquesFacts.

Section GroupMeanFacts.

(** The values of the rows that carry label [g]. *)
Abbreviation labelled g rows := ((filter (fun p : nat * Qc => p.1 = g) rows).*2).





End GroupMeanFacts.

(** A cluster id that occurs has observations: the count that the mean
    of its group divides by is not zero. *)
Lemma observations_of_nonempty (ks xs : list Qc) (k : Qc) :
  k ∈ ks -> (length ks <= length xs)%nat -> observations_of ks xs k <> [].
Proof.
  unfold observations_of. revert xs.
  induction ks as [| k0 ks IH]; intros xs Hin Hlen; [by apply elem_of_nil in Hin |].
  destruct xs as [| x xs]; simpl in Hlen; [lia |].
  simpl. rewrite filter_cons. simpl.
  destruct (decide (k0 = k)) as [-> | Hne]; [done |].
  apply IH; [| lia]. apply elem_of_cons in Hin as [-> | Hin]; done.
Qed.

Section ClusterMeansFacts.

Lemma traverse_map {A B} (f : A -> result B) (h : A -> B) (l : list A) :
  (forall a, a ∈ l -> f a = Ok (h a)) -> traverse f l = Ok (map h l).
Proof.
  induction l as [| a l IH]; intros Hf; simpl; [done |].
  rewrite (Hf a) by left. rewrite bind_Ok. rewrite IH; [done |].
  intros b Hb. apply Hf. by right.
Qed.


Lemma assoc_NoDup name c (cs : list (string * column)) :
  NoDup cs.*1 -> (name, c) ∈ cs -> assoc name cs = Some c.
Proof.
  induction cs as [| [m c'] cs IH]; simpl; [by intros _ ?%elem_of_nil |].
  intros Hnd Hin. apply NoDup_cons in Hnd as [Hm Hnd].
  apply elem_of_cons in Hin as [[= -> ->] | Hin].
  - by rewrite decide_True.
  - rewrite decide_False; [by apply IH |].
    intros ->. apply Hm. apply list_elem_of_fmap. by exists (name, c).
Qed.

Lemma selected_column (df : DataFrame) (c : string) :
  NoDup (names df) -> c ∈ names (select_dtypes is_float_or_int df) ->
  exists dt xs, getcol df c = Ok (NumCol dt xs)
                /\ dt ∈ [Float64; Float32; Int64; Int32].
Proof.
  intros Hnd Hin. unfold names, select_dtypes in Hin. simpl in Hin.
  apply list_elem_of_fmap in Hin as ([c' col] & -> & Hin).
  apply list_elem_of_filter in Hin as [Hp Hin]. simpl in *.
  unfold getcol. rewrite (assoc_NoDup _ _ _ Hnd Hin).
  destruct col as [dt xs | xs]; [| done].
  exists dt, xs. split; [done |].
  destruct dt; simpl in Hp; try done; rewrite !elem_of_cons; auto.
Qed.


End ClusterMeansFacts.

(** ** cluster_analysis.py on concrete inputs *)

Lemma assign_clusters_inherits_bmu_label_witness :
  exists df_out clusters,
    @assign_clusters Examples.chain_clustering Examples.line_som Examples.three_obs 5
      = Ok df_out
    /\ getcol df_out "hc_cluster" = Ok (int_column clusters)
    /\ length clusters = 3%nat
    /\ forall k o,
         values (drop ["hex_x"; "hex_y"] Examples.three_obs) !! k = Some o ->
         exists label,
           clusters !! k = Some label
           /\ [0; 1; 2; 3; 4; 4]%nat
                !! ((winner Examples.line_som o).1 * 6 + (winner Examples.line_som o).2)%nat
              = Some label.
Proof.
  destruct (@assign_clusters_inherits_bmu_label Examples.chain_clustering
              Examples.line_som Examples.three_obs 5 [0; 1; 2; 3; 4; 4]%nat eq_refl)
    as [Hret _].
  destruct (Hret (mkDF 3 [("x", NumCol Float64 [Qc_of_Z 1; Qc_of_Z 15; Qc_of_Z 25]);
                          ("bmu_x", int_column [0; 0; 0]%nat);
                          ("bmu_y", int_column [0; 1; 2]%nat);
                          ("hc_cluster", int_column [0; 1; 2]%nat)]) eq_refl)
    as (clusters & Hc & _ & _ & Hlen & Hk).
  eexists _, clusters. split; [reflexivity |]. split; [exact Hc |].
  split; [exact Hlen | exact Hk].
Defined.

Lemma clustered_names : NoDup (names Examples.clustered).
Proof. apply (bool_decide_unpack _). vm_compute. reflexivity. Qed.



(** ** plots.py: the palette index of the U-Matrix colour *)

Section MinMaxFacts.

Lemma Qcmin_le_l (a b : Qc) : Qcmin a b ≤ a.
Proof.
  unfold Qcmin. case_bool_decide as H; [apply Qcle_refl |].
  apply Qcnot_le_lt in H. by apply Qclt_le_weak.
Qed.

Lemma Qcmin_le_r (a b : Qc) : Qcmin a b ≤ b.
Proof. unfold Qcmin. case_bool_decide as H; [done | apply Qcle_refl]. Qed.

Lemma Qcmax_ge_l (a b : Qc) : a ≤ Qcmax a b.
Proof. unfold Qcmax. case_bool_decide as H; [done | apply Qcle_refl]. Qed.

Lemma Qcmax_ge_r (a b : Qc) : b ≤ Qcmax a b.
Proof.
  unfold Qcmax. case_bool_decide as H; [apply Qcle_refl |].
  apply Qcnot_le_lt in H. by apply Qclt_le_weak.
Qed.

Lemma foldl_min_le (xs : list Qc) (a d : Qc) :
  d = a \/ d ∈ xs -> foldl Qcmin a xs ≤ d.
Proof.
  revert a d. induction xs as [| x xs IH]; intros a d; simpl.
  - intros [-> | Hin]; [apply Qcle_refl | by apply elem_of_nil in Hin].
  - intros [-> | Hin].
    + apply Qcle_trans with (Qcmin a x); [apply IH; by left | apply Qcmin_le_l].
    + apply elem_of_cons in Hin as [-> | Hin].
      * apply Qcle_trans with (Qcmin a x); [apply IH; by left | apply Qcmin_le_r].
      * apply IH. by right.
Qed.

Lemma foldl_max_ge (xs : list Qc) (a d : Qc) :
  d = a \/ d ∈ xs -> d ≤ foldl Qcmax a xs.
Proof.
  revert a d. induction xs as [| x xs IH]; intros a d; simpl.
  - intros [-> | Hin]; [apply Qcle_refl | by apply elem_of_nil in Hin].
  - intros [-> | Hin].
    + apply Qcle_trans with (Qcmax a x); [apply Qcmax_ge_l | apply IH; by left].
    + apply elem_of_cons in Hin as [-> | Hin].
      * apply Qcle_trans with (Qcmax a x); [apply Qcmax_ge_r | apply IH; by left].
      * apply IH. by right.
Qed.

Lemma amin_le (xs : list Qc) (m d : Qc) : amin xs = Ok m -> d ∈ xs -> m ≤ d.
Proof.
  destruct xs as [| x xs]; simpl; [done |]. intros [= <-] Hin.
  apply foldl_min_le. apply elem_of_cons in Hin. tauto.
Qed.

Lemma amax_ge (xs : list Qc) (m d : Qc) : amax xs = Ok m -> d ∈ xs -> d ≤ m.
Proof.
  destruct xs as [| x xs]; simpl; [done |]. intros [= <-] Hin.
  apply foldl_max_ge. apply elem_of_cons in Hin. tauto.
Qed.

End MinMaxFacts.

Section PaletteIndexFacts.

(** [int] keeps a value of the interval [0, 255] inside it. *)
Lemma int_bounds (x : Qc) :
  0 ≤ x -> x ≤ Qc_of_Z 255 -> (0 <= int x <= 255)%Z.
Proof.
  unfold Qcle, Qle, int. destruct x as [[n d] Hc]. simpl.
  intros H0 H255. split.
  - apply Z.quot_pos; lia.
  - apply Z.quot_le_upper_bound; lia.
Qed.

Lemma Qc_sub_nonneg (a b : Qc) : a ≤ b -> 0 ≤ b - a.
Proof.
  intros H. apply (Qcplus_le_mono_r _ _ a).
  by replace (b - a + a) with b by ring; rewrite Qcplus_0_l.
Qed.

Lemma Qc_sub_pos (a b : Qc) : a < b -> 0 < b - a.
Proof.
  intros H. apply (Qcplus_lt_mono_r _ _ a).
  by replace (b - a + a) with b by ring; rewrite Qcplus_0_l.
Qed.

(** The normalised distance lies in [0, 255]. *)
Lemma normalised_bounds (d lo hi : Qc) :
  lo ≤ d -> d ≤ hi -> lo < hi ->
  0 ≤ (d - lo) / (hi - lo) * Qc_of_Z 255
  /\ (d - lo) / (hi - lo) * Qc_of_Z 255 ≤ Qc_of_Z 255.
Proof.
  intros Hlo Hhi Hlt.
  assert (Hpos : 0 < hi - lo) by (by apply Qc_sub_pos).
  assert (Hinv : 0 < / (hi - lo)) by (by apply Qcinv_pos).
  assert (H255 : 0 ≤ Qc_of_Z 255) by (rewrite <- Z2Qc_inj_0; by apply Z2Qc_inj_le).
  assert (Hr0 : 0 ≤ (d - lo) / (hi - lo)).
  { apply Qcmult_nonneg_nonneg; [by apply Qc_sub_nonneg | by apply Qclt_le_weak]. }
  assert (Hr1 : (d - lo) / (hi - lo) ≤ 1).
  { replace 1 with ((hi - lo) / (hi - lo)).
    - apply Qcmult_le_mono_nonneg_r; [by apply Qclt_le_weak |].
      apply Qcplus_le_mono_r. done.
    - unfold Qcdiv. apply Qcmult_inv_r. intros Heq. rewrite Heq in Hpos.
      by apply (irreflexivity Qclt 0). }
  split.
  - by apply Qcmult_nonneg_nonneg.
  - rewrite <- (Qcmult_1_l (Qc_of_Z 255)) at 2.
    by apply Qcmult_le_mono_nonneg_r.
Qed.

Lemma getitem_in_range {A} (l : list A) (k : Z) :
  (0 <= k < Z.of_nat (length l))%Z -> is_ok (getitem l k) = true.
Proof.
  intros Hk. unfold getitem. cbv zeta.
  rewrite (bool_decide_eq_false_2 (k < 0)%Z) by lia.
  rewrite bool_decide_eq_true_2 by lia.
  destruct (l !! Z.to_nat k) eqn:Hl; [done |].
  apply lookup_ge_None in Hl. lia.
Qed.

Context `{P : Palettes}.

(** C10: for a value [d] of the flattened U-Matrix, [um_min] and
    [um_max] being its minimum and maximum: when [um_max > um_min] the
    index [int((d - um_min)/(um_max - um_min)*255)] is computed and lies
    in [0, 255], so the lookup in the 256 entries of [Viridis256] is in
    bounds; when [um_max = um_min] the expression divides by zero and
    yields no index (the [int] of the NaN quotient raises). *)
Theorem palette_index_in_bounds (um_flat : list Qc) (um_min um_max d : Qc) :
  amin um_flat = Ok um_min -> amax um_flat = Ok um_max -> d ∈ um_flat ->
  (um_min < um_max ->
     exists k, palette_index d um_min um_max = Ok k
       /\ (0 <= k <= 255)%Z
       /\ (palettes_ok P -> is_ok (getitem Viridis256 k) = true))
  /\ (um_max = um_min -> palette_index d um_min um_max = Raise ValueError).
Proof.
  intros Hmin Hmax Hd. split.
  - intros Hlt. unfold palette_index.
    rewrite decide_False.
    + eexists. split; [done |].
      destruct (normalised_bounds d um_min um_max) as [H0 H255];
        [by eapply amin_le | by eapply amax_ge | done |].
      pose proof (int_bounds _ H0 H255) as Hk.
      split; [done |]. intros [_ Hlen]. apply getitem_in_range.
      rewrite Hlen. lia.
    + intros Heq. apply Qc_sub_pos in Hlt. rewrite Heq in Hlt.
      by apply (irreflexivity Qclt 0).
  - intros ->. unfold palette_index. rewrite decide_True; [done | ring].
Qed.

End PaletteIndexFacts.

Lemma palette_index_in_bounds_witness :
  (Qc_of_Z 1 < Qc_of_Z 16 ->
     exists k, palette_index (Qc_of_Z 6) (Qc_of_Z 1) (Qc_of_Z 16) = Ok k
       /\ (0 <= k <= 255)%Z
       /\ (palettes_ok Examples.palettes ->
           is_ok (getitem (@Viridis256 Examples.palettes) k) = true))
  /\ (Qc_of_Z 16 = Qc_of_Z 1 ->
      palette_index (Qc_of_Z 6) (Qc_of_Z 1) (Qc_of_Z 16) = Raise ValueError).
Proof.
  apply (@palette_index_in_bounds Examples.palettes
           (compute_umatrix Examples.line_som)).
  - reflexivity.
  - reflexivity.
  - apply (list_elem_of_lookup_2 _ 2%nat). reflexivity.
Defined.

(** ** plots.py: the cluster labels of the node view *)

Section GridOrder.

(** The double loop visits the nodes in row-major order: the flat index
    of the [k]-th node visited is [k]. *)
Lemma row_indices (Y i s n : nat) :
  (fun ij : nat * nat => (ij.1 * Y + ij.2)%nat) <$> (seq s n ≫= fun j => [(i, j)])
  = seq (i * Y + s) n.
Proof.
  revert s. induction n as [| n IH]; intros s; [done |].
  simpl. rewrite IH. f_equal. f_equal. lia.
Qed.

Lemma grid_indices (X Y : nat) :
  (fun ij : nat * nat => (ij.1 * Y + ij.2)%nat) <$> grid X Y = seq 0 (X * Y).
Proof.
  unfold grid. induction X as [| X IH]; [done |].
  replace (S X * Y)%nat with (X * Y + Y)%nat by lia.
  rewrite seq_S, bind_app, fmap_app, IH. simpl.
  rewrite app_nil_r, row_indices.
  rewrite seq_app. do 2 f_equal. lia.
Qed.

Lemma grid_length (X Y : nat) : length (grid X Y) = (X * Y)%nat.
Proof.
  by rewrite <- (length_fmap (fun ij : nat * nat => (ij.1 * Y + ij.2)%nat)),
       grid_indices, length_seq.
Qed.

(** A list read position by position is the list. *)
Lemma read_in_order {A B} (f : B -> A) (l : list A) (rs : list B) :
  Forall2 (fun i r => l !! i = Some (f r)) (seq 0 (length l)) rs ->
  f <$> rs = l.
Proof.
  intros H. apply list_eq. intros k.
  rewrite list_lookup_fmap.
  destruct (l !! k) as [a |] eqn:Hk.
  - assert (Hs : seq 0 (length l) !! k = Some k).
    { apply lookup_seq. split; [done |]. by eapply lookup_lt_Some. }
    destruct (Forall2_lookup_l _ _ _ _ _ H Hs) as (r & -> & Hr). simpl.
    congruence.
  - apply Forall2_length in H. rewrite length_seq in H.
    apply lookup_ge_None in Hk.
    rewrite (proj2 (lookup_ge_None rs k)); [done | lia].
Qed.

(** Two different lists of one length differ at some position. *)
Lemma lists_differ {A} `{EqDecision A} (l1 l2 : list A) :
  length l1 = length l2 -> l1 <> l2 ->
  exists i a b, l1 !! i = Some a /\ l2 !! i = Some b /\ a <> b.
Proof.
  revert l2. induction l1 as [| a l1 IH]; intros [| b l2]; simpl; try done.
  intros [= Hlen] Hne.
  destruct (decide (a = b)) as [-> | Hab].
  - destruct (IH l2 Hlen) as (i & x & y & H1 & H2 & Hxy); [congruence |].
    by exists (S i), x, y.
  - by exists 0%nat, a, b.
Qed.

End GridOrder.

Section HexLabels.

Context `{C : Clustering} `{P : Palettes}.

(** The labels of the node records are a clustering of the node weights
    of their own, asked for [max(hc_cluster) + 1] clusters. *)
Lemma node_records_labels (hex_df : DataFrame) (som : MiniSom) (um_flat : list Qc)
    (records : list node) (m : Qc) :
  node_records hex_df som um_flat = Ok records ->
  column_max hex_df "hc_cluster" = Ok m ->
  exists labels,
    fit_predict (int m + 1) (flatten (get_weights som)) = Ok labels
    /\ Forall2 (fun idx r => labels !! idx = Some (hc_cluster r))
         (seq 0 ((shape (get_weights som)).1 * (shape (get_weights som)).2))
         records.
Proof.
  intros Hrec Hmax. unfold node_records in Hrec.
  rewrite Hmax, bind_Ok in Hrec.
  destruct (shape (get_weights som)) as [X Y] eqn:Hshape. cbn [fst snd].
  destruct (fit_predict _ _) as [labels | e] eqn:Hfit; [| done].
  rewrite bind_Ok in Hrec. exists labels. split; [done |].
  destruct (amin um_flat) as [lo | e]; [| done]. rewrite bind_Ok in Hrec.
  destruct (amax um_flat) as [hi | e]; [| done]. rewrite bind_Ok in Hrec.
  apply traverse_Forall2 in Hrec.
  rewrite <- grid_indices. apply Forall2_fmap_l.
  eapply Forall2_impl; [exact Hrec |].
  intros ij r Hr. simpl in Hr. simpl.
  destruct (at_ um_flat _) as [d | e]; [| done]. rewrite bind_Ok in Hr.
  destruct (palette_index d lo hi) as [norm | e]; [| done]. rewrite bind_Ok in Hr.
  unfold at_ in Hr at 1.
  destruct (labels !! _) as [label |] eqn:Hl; [| done]. rewrite bind_Ok in Hr.
  destruct (getitem Viridis256 norm) as [u | e]; [| done]. rewrite bind_Ok in Hr.
  destruct (getitem _ (Z.of_nat label)) as [c | e]; [| done]. rewrite bind_Ok in Hr.
  by injection Hr as <-.
Qed.

Lemma build_hex_plot_source (hex_df : DataFrame) (som : MiniSom) (um_flat : list Qc)
    (view : HexView) :
  build_hex_plot hex_df som um_flat = Ok view ->
  exists records,
    node_records hex_df som um_flat = Ok records
    /\ view = mkHexView (mkCDS (node_columns records) Undefined Undefined []) true false.
Proof.
  unfold build_hex_plot. destruct (node_records _ _ _) as [records | e]; [| done].
  rewrite bind_Ok. destruct records as [| r records]; [done |].
  intros [= <-]. by eexists.
Qed.

(** C2 (where the code departs from it): the node view does not consume
    the node clustering of [assign_clusters]; [build_hex_plot] clusters
    the node weights again, asking for [max(hc_cluster) + 1] clusters,
    the highest label that some observation received plus one.  When
    that number is not the [n_clusters] of the assignment (no
    observation fell in the cluster with the highest label), the two
    labellings have different numbers of clusters, and some node of the
    grid is shown with a label that is not the one used for the
    assignment. *)
Theorem hex_labels_diverge (som : MiniSom) (scaled_df hex_df : DataFrame)
    (view : HexView) (node_labels : list nat) (m : Qc) :
  lawful C -> rectangular (get_weights som) ->
  fit_predict default_n_clusters (flatten (get_weights som)) = Ok node_labels ->
  node_view som scaled_df = Ok (hex_df, view) ->
  column_max hex_df "hc_cluster" = Ok m ->
  (int m + 1)%Z <> default_n_clusters ->
  exists shown idx a b,
    data (node_source view) !! "hc_cluster" = Some (nums shown)
    /\ shown !! idx = Some a /\ node_labels !! idx = Some b /\ a <> b.
Proof.
  intros Hlaw Hrect Hfit Hview Hmax Hne.
  unfold node_view in Hview.
  destruct (assign_clusters som scaled_df default_n_clusters) as [hex_df' | e];
    [| done].
  rewrite bind_Ok in Hview.
  destruct (build_hex_plot hex_df' som _) as [view' | e] eqn:Hbuild; [| done].
  rewrite bind_Ok in Hview. injection Hview as -> ->.
  apply build_hex_plot_source in Hbuild as (records & Hrec & ->).
  destruct (node_records_labels _ _ _ _ _ Hrec Hmax) as (labels & Hfit' & Hall).
  destruct (Hlaw _ _ _ Hfit) as (Hlen & Hn & _).
  destruct (Hlaw _ _ _ Hfit') as (Hlen' & Hn' & _).
  rewrite <- flatten_length, <- Hlen' in Hall by done.
  apply read_in_order in Hall.
  destruct (lists_differ labels node_labels) as (idx & a & b & Ha & Hb & Hab).
  { congruence. }
  { intros ->. congruence. }
  exists labels, idx, a, b. split; [| done].
  simpl. unfold node_columns. rewrite lookup_insert_ne by done.
  rewrite lookup_insert_ne by done. rewrite lookup_insert_ne by done.
  rewrite lookup_insert_eq. by rewrite <- Hall.
Qed.

End HexLabels.

Section HexLabelsAgree.

Context `{C : Clustering} `{P : Palettes}.

(** When some observation falls in the cluster with the highest label,
    the second clustering is asked for the same number of clusters and
    the view shows the labels used for the assignment. *)
Lemma hex_labels_agree (som : MiniSom) (scaled_df hex_df : DataFrame)
    (view : HexView) (node_labels : list nat) (m : Qc) :
  lawful C -> rectangular (get_weights som) ->
  fit_predict default_n_clusters (flatten (get_weights som)) = Ok node_labels ->
  node_view som scaled_df = Ok (hex_df, view) ->
  column_max hex_df "hc_cluster" = Ok m ->
  (int m + 1)%Z = default_n_clusters ->
  data (node_source view) !! "hc_cluster" = Some (nums node_labels).
Proof.
  intros Hlaw Hrect Hfit Hview Hmax Heq.
  unfold node_view in Hview.
  destruct (assign_clusters som scaled_df default_n_clusters) as [hex_df' | e];
    [| done].
  rewrite bind_Ok in Hview.
  destruct (build_hex_plot hex_df' som _) as [view' | e] eqn:Hbuild; [| done].
  rewrite bind_Ok in Hview. injection Hview as -> ->.
  apply build_hex_plot_source in Hbuild as (records & Hrec & ->).
  destruct (node_records_labels _ _ _ _ _ Hrec Hmax) as (labels & Hfit' & Hall).
  rewrite Heq, Hfit in Hfit'. injection Hfit' as <-.
  destruct (Hlaw _ _ _ Hfit) as (Hlen & _ & _).
  rewrite <- flatten_length, <- Hlen in Hall by done.
  apply read_in_order in Hall.
  simpl. unfold node_columns. rewrite lookup_insert_ne by done.
  rewrite lookup_insert_ne by done. rewrite lookup_insert_ne by done.
  rewrite lookup_insert_eq. by rewrite <- Hall.
Qed.

End HexLabelsAgree.

(** ** The divergence on a concrete map *)

Lemma chain_labels_elem (n L x : nat) :
  (1 <= n <= L)%nat ->
  x ∈ (fun i => i `min` (n - 1))%nat <$> seq 0 L <-> (x < n)%nat.
Proof.
  intros Hn. rewrite list_elem_of_fmap. split.
  - intros (i & -> & _). lia.
  - intros Hx. exists x. split; [lia |]. apply elem_of_seq. lia.
Qed.

Lemma chain_clustering_lawful : lawful Examples.chain_clustering.
Proof.
  intros n X ls. simpl. case_bool_decide as Hn; [| done]. intros [= <-].
  split; [by rewrite length_map, length_seq |].
  split.
  - unfold n_labels.
    assert (Hperm : remove_dups ((fun i => i `min` (Z.to_nat n - 1))%nat <$> seq 0 (length X))
                    ≡ₚ seq 0 (Z.to_nat n)).
    { apply NoDup_Permutation; [apply NoDup_remove_dups | apply NoDup_seq |].
      intros x. rewrite elem_of_remove_dups, chain_labels_elem by lia.
      rewrite elem_of_seq. lia. }
    change (map ?f ?l) with (f <$> l).
    rewrite Hperm, length_seq. lia.
  - apply Forall_forall. intros l Hl.
    change (map ?f ?l) with (f <$> l) in Hl.
    apply chain_labels_elem in Hl; lia.
Qed.

Lemma line_weights_rectangular : rectangular Examples.line_weights.
Proof. by repeat constructor. Qed.

(** On the line map with three observations, whose best-matching units
    lie in the clusters 0, 1 and 2 of the five: the node view asks for
    three clusters and shows label 2 for the nodes 3, 4 and 5, which
    the assignment has in clusters 3 and 4. *)
Lemma hex_labels_diverge_example :
  exists hex_df view,
    @node_view Examples.chain_clustering Examples.palettes
       Examples.line_som Examples.three_obs = Ok (hex_df, view)
    /\ data (node_source view) !! "hc_cluster"
       = Some (nums [0; 1; 2; 2; 2; 2]%nat)
    /\ @fit_predict Examples.chain_clustering 5
         (flatten (get_weights Examples.line_som))
       = Ok [0; 1; 2; 3; 4; 4]%nat.
Proof.
  eexists _, _. split; [vm_compute; reflexivity |].
  split; [vm_compute; reflexivity | reflexivity].
Qed.

Lemma hex_labels_diverge_witness :
  exists hex_df view shown idx a b,
    @node_view Examples.chain_clustering Examples.palettes
       Examples.line_som Examples.three_obs = Ok (hex_df, view)
    /\ data (node_source view) !! "hc_cluster" = Some (nums shown)
    /\ shown !! idx = Some a
    /\ [0; 1; 2; 3; 4; 4]%nat !! idx = Some b
    /\ a <> b.
Proof.
  assert (H : exists hex_df view m,
             @node_view Examples.chain_clustering Examples.palettes
               Examples.line_som Examples.three_obs = Ok (hex_df, view)
             /\ column_max hex_df "hc_cluster" = Ok m
             /\ (int m + 1)%Z <> default_n_clusters).
  { eexists _, _, _. split; [vm_compute; reflexivity |].
    split; [vm_compute; reflexivity | vm_compute; discriminate]. }
  destruct H as (hex_df & view & m & Hview & Hmax & Hne).
  destruct (@hex_labels_diverge Examples.chain_clustering Examples.palettes
              Examples.line_som Examples.three_obs hex_df view
              [0; 1; 2; 3; 4; 4]%nat m
              chain_clustering_lawful line_weights_rectangular eq_refl
              Hview Hmax Hne)
    as (shown & idx & a & b & Hshown & Ha & Hb & Hab).
  exists hex_df, view, shown, idx, a, b. repeat split; assumption.
Defined.

(** ** plots.py: the U-Matrix toggle *)

Section ToggleFacts.

(** One application of the toggle: the colours shown are the column
    chosen by [active], the bars' visibility follows, and nothing else of
    the source changes. *)
Lemma toggle_changed_spec (active : bool) (v : HexView) (colors ucolors : list prim) :
  data (node_source v) !! "color" = Some colors ->
  data (node_source v) !! "u_color" = Some ucolors ->
  exists v',
    toggle_changed active v = Ok v'
    /\ data (node_source v') !! "display_color"
       = Some (if active then ucolors else colors)
    /\ (forall name, name <> "display_color" ->
          data (node_source v') !! name = data (node_source v) !! name)
    /\ bar_c_visible v' = negb active /\ bar_u_visible v' = active
    /\ selected (node_source v') = selected (node_source v)
    /\ _skip (node_source v') = _skip (node_source v)
    /\ _last_sel (node_source v') = _last_sel (node_source v).
Proof.
  intros Hc Hu. unfold toggle_changed, column_of.
  exists (mkHexView (set_column (node_source v) "display_color"
                                (if active then ucolors else colors))
                    (negb active) active).
  split.
  - destruct active; [rewrite Hu | rewrite Hc]; by rewrite bind_Ok.
  - simpl. split; [by rewrite lookup_insert_eq |].
    split; [| done].
    intros name Hne. by rewrite lookup_insert_ne.
Qed.

(** C7: on a node source with its [color] and [u_color] columns,
    switching the toggle on sets [display_color] to the [u_color] array,
    hides the cluster bar and shows the U-Matrix bar; switching it off
    again sets [display_color] to the [color] array and swaps the bars
    back.  No application of the toggle changes the selection.  On a
    source whose [display_color] is its [color] array, as
    [build_hex_plot] makes it, on-then-off gives back the source as it
    was. *)
Theorem toggle_round_trip (v : HexView) (colors ucolors : list prim) :
  data (node_source v) !! "color" = Some colors ->
  data (node_source v) !! "u_color" = Some ucolors ->
  exists v_on v_off,
    toggle_changed true v = Ok v_on
    /\ toggle_changed false v_on = Ok v_off
    /\ data (node_source v_on) !! "display_color" = Some ucolors
    /\ bar_c_visible v_on = false /\ bar_u_visible v_on = true
    /\ data (node_source v_off) !! "display_color" = Some colors
    /\ bar_c_visible v_off = true /\ bar_u_visible v_off = false
    /\ selected (node_source v_on) = selected (node_source v)
    /\ selected (node_source v_off) = selected (node_source v)
    /\ (data (node_source v) !! "display_color" = Some colors ->
        node_source v_off = node_source v)
    /\ (forall active v',
          toggle_changed active v = Ok v' ->
          selected (node_source v') = selected (node_source v)).
Proof.
  intros Hc Hu.
  destruct (toggle_changed_spec true v colors ucolors Hc Hu)
    as (v_on & Hon & Hd_on & Hrest_on & Hbc_on & Hbu_on & Hsel_on & Hsk_on & Hls_on).
  assert (Hc' : data (node_source v_on) !! "color" = Some colors)
    by (by rewrite Hrest_on).
  assert (Hu' : data (node_source v_on) !! "u_color" = Some ucolors)
    by (by rewrite Hrest_on).
  destruct (toggle_changed_spec false v_on colors ucolors Hc' Hu')
    as (v_off & Hoff & Hd_off & Hrest_off & Hbc_off & Hbu_off & Hsel_off & Hsk_off & Hls_off).
  exists v_on, v_off. repeat split; try done.
  - congruence.
  - intros Hd.
    destruct (node_source v_off) as [d2 sk2 ls2 sel2] eqn:E2.
    destruct (node_source v) as [d0 sk0 ls0 sel0] eqn:E0.
    simpl in *. f_equal; try congruence.
    apply map_eq. intros name.
    destruct (decide (name = "display_color")) as [-> | Hne].
    + congruence.
    + rewrite Hrest_off, Hrest_on by done. done.
  - intros active v' Hrun.
    destruct (toggle_changed_spec active v colors ucolors Hc Hu)
      as (w & Hw & _ & _ & _ & _ & Hsel & _).
    congruence.
Qed.

End ToggleFacts.

(** ** main.py: the selection callbacks *)

Section HandlerFacts.












(** C8: when more than one index is selected in the hex view (in the map
    view), the hex callback (the map callback) returns normally and
    leaves the other view's source and the table's source as they were;
    the selection that triggered it stays too. *)
Theorem multi_select_is_noop (st : sources) :
  ((1 < length (selected (hex_src st)))%nat ->
     exists st',
       hex_selection_changed st = Ok st'
       /\ map_src st' = map_src st /\ table_src st' = table_src st
       /\ selected (hex_src st') = selected (hex_src st)
       /\ data (hex_src st') = data (hex_src st))
  /\ ((1 < length (selected (map_src st)))%nat ->
       exists st',
         map_selection_changed st = Ok st'
         /\ hex_src st' = hex_src st /\ table_src st' = table_src st
         /\ selected (map_src st') = selected (map_src st)
         /\ data (map_src st') = data (map_src st)).
Proof.
  split.
  - intros Hlen. unfold hex_selection_changed.
    destruct (truthy (_skip (hex_src st))); [by eexists |].
    rewrite (bool_decide_eq_false_2 (length _ = 1%nat)) by lia. simpl.
    destruct (selected (hex_src st)) as [| a [| b sel]] eqn:Hsel;
      simpl in Hlen; try lia.
    eexists. split; [done |]. simpl. by rewrite Hsel.
  - intros Hlen. unfold map_selection_changed.
    destruct (truthy (_skip (map_src st))); [by eexists |].
    rewrite (bool_decide_eq_false_2 (length _ = 1%nat)) by lia. simpl.
    destruct (selected (map_src st)) as [| a [| b sel]] eqn:Hsel;
      simpl in Hlen; try lia.
    eexists. split; [done |]. simpl. by rewrite Hsel.
Qed.

End HandlerFacts.

(** ** The callbacks on concrete sources *)

Lemma toggle_round_trip_witness :
  exists v_on v_off,
    toggle_changed true Examples.two_tiles = Ok v_on
    /\ toggle_changed false v_on = Ok v_off
    /\ data (node_source v_on) !! "display_color"
       = Some [Str "#440154"; Str "#fde725"]
    /\ data (node_source v_off) !! "display_color"
       = Some [Str "#1f77b4"; Str "#ff7f0e"]
    /\ selected (node_source v_off) = [Num 1]
    /\ node_source v_off = node_source Examples.two_tiles.
Proof.
  destruct (toggle_round_trip Examples.two_tiles
              [Str "#1f77b4"; Str "#ff7f0e"] [Str "#440154"; Str "#fde725"]
              eq_refl eq_refl)
    as (v_on & v_off & Hon & Hoff & Hd_on & _ & _ & Hd_off & _ & _ & _ & Hsel & Hsame & _).
  exists v_on, v_off. repeat split; try assumption.
  exact (Hsame eq_refl).
Defined.




(* ===================================================================== *)
(** * Further properties of the pipeline and of the callbacks            *)
(* ===================================================================== *)

(** ** main.py: the callback of the map *)

Section MapHandlerFacts.







End MapHandlerFacts.


Section CallbackFrame.

(** X2: none of the three callbacks writes a column of a source, and
    none touches the table's source apart from its selection. *)
Theorem callbacks_keep_data (cl : nat) (st st' : sources) :
  cluster_button_click cl st = Ok st'
  \/ hex_selection_changed st = Ok st'
  \/ map_selection_changed st = Ok st' ->
  data (hex_src st') = data (hex_src st)
  /\ data (map_src st') = data (map_src st)
  /\ data (table_src st') = data (table_src st)
  /\ _skip (table_src st') = _skip (table_src st)
  /\ _last_sel (table_src st') = _last_sel (table_src st).
Proof.
  intros [H | [H | H]].
  - unfold cluster_button_click in H.
    destruct (column_of (hex_src st) _); [| done]. rewrite bind_Ok in H.
    destruct (column_of (map_src st) _); [| done]. rewrite bind_Ok in H.
    by destruct (_ && _); injection H as <-.
  - unfold hex_selection_changed in H.
    destruct (truthy _); [by injection H as <- |].
    destruct (_ && _); [by injection H as <- |].
    destruct (selected (hex_src st)) as [| idx [| ? ?]];
      [by injection H as <- | | by injection H as <-].
    repeat (match type of H with
            | (?m ≫= _) = _ => destruct m; [rewrite bind_Ok in H | done]
            end).
    by injection H as <-.
  - unfold map_selection_changed in H.
    destruct (truthy _); [by injection H as <- |].
    destruct (_ && _); [by injection H as <- |].
    destruct (selected (map_src st)) as [| idx [| ? ?]];
      [by injection H as <- | | by injection H as <-].
    repeat (match type of H with
            | (?m ≫= _) = _ => destruct m; [rewrite bind_Ok in H | done]
            end).
    by injection H as <-.
Qed.

End CallbackFrame.

Lemma callbacks_keep_data_witness :
  exists st',
    hex_selection_changed Examples.dashboard_node1 = Ok st'
    /\ data (hex_src st') = data Examples.hex_source
    /\ data (map_src st') = data Examples.map_source
    /\ data (table_src st') = data Examples.table_source.
Proof.
  eexists. split; [reflexivity |].
  destruct (callbacks_keep_data 0 Examples.dashboard_node1 _
              (or_intror (or_introl eq_refl)))
    as (H1 & H2 & H3 & _).
  repeat split; assumption.
Defined.

Section CallbackErrors.

Lemma column_of_Some (src : ColumnDataSource) (name : string) (a : list prim) :
  data src !! name = Some a -> column_of src name = Ok a.
Proof. intros H. unfold column_of. by rewrite H. Qed.

Lemma column_of_Raise (src : ColumnDataSource) (name : string) (e : exn) :
  column_of src name = Raise e -> e = TypeError /\ data src !! name = None.
Proof. unfold column_of. destruct (data src !! name); [done |]. by intros [= <-]. Qed.

Lemma regions_at_Raise (xs : list prim) (ys : option (list prim)) (bx by_ : prim)
    (e : exn) :
  regions_at xs ys bx by_ = Raise e -> e = TypeError /\ ys = None.
Proof.
  unfold regions_at. destruct (matching xs bx); [done |].
  destruct ys; [done |]. by intros [= <-].
Qed.

Lemma first_unit_Raise (pos xs : list prim) (ys : option (list prim)) (bx by_ : prim)
    (e : exn) :
  first_unit pos xs ys bx by_ = Raise e -> e = TypeError /\ ys = None.
Proof.
  induction pos as [| p pos IH]; [done |]. cbn [first_unit].
  destruct (strict_eq (elem xs p) bx); [| done].
  destruct ys as [ys |]; [| by intros [= <-]].
  by destruct (strict_eq (elem ys p) by_).
Qed.

Ltac step_raise :=
  match goal with
  | |- (?m ≫= _) = Raise _ -> _ =>
      let H := fresh "Hc" in
      destruct m eqn:H;
      [ rewrite bind_Ok
      | rewrite bind_Raise; intros [= ->];
        first [ apply column_of_Raise in H as [-> H]
              | apply regions_at_Raise in H as [-> H]
              | apply first_unit_Raise in H as [-> H] ];
        simpl in H; auto 10 ]
  end.

Lemma cluster_button_click_Raise (cl : nat) (st : sources) (e : exn) :
  cluster_button_click cl st = Raise e ->
  e = TypeError
  /\ (data (hex_src st) !! "hc_cluster" = None
      \/ data (map_src st) !! "hc_cluster" = None).
Proof.
  unfold cluster_button_click. do 2 step_raise. by destruct (_ && _).
Qed.

Lemma hex_selection_changed_Raise (st : sources) (e : exn) :
  hex_selection_changed st = Raise e ->
  e = TypeError
  /\ truthy (_skip (hex_src st)) = false
  /\ length (selected (hex_src st)) = 1%nat
  /\ (data (hex_src st) !! "bmu_x" = None
      \/ data (hex_src st) !! "bmu_y" = None
      \/ data (hex_src st) !! "hc_cluster" = None
      \/ data (map_src st) !! "bmu_x" = None
      \/ data (map_src st) !! "bmu_y" = None).
Proof.
  unfold hex_selection_changed.
  destruct (truthy _); [done |].
  destruct (_ && _); [done |].
  destruct (selected (hex_src st)) as [| idx [| ? ?]]; [done | | done].
  do 5 step_raise. done.
Qed.

Lemma map_selection_changed_Raise (st : sources) (e : exn) :
  map_selection_changed st = Raise e ->
  e = TypeError
  /\ truthy (_skip (map_src st)) = false
  /\ length (selected (map_src st)) = 1%nat
  /\ (data (map_src st) !! "bmu_x" = None
      \/ data (map_src st) !! "bmu_y" = None
      \/ data (map_src st) !! "hc_cluster" = None
      \/ data (hex_src st) !! "bmu_x" = None
      \/ data (hex_src st) !! "bmu_y" = None).
Proof.
  unfold map_selection_changed.
  destruct (truthy _); [done |].
  destruct (_ && _); [done |].
  destruct (selected (map_src st)) as [| idx [| ? ?]]; [done | | done].
  do 5 step_raise. done.
Qed.

(** X3: a callback throws nothing but a TypeError, and only for a column
    it reads that the source does not have.  The two selection callbacks
    throw only when exactly one index is selected and the skip flag is
    not set: an empty or a multiple selection, and the call that
    consumes the skip flag, read no column. *)
Theorem callbacks_raise_only_TypeError (cl : nat) (st : sources) (e : exn) :
  (cluster_button_click cl st = Raise e ->
     e = TypeError
     /\ (data (hex_src st) !! "hc_cluster" = None
         \/ data (map_src st) !! "hc_cluster" = None))
  /\ (hex_selection_changed st = Raise e ->
        e = TypeError
        /\ truthy (_skip (hex_src st)) = false
        /\ length (selected (hex_src st)) = 1%nat
        /\ (data (hex_src st) !! "bmu_x" = None
            \/ data (hex_src st) !! "bmu_y" = None
            \/ data (hex_src st) !! "hc_cluster" = None
            \/ data (map_src st) !! "bmu_x" = None
            \/ data (map_src st) !! "bmu_y" = None))
  /\ (map_selection_changed st = Raise e ->
        e = TypeError
        /\ truthy (_skip (map_src st)) = false
        /\ length (selected (map_src st)) = 1%nat
        /\ (data (map_src st) !! "bmu_x" = None
            \/ data (map_src st) !! "bmu_y" = None
            \/ data (map_src st) !! "hc_cluster" = None
            \/ data (hex_src st) !! "bmu_x" = None
            \/ data (hex_src st) !! "bmu_y" = None)).
Proof.
  split; [apply cluster_button_click_Raise |].
  split; [apply hex_selection_changed_Raise | apply map_selection_changed_Raise].
Qed.

(** X4: on sources that have the columns [bmu_x], [bmu_y] and
    [hc_cluster] in the hex view and in the map, no callback throws,
    whatever is selected. *)
Theorem callbacks_total (cl : nat) (st : sources) :
  (forall name, name ∈ ["bmu_x"; "bmu_y"; "hc_cluster"] ->
     is_Some (data (hex_src st) !! name) /\ is_Some (data (map_src st) !! name)) ->
  is_ok (cluster_button_click cl st) = true
  /\ is_ok (hex_selection_changed st) = true
  /\ is_ok (map_selection_changed st) = true.
Proof.
  intros Hcols.
  destruct (Hcols "bmu_x") as [[hbx Hhbx] [mbx Hmbx]];
    [rewrite !elem_of_cons; auto |].
  destruct (Hcols "bmu_y") as [[hby Hhby] [mby Hmby]];
    [rewrite !elem_of_cons; auto |].
  destruct (Hcols "hc_cluster") as [[hcl Hhcl] [mcl Hmcl]];
    [rewrite !elem_of_cons; auto |].
  split; [| split].
  - destruct (cluster_button_click cl st) as [st' | e] eqn:H; [done |].
    apply cluster_button_click_Raise in H as (_ & [H | H]); congruence.
  - destruct (hex_selection_changed st) as [st' | e] eqn:H; [done |].
    apply hex_selection_changed_Raise in H as (_ & _ & _ & H).
    destruct H as [H | [H | [H | [H | H]]]]; congruence.
  - destruct (map_selection_changed st) as [st' | e] eqn:H; [done |].
    apply map_selection_changed_Raise in H as (_ & _ & _ & H).
    destruct H as [H | [H | [H | [H | H]]]]; congruence.
Qed.

End CallbackErrors.

Lemma callbacks_total_witness :
  is_ok (cluster_button_click 2 Examples.dashboard) = true
  /\ is_ok (hex_selection_changed Examples.dashboard) = true
  /\ is_ok (map_selection_changed Examples.dashboard) = true.
Proof.
  apply (callbacks_total 2 Examples.dashboard).
  intros name Hname. rewrite !elem_of_cons in Hname.
  destruct Hname as [-> | [-> | [-> | Hname]]];
    [split; by eexists .. | by apply elem_of_nil in Hname].
Defined.

(** ** data_loader.py: what [scale_data] rejects and what it returns *)

Section ScalerStatistics.

Variable sqrt : Qc -> Qc.

Lemma sum_map_scale (f : Qc -> Qc) (c : Qc) (xs : list Qc) :
  sum (map (fun x => f x * c) xs) = sum (map f xs) * c.
Proof.
  induction xs as [| x xs IH]; [simpl; ring |].
  cbn [map]. rewrite !sum_cons, IH. ring.
Qed.

Lemma sum_map_shift (m : Qc) (xs : list Qc) :
  sum (map (fun x => x - m) xs) = sum xs - Qc_of_nat (length xs) * m.
Proof.
  induction xs as [| x xs IH]; [simpl; rewrite Qc_of_nat_0; ring |].
  cbn [map length]. rewrite !sum_cons, IH, Qc_of_nat_S. ring.
Qed.

Lemma sum_centred (xs : list Qc) : sum (map (fun x => x - mean_ xs) xs) = 0.
Proof.
  rewrite sum_map_shift. destruct xs as [| x xs]; [simpl; rewrite Qc_of_nat_0; ring |].
  unfold mean_. field. apply Qc_of_nat_nonzero. simpl. lia.
Qed.

(** The standardized values of a column add up to zero. *)
Lemma transform_sum (xs : list Qc) : sum (transform sqrt xs) = 0.
Proof.
  unfold transform, Qcdiv.
  rewrite (sum_map_scale (fun x => x - mean_ xs)), sum_centred. ring.
Qed.

Lemma transform_length (xs : list Qc) : length (transform sqrt xs) = length xs.
Proof. unfold transform. apply length_map. Qed.

Lemma transform_mean (xs : list Qc) : mean_ (transform sqrt xs) = 0.
Proof. unfold mean_ at 1. rewrite transform_sum. unfold Qcdiv. ring. Qed.

Lemma not_constant_var (xs : list Qc) :
  is_constant_feature (var_ xs) (mean_ xs) (length xs) = false -> var_ xs <> 0.
Proof.
  intros Hc Hv. rewrite Hv in Hc. by rewrite zero_variance_is_constant in Hc.
Qed.

(** A column that is not constant, with an exact root of its variance:
    the standardized column has variance 1. *)
Lemma transform_var (xs : list Qc) :
  is_constant_feature (var_ xs) (mean_ xs) (length xs) = false ->
  sqrt (var_ xs) * sqrt (var_ xs) = var_ xs ->
  var_ (transform sqrt xs) = 1.
Proof.
  intros Hc Hroot. pose proof (not_constant_var xs Hc) as Hv.
  unfold var_ at 1. cbv zeta. rewrite transform_mean, transform_length.
  unfold transform, scale_. rewrite Hc.
  rewrite map_map.
  rewrite (map_ext _ (fun x => (x - mean_ xs) * (x - mean_ xs)
                               * (/ sqrt (var_ xs) * / sqrt (var_ xs)))).
  2: { intros x. unfold Qcdiv. ring. }
  rewrite (sum_map_scale (fun x => (x - mean_ xs) * (x - mean_ xs))).
  assert (Hs : sqrt (var_ xs) <> 0).
  { intros Hs. rewrite Hs in Hroot. apply Hv. rewrite <- Hroot. ring. }
  assert (Hn : Qc_of_nat (length xs) <> 0).
  { apply Qc_of_nat_nonzero. destruct xs; [| simpl; lia].
    exfalso. apply Hv. unfold var_. simpl. unfold Qcdiv. ring. }
  transitivity (var_ xs * (/ sqrt (var_ xs) * / sqrt (var_ xs))).
  { unfold var_. cbv zeta. unfold Qcdiv. ring. }
  rewrite <- Hroot at 1. field. done.
Qed.

End ScalerStatistics.

Section ScaledTable.

Variable sqrt : Qc -> Qc.

Lemma assoc_filter_None (P : string * column -> Prop) `{!forall x, Decision (P x)}
    name cs :
  assoc name cs = None -> assoc name (filter P cs) = None.
Proof.
  induction cs as [| [m c] cs IH]; [done |]. simpl.
  destruct (decide (m = name)) as [-> | Hm]; [done |]. intros Ha.
  rewrite filter_cons. destruct (decide (P (m, c))); [| by apply IH].
  simpl. rewrite decide_False by done. by apply IH.
Qed.

Lemma assoc_None_names name (cs : list (string * column)) :
  assoc name cs = None <-> name ∉ cs.*1.
Proof.
  rewrite <- assoc_is_Some. destruct (assoc name cs).
  - split; [done | intros H; exfalso; apply H; by eexists].
  - split; [by intros _ [? ?] | done].
Qed.

Lemma assoc_filter_out (P : string * column -> Prop) `{!forall x, Decision (P x)}
    name c cs :
  NoDup cs.*1 -> assoc name cs = Some c -> ~ P (name, c) ->
  assoc name (filter P cs) = None.
Proof.
  induction cs as [| [m c'] cs IH]; [done |]. simpl.
  intros Hnd Ha Hp. apply NoDup_cons in Hnd as [Hm Hnd].
  rewrite filter_cons.
  destruct (decide (m = name)) as [-> | Hne].
  - injection Ha as ->. rewrite decide_False by done.
    apply assoc_filter_None. by apply assoc_None_names.
  - destruct (decide (P (m, c'))); [| by apply IH].
    simpl. rewrite decide_False by done. by apply IH.
Qed.

Lemma assoc_scaled_None (T : list Qc -> list Qc) cs name :
  Forall (fun nc : string * column => is_number nc.2 = true) cs ->
  assoc name cs = None ->
  assoc name (zip cs.*1 (map (NumCol Float64)
                           (map T (omap (fun nc => floats nc.2) cs))))
  = None.
Proof.
  induction 1 as [| [m c] cs Hc Hcs IH]; simpl; [done |].
  destruct c as [dt' ys | ys]; [| done]. simpl.
  destruct (decide (m = name)) as [-> | Hm]; [done | done].
Qed.

Lemma filter_names_fst (g : DataFrame) (p : column -> bool) :
  NoDup (names g) -> NoDup (filter (fun nc => p nc.2 = true) (columns g)).*1.
Proof.
  unfold names. induction (columns g) as [| [m c] cs IH]; [done |].
  simpl. intros Hnd. apply NoDup_cons in Hnd as [Hm Hnd].
  rewrite filter_cons. destruct (decide _); [| by apply IH].
  simpl. apply NoDup_cons. split; [| by apply IH].
  intros Hin. apply Hm.
  apply list_elem_of_fmap in Hin as ([m' c'] & -> & Hin).
  apply list_elem_of_filter in Hin as [_ Hin].
  apply list_elem_of_fmap. by exists (m', c').
Qed.

(** The columns of the frame that is handed to the scaler, by name. *)
Lemma scaled_frame_assoc (g : DataFrame) (ex : list string) (name : string) :
  NoDup (names g) ->
  let sel := select_dtypes is_number g in
  let n := drop (filter (fun c => c ∈ names sel) ex) sel in
  assoc name (columns n) =
    match assoc name (columns g) with
    | Some (NumCol dt xs) =>
        if bool_decide (name ∈ ex) then None else Some (NumCol dt xs)
    | _ => None
    end.
Proof.
  intros Hnd sel n.
  destruct (assoc name (columns g)) as [[dt xs | xs] |] eqn:Ha.
  - case_bool_decide as Hex.
    + unfold n, drop. cbn [columns].
      apply (assoc_filter_out _ name (NumCol dt xs)).
      * by apply filter_names_fst.
      * unfold sel, select_dtypes. cbn [columns].
        by apply (assoc_filter (fun nc => is_number nc.2 = true)).
      * simpl. intros Hout. apply Hout. apply list_elem_of_filter. split; [| done].
        unfold names. apply assoc_is_Some. exists (NumCol dt xs).
        unfold sel, select_dtypes. cbn [columns].
        by apply (assoc_filter (fun nc => is_number nc.2 = true)).
    + by apply scaled_frame_columns.
  - unfold n, drop. cbn [columns]. apply assoc_filter_None.
    unfold sel, select_dtypes. cbn [columns].
    by apply (assoc_filter_out _ name (ObjCol xs)).
  - unfold n, drop. cbn [columns]. apply assoc_filter_None.
    unfold sel, select_dtypes. cbn [columns]. by apply assoc_filter_None.
Qed.

(** There is something to scale exactly when the frame handed to the
    scaler has a column. *)
Lemma scalable_columns (g : DataFrame) (ex : option (list string)) :
  NoDup (names g) ->
  let sel := select_dtypes is_number g in
  let n := drop (filter (fun c => c ∈ names sel) (default [] ex)) sel in
  scalable g ex <-> columns n <> [].
Proof.
  intros Hnd sel n. split.
  - intros (name & dt & xs & Ha & Hex) Hnil.
    pose proof (scaled_frame_columns g (default [] ex) name dt xs Ha Hex) as Hn.
    fold sel n in Hn. by rewrite Hnil in Hn.
  - intros Hne. destruct (columns n) as [| [name c] cs] eqn:Hcols; [done |].
    assert (Hn : assoc name (columns n) = Some c)
      by (rewrite Hcols; simpl; by rewrite decide_True).
    unfold n, sel in Hn. rewrite scaled_frame_assoc in Hn by done.
    destruct (assoc name (columns g)) as [[dt xs | xs] |] eqn:Ha; [| done | done].
    case_bool_decide as Hex; [done |]. by exists name, dt, xs.
Qed.

Lemma scaled_frame_index (g : DataFrame) (ex : list string) :
  index (drop ex (select_dtypes is_number g)) = index g.
Proof. reflexivity. Qed.

(** X5: [scale_data] raises ValueError exactly on a table with nothing
    to standardize: no row, or no numeric column outside
    [exclude_cols].  (The scaler rejects an array with no sample or no
    feature.) *)
Theorem scale_data_nothing_to_scale (s : store) (gdf : ref) (g : DataFrame)
    (ex : option (list string)) :
  s !! gdf = Some g -> wf g ->
  (index g = 0%nat \/ ~ scalable g ex)
  <-> scale_data sqrt gdf ex s = Raise ValueError.
Proof.
  intros Hg Hwf. rewrite (scale_data_run sqrt s gdf g ex Hg). cbv zeta.
  split.
  - intros Hdeg. unfold fit_transform. rewrite scaled_frame_index.
    destruct (decide (index g = 0%nat)) as [| Hpos]; [done |].
    destruct Hdeg as [| Hsc]; [done |].
    rewrite decide_True; [done |].
    destruct (decide (columns (drop (filter (fun c => c ∈ names (select_dtypes is_number g))
                                            (default [] ex))
                                    (select_dtypes is_number g)) = [])) as [-> | Hne];
      [done |].
    exfalso. apply Hsc. apply scalable_columns; [apply Hwf | done].
  - intros Hrun.
    destruct (decide (index g = 0%nat)) as [| Hpos]; [by left | right].
    intros Hsc.
    rewrite (fit_transform_ok sqrt g ex) in Hrun by (lia || done).
    pose proof (carry_through_twice s _ _ _ gdf g Hg _ Hrun) as Hc.
    simpl in Hc. apply Hc. by split.
Qed.

(** The standardized table, column by column. *)
Lemma scale_data_table (s : store) (gdf : ref) (g : DataFrame)
    (ex : option (list string)) (sc geo : ref) (s' : store) :
  s !! gdf = Some g -> wf g ->
  scale_data sqrt gdf ex s = Ok ((sc, geo), s') ->
  (0 < index g)%nat
  /\ exists sdf,
       s' !! sc = Some sdf
       /\ forall name, name ∉ ["hex_x"; "hex_y"] ->
            getcol sdf name =
              match getcol g name with
              | Ok (NumCol dt xs) =>
                  if bool_decide (name ∈ default [] ex) then Raise KeyError
                  else Ok (NumCol Float64 (transform sqrt xs))
              | _ => Raise KeyError
              end.
Proof.
  intros Hg Hwf Hrun. rewrite (scale_data_run sqrt s gdf g ex Hg) in Hrun. cbv zeta in Hrun.
  set (sel := select_dtypes is_number g) in *.
  set (n := drop _ sel) in *.
  destruct (fit_transform _ _ _) as [arr | e] eqn:Hfit; [| done].
  unfold fit_transform in Hfit.
  destruct (decide (index n = 0%nat)) as [| Hpos]; [done |].
  destruct (decide (_ = [])); [done |].
  assert (arr = map (transform sqrt) (omap (fun nc => floats nc.2) (columns n)))
    as -> by congruence.
  clear Hfit.
  split; [change (index n) with (index g) in Hpos; lia |].
  pose proof (carry_through_twice s sel n _ gdf g Hg _ Hrun) as Hc.
  lazy beta iota in Hc. destruct Hc as (-> & -> & sdf' & -> & Hcols).
  exists sdf'. split; [exact (lookup_fresh s [sel; n; sdf'] 2) |].
  intros name Hname. rewrite Hcols, bool_decide_eq_false_2 by done.
  cbn [andb]. unfold getcol at 1. cbn [columns]. unfold names.
  pose proof (scaled_frame_assoc g (default [] ex) name (proj1 Hwf)) as Hn.
  cbv zeta in Hn. fold sel n in Hn.
  unfold getcol.
  destruct (assoc name (columns g)) as [[dt xs | xs] |].
  - case_bool_decide.
    + rewrite assoc_scaled_None; [done | apply scaled_frame_numeric | done].
    + rewrite (assoc_scaled (transform sqrt) (columns n) name dt xs);
        [done | apply scaled_frame_numeric | done].
  - rewrite assoc_scaled_None; [done | apply scaled_frame_numeric | done].
  - rewrite assoc_scaled_None; [done | apply scaled_frame_numeric | done].
Qed.


(** X7: every column of the standardized table other than the grid keys
    has one value per row of the input, and its values add up to zero:
    its mean is 0.  When the input column is not constant under the
    scaler's test and the square root of its variance is exact, the
    variance of the standardized column is 1. *)
Theorem scale_data_standardizes (s : store) (gdf : ref) (g : DataFrame)
    (ex : option (list string)) (sc geo : ref) (s' : store)
    (sdf : DataFrame) (name : string) (c : column) :
  s !! gdf = Some g -> wf g ->
  scale_data sqrt gdf ex s = Ok ((sc, geo), s') ->
  s' !! sc = Some sdf ->
  name ∉ ["hex_x"; "hex_y"] ->
  getcol sdf name = Ok c ->
  exists dt xs ys,
    getcol g name = Ok (NumCol dt xs) /\ c = NumCol Float64 ys
    /\ length ys = index g
    /\ sum ys = 0 /\ mean_ ys = 0
    /\ (is_constant_feature (var_ xs) (mean_ xs) (length xs) = false ->
        sqrt (var_ xs) * sqrt (var_ xs) = var_ xs ->
        var_ ys = 1).
Proof.
  intros Hg Hwf Hrun Hsdf Hname Hc.
  destruct (scale_data_table s gdf g ex sc geo s' Hg Hwf Hrun) as (_ & sdf' & Hsdf' & Hcols).
  assert (sdf' = sdf) as -> by congruence.
  rewrite (Hcols name Hname) in Hc.
  destruct (getcol g name) as [[dt xs | xs] | e] eqn:Hgc; [| done | done].
  case_bool_decide; [done |]. injection Hc as <-.
  exists dt, xs, (transform sqrt xs). split; [done |]. split; [done |].
  split.
  { rewrite transform_length. exact (wf_getcol_length g name _ Hwf Hgc). }
  split; [apply transform_sum |]. split; [apply transform_mean |].
  apply transform_var.
Qed.

End ScaledTable.

Lemma two_sites_wf : wf Examples.two_sites.
Proof. apply (bool_decide_unpack _). vm_compute. reflexivity. Qed.

Lemma no_rows_wf : wf Examples.no_rows.
Proof. apply (bool_decide_unpack _). vm_compute. reflexivity. Qed.

(** A table without rows is rejected. *)
Lemma scale_data_nothing_to_scale_witness :
  scale_data Examples.rsqrt 0%nat None [Examples.no_rows] = Raise ValueError.
Proof.
  apply (scale_data_nothing_to_scale Examples.rsqrt [Examples.no_rows] 0%nat
           Examples.no_rows None eq_refl no_rows_wf).
  by left.
Defined.


Lemma scale_data_standardizes_witness :
  exists ys,
    length ys = 2%nat /\ sum ys = 0 /\ mean_ ys = 0 /\ var_ ys = 1.
Proof.
  destruct (scale_data_standardizes Examples.rsqrt [Examples.two_sites] 0%nat
              Examples.two_sites None 3%nat 0%nat _ _ "pop"
              (NumCol Float64 (transform Examples.rsqrt [Qc_of_Z 1; Qc_of_Z 3]))
              eq_refl two_sites_wf eq_refl eq_refl)
    as (dt & xs & ys & Hg & Hc & Hlen & Hsum & Hmean & Hvar).
  - rewrite !elem_of_cons, elem_of_nil. by intros [? | [? | []]].
  - reflexivity.
  - injection Hg as <- <-. exists ys. repeat split; try assumption.
    apply Hvar; [vm_compute; reflexivity |].
    apply Qc_is_canon. vm_compute. reflexivity.
Defined.

(** ** cluster_analysis.py: the frame [assign_clusters] returns *)

Section TraverseErrors.
Context {A B : Type} (f : A -> result B).

Lemma traverse_Raise (l : list A) (e : exn) :
  traverse f l = Raise e -> exists a, a ∈ l /\ f a = Raise e.
Proof.
  induction l as [| a l IH]; [done |]. simpl.
  destruct (f a) as [b | e'] eqn:Hfa.
  - rewrite bind_Ok. destruct (traverse f l) as [bs | e'']; [done |].
    rewrite bind_Raise. intros [= ->].
    destruct (IH eq_refl) as (a' & Hin & Ha'). exists a'. split; [by right | done].
  - rewrite bind_Raise. intros [= ->]. exists a. split; [left | done].
Qed.

Lemma traverse_is_ok (l : list A) :
  is_ok (traverse f l) = true <-> Forall (fun a => is_ok (f a) = true) l.
Proof.
  split; [| apply traverse_total].
  intros Hok. apply Forall_forall. intros a Hin.
  destruct (traverse f l) as [bs | e] eqn:Htr; [| done].
  apply traverse_Forall2 in Htr.
  apply list_elem_of_lookup in Hin as [i Hi].
  destruct (Forall2_lookup_l _ _ _ _ _ Htr Hi) as (b & _ & Hb). by rewrite Hb.
Qed.

End TraverseErrors.

Section AssignFrame.

Context `{C : Clustering}.

(** The three assignments at the end of [assign_clusters]. *)
Lemma assign_clusters_run (som : MiniSom) (data_df : DataFrame) (n_clusters : Z)
    (df_out : DataFrame) :
  assign_clusters som data_df n_clusters = Ok df_out ->
  let obs := values (drop ["hex_x"; "hex_y"] data_df) in
  let y_dim := (shape (get_weights som)).2 in
  exists node_labels clusters df1 df2,
    fit_predict n_clusters (flatten (get_weights som)) = Ok node_labels
    /\ Forall2 (fun o label =>
                  node_labels !! ((winner som o).1 * y_dim + (winner som o).2)%nat
                  = Some label) obs clusters
    /\ setcol data_df "bmu_x" (int_column (map (fun o => (winner som o).1) obs)) = Ok df1
    /\ setcol df1 "bmu_y" (int_column (map (fun o => (winner som o).2) obs)) = Ok df2
    /\ setcol df2 "hc_cluster" (int_column clusters) = Ok df_out.
Proof.
  intros Hrun obs y_dim. unfold assign_clusters in Hrun.
  subst y_dim. destruct (shape (get_weights som)) as [x_dim y_dim] eqn:Hshape.
  cbn [snd].
  destruct (fit_predict _ _) as [node_labels | e]; [| done].
  rewrite bind_Ok in Hrun. fold obs in Hrun.
  destruct (traverse _ _) as [clusters | e] eqn:Htr; [| done].
  apply traverse_Forall2 in Htr. rewrite bind_Ok in Hrun.
  rewrite !map_map in Hrun.
  destruct (setcol data_df "bmu_x" _) as [df1 | e] eqn:H1; [| done].
  rewrite bind_Ok in Hrun.
  destruct (setcol df1 "bmu_y" _) as [df2 | e] eqn:H2; [| done].
  rewrite bind_Ok in Hrun.
  destruct (setcol df2 "hc_cluster" _) as [df3 | e] eqn:H3; [| done].
  rewrite bind_Ok in Hrun. injection Hrun as <-.
  exists node_labels, clusters, df1, df2. split; [done |].
  split; [| done].
  rewrite !map_map in Htr. apply Forall2_fmap_l in Htr.
  eapply Forall2_impl; [exact Htr |].
  intros o label Hat. simpl in Hat. unfold at_ in Hat.
  by destruct (node_labels !! _); simplify_eq.
Qed.

(** X8: [assign_clusters] returns its input with three columns set and
    nothing else changed: the index is the input's, and every column
    other than [bmu_x], [bmu_y] and [hc_cluster] is read from the result
    as it is read from the input (present with the same values, or
    absent).  The three columns are int64 columns with one value per
    row. *)
Theorem assign_clusters_frame (som : MiniSom) (data_df df_out : DataFrame)
    (n_clusters : Z) :
  assign_clusters som data_df n_clusters = Ok df_out ->
  index df_out = index data_df
  /\ (forall name, name ∉ ["bmu_x"; "bmu_y"; "hc_cluster"] ->
        getcol df_out name = getcol data_df name)
  /\ (forall name, name ∈ ["bmu_x"; "bmu_y"; "hc_cluster"] ->
        exists xs, getcol df_out name = Ok (int_column xs)
                   /\ length xs = index data_df).
Proof.
  intros Hrun.
  destruct (assign_clusters_run _ _ _ _ Hrun)
    as (node_labels & clusters & df1 & df2 & Hfit & Hcl & H1 & H2 & H3).
  assert (Hobs : length (values (drop ["hex_x"; "hex_y"] data_df)) = index data_df)
    by (by rewrite values_length).
  split.
  { rewrite (setcol_index _ _ _ _ H3), (setcol_index _ _ _ _ H2).
    exact (setcol_index _ _ _ _ H1). }
  split.
  - intros name Hname. rewrite !elem_of_cons, elem_of_nil in Hname.
    rewrite (getcol_setcol_other _ _ "hc_cluster" name _ ltac:(naive_solver) H3).
    rewrite (getcol_setcol_other _ _ "bmu_y" name _ ltac:(naive_solver) H2).
    exact (getcol_setcol_other _ _ "bmu_x" name _ ltac:(naive_solver) H1).
  - intros name Hname. rewrite !elem_of_cons, elem_of_nil in Hname.
    destruct Hname as [-> | [-> | [-> | []]]].
    + eexists. split; [| by rewrite length_map].
      rewrite (getcol_setcol_other _ _ "hc_cluster" "bmu_x" _ ltac:(done) H3).
      rewrite (getcol_setcol_other _ _ "bmu_y" "bmu_x" _ ltac:(done) H2).
      exact (getcol_setcol_same _ _ _ _ H1).
    + eexists. split; [| by rewrite length_map].
      rewrite (getcol_setcol_other _ _ "hc_cluster" "bmu_y" _ ltac:(done) H3).
      exact (getcol_setcol_same _ _ _ _ H2).
    + exists clusters. split; [exact (getcol_setcol_same _ _ _ _ H3) |].
      apply Forall2_length in Hcl. congruence.
Qed.

(** X9: with a clustering that keeps the library's contract, every
    cluster id that [assign_clusters] writes is a label below
    [n_clusters]; and when [winner] answers inside the grid, every
    [bmu_x] is below the grid's first dimension and every [bmu_y] below
    its second. *)
Theorem assign_clusters_ranges (som : MiniSom) (data_df df_out : DataFrame)
    (n_clusters : Z) :
  lawful C ->
  assign_clusters som data_df n_clusters = Ok df_out ->
  exists bx by_ clusters,
    getcol df_out "bmu_x" = Ok (int_column bx)
    /\ getcol df_out "bmu_y" = Ok (int_column by_)
    /\ getcol df_out "hc_cluster" = Ok (int_column clusters)
    /\ Forall (fun l => (Z.of_nat l < n_clusters)%Z) clusters
    /\ (winner_in_grid som ->
        Forall (fun i => (i < (shape (get_weights som)).1)%nat) bx
        /\ Forall (fun j => (j < (shape (get_weights som)).2)%nat) by_).
Proof.
  intros Hlaw Hrun.
  destruct (assign_clusters_run _ _ _ _ Hrun)
    as (node_labels & clusters & df1 & df2 & Hfit & Hcl & H1 & H2 & H3).
  eexists _, _, clusters.
  split.
  { rewrite (getcol_setcol_other _ _ "hc_cluster" "bmu_x" _ ltac:(done) H3).
    rewrite (getcol_setcol_other _ _ "bmu_y" "bmu_x" _ ltac:(done) H2).
    exact (getcol_setcol_same _ _ _ _ H1). }
  split.
  { rewrite (getcol_setcol_other _ _ "hc_cluster" "bmu_y" _ ltac:(done) H3).
    exact (getcol_setcol_same _ _ _ _ H2). }
  split; [exact (getcol_setcol_same _ _ _ _ H3) |].
  split.
  - destruct (Hlaw _ _ _ Hfit) as (_ & _ & Hlt). rewrite Forall_forall in Hlt.
    apply Forall_forall. intros l Hl.
    apply list_elem_of_lookup in Hl as [k Hk].
    destruct (Forall2_lookup_r _ _ _ _ _ Hcl Hk) as (o & _ & Hlab).
    apply Hlt. by eapply list_elem_of_lookup_2.
  - intros Hwin. split; apply Forall_forall; intros i Hi;
      change (map ?f ?l) with (f <$> l) in Hi;
      apply list_elem_of_fmap in Hi as (o & -> & _); apply Hwin.
Qed.

(** X10: when [assign_clusters] returns and when it raises.  An error of
    the clustering is the error of the call.  After a clustering that
    returned, the call returns exactly when every best-matching unit's
    row-major position is a position of the labelling; otherwise it
    raises IndexError. *)
Theorem assign_clusters_errors (som : MiniSom) (data_df : DataFrame) (n_clusters : Z) :
  let obs := values (drop ["hex_x"; "hex_y"] data_df) in
  let y_dim := (shape (get_weights som)).2 in
  let position o := ((winner som o).1 * y_dim + (winner som o).2)%nat in
  (forall e, fit_predict n_clusters (flatten (get_weights som)) = Raise e ->
     assign_clusters som data_df n_clusters = Raise e)
  /\ (forall node_labels,
        fit_predict n_clusters (flatten (get_weights som)) = Ok node_labels ->
        (Forall (fun o => (position o < length node_labels)%nat) obs
           <-> is_ok (assign_clusters som data_df n_clusters) = true)
        /\ (Exists (fun o => (length node_labels <= position o)%nat) obs
           <-> assign_clusters som data_df n_clusters = Raise IndexError)).
Proof.
  intros obs y_dim position. unfold assign_clusters.
  subst position y_dim. destruct (shape (get_weights som)) as [x_dim y_dim] eqn:Hshape.
  cbn [snd]. fold obs.
  split; [by intros e -> |].
  intros node_labels ->. rewrite bind_Ok.
  rewrite !map_map.
  assert (Hobs : length obs = index data_df) by (unfold obs; by rewrite values_length).
  assert (Hset : forall clusters, length clusters = length obs ->
            is_ok (df_out ← setcol data_df "bmu_x" (int_column (map (fun x => (winner som x).1) obs));
                   df_out ← setcol df_out "bmu_y" (int_column (map (fun x => (winner som x).2) obs));
                   df_out ← setcol df_out "hc_cluster" (int_column clusters);
                   Ok df_out) = true).
  { intros clusters Hlen.
    rewrite (setcol_ok data_df "bmu_x"), bind_Ok
      by (by rewrite int_column_length, !length_map).
    rewrite (setcol_ok _ "bmu_y"), bind_Ok
      by (by rewrite int_column_length, !length_map).
    rewrite (setcol_ok _ "hc_cluster"), bind_Ok by (rewrite int_column_length; simpl; lia).
    done. }
  destruct (traverse _ _) as [clusters | e] eqn:Htr.
  - rewrite bind_Ok.
    assert (Hall : Forall (fun o => ((winner som o).1 * y_dim + (winner som o).2
                                     < length node_labels)%nat) obs).
    { apply Forall_forall. intros o Ho.
      assert (Hok : is_ok (traverse (fun idx => at_ node_labels idx)
                             (map (fun x => ((winner som x).1 * y_dim + (winner som x).2)%nat) obs))
                    = true) by (by rewrite Htr).
      apply traverse_is_ok in Hok. rewrite Forall_forall in Hok.
      specialize (Hok ((winner som o).1 * y_dim + (winner som o).2)%nat).
      unfold at_ in Hok.
      destruct (node_labels !! _) eqn:Hl; [by eapply lookup_lt_Some |].
      exfalso. enough (false = true) by done. apply Hok.
      change (map ?f ?l) with (f <$> l). apply list_elem_of_fmap. by exists o. }
    apply traverse_Forall2, Forall2_length in Htr. rewrite length_map in Htr.
    specialize (Hset clusters (eq_sym Htr)).
    split.
    + split; [done | by intros _].
    + split.
      * intros Hex. apply Exists_exists in Hex as (o & Ho & Hge).
        rewrite Forall_forall in Hall. specialize (Hall o Ho). lia.
      * intros Hr. by rewrite Hr in Hset.
  - rewrite bind_Raise.
    apply traverse_Raise in Htr as (idx & Hin & Hidx).
    change (map ?f ?l) with (f <$> l) in Hin.
    apply list_elem_of_fmap in Hin as (o & -> & Ho).
    unfold at_ in Hidx.
    destruct (node_labels !! _) eqn:Hl; [done |]. injection Hidx as <-.
    apply lookup_ge_None in Hl.
    split.
    + split; [| done]. intros Hall. rewrite Forall_forall in Hall.
      specialize (Hall o Ho). simpl in Hall. lia.
    + split; [done |]. intros _. apply Exists_exists. by exists o.
Qed.

End AssignFrame.

Lemma assign_clusters_frame_witness :
  exists df_out,
    @assign_clusters Examples.chain_clustering Examples.line_som Examples.three_obs 5
      = Ok df_out
    /\ index df_out = 3%nat
    /\ getcol df_out "x" = getcol Examples.three_obs "x".
Proof.
  eexists. split; [reflexivity |].
  destruct (@assign_clusters_frame Examples.chain_clustering Examples.line_som
              Examples.three_obs _ 5 eq_refl) as (Hidx & Hkeep & _).
  split; [exact Hidx |]. apply Hkeep.
  rewrite !elem_of_cons, elem_of_nil. by intros [? | [? | [? | []]]].
Defined.

Lemma assign_clusters_ranges_witness :
  exists df_out clusters,
    @assign_clusters Examples.chain_clustering Examples.line_som Examples.three_obs 5
      = Ok df_out
    /\ getcol df_out "hc_cluster" = Ok (int_column clusters)
    /\ Forall (fun l => (Z.of_nat l < 5)%Z) clusters.
Proof.
  destruct (@assign_clusters_ranges Examples.chain_clustering Examples.line_som
              Examples.three_obs _ 5 chain_clustering_lawful eq_refl)
    as (bx & by_ & clusters & _ & _ & Hcol & Hlt & _).
  eexists _, clusters. split; [reflexivity |]. split; [exact Hcol | exact Hlt].
Defined.

(** ** cluster_analysis.py: errors and size of the summary *)

Section SummaryFacts.


(** What the summary is, on a table with distinct column names and a
    numeric key. *)
Lemma compute_cluster_means_run (hex_df : DataFrame) (dt : numtype) (ks : list Qc) :
  NoDup (names hex_df) ->
  getcol hex_df "hc_cluster" = Ok (NumCol dt ks) ->
  compute_cluster_means hex_df
  = Ok (mkDF (length (uniques ks))
          (("hc_cluster", NumCol dt (uniques ks))
           :: map (fun c => (c, NumCol Float64
                                  (group_mean (length (uniques ks))
                                     (codes ks (uniques ks)) (series hex_df c))))
                  (filter (fun c => c ∉ bookkeeping)
                          (names (select_dtypes is_float_or_int hex_df))))).
Proof.
  intros Hnd Hkey.
  unfold compute_cluster_means, groupby_mean, key_column.
  rewrite Hkey, !bind_Ok.
  rewrite (traverse_map _ (fun c => (c, NumCol Float64
                                          (group_mean (length (uniques ks))
                                             (codes ks (uniques ks)) (series hex_df c)))));
    [done |].
  intros c Hc. apply list_elem_of_filter in Hc as [_ Hc].
  destruct (selected_column hex_df c Hnd Hc) as (dt' & xs & Hcol & _).
  rewrite Hcol, bind_Ok. simpl. unfold series.
  unfold getcol in Hcol. by destruct (assoc c (columns hex_df)); simplify_eq.
Qed.

(** The key column and the size of a summary that was returned. *)
Lemma compute_cluster_means_key (hex_df out : DataFrame) :
  compute_cluster_means hex_df = Ok out ->
  exists dt ks,
    getcol hex_df "hc_cluster" = Ok (NumCol dt ks)
    /\ index out = length (uniques ks)
    /\ getcol out "hc_cluster" = Ok (NumCol dt (uniques ks)).
Proof.
  unfold compute_cluster_means, groupby_mean, key_column.
  destruct (getcol hex_df "hc_cluster") as [[dt ks | xs] | e]; [| done | done].
  rewrite !bind_Ok.
  destruct (traverse _ _) as [means | e]; [| done].
  rewrite bind_Ok. intros [= <-]. exists dt, ks. split; [done |]. split; [done |].
  reflexivity.
Qed.


Lemma insert_key_length (k : Qc) (l : list Qc) :
  (length (insert_key k l) <= S (length l))%nat.
Proof.
  induction l as [| x l IH]; simpl; [lia |].
  destruct (decide (k < x)); [simpl; lia |].
  destruct (decide (k = x)); simpl; lia.
Qed.

Lemma uniques_length (ks : list Qc) : (length (uniques ks) <= length ks)%nat.
Proof.
  induction ks as [| k ks IH]; simpl; [lia |].
  pose proof (insert_key_length k (uniques ks)). lia.
Qed.




(** The number of distinct ids is at most the number of labels on
    offer. *)
Lemma uniques_bounded (clusters : list nat) (n : nat) :
  Forall (fun l => (l < n)%nat) clusters ->
  (length (uniques (map Qc_of_nat clusters)) <= n)%nat.
Proof.
  intros Hlt.
  rewrite <- (length_seq n 0) at 1. rewrite <- (length_map Qc_of_nat (seq 0 n)).
  apply submseteq_length, NoDup_submseteq.
  - apply sorted_NoDup, uniques_sorted.
  - intros q Hq. apply (proj1 (uniques_elem _ _)) in Hq.
    change (map ?f ?l) with (f <$> l) in Hq.
    apply list_elem_of_fmap in Hq as (l & -> & Hl).
    rewrite Forall_forall in Hlt. specialize (Hlt l Hl).
    change (map ?f ?l) with (f <$> l). apply list_elem_of_fmap.
    exists l. split; [done |]. apply elem_of_seq. lia.
Qed.




End SummaryFacts.

Section SummaryPipeline.

Context `{C : Clustering}.

Lemma assigned_clusters (som : MiniSom) (data_df hex_df : DataFrame) (n_clusters : Z) :
  assign_clusters som data_df n_clusters = Ok hex_df ->
  exists node_labels clusters,
    fit_predict n_clusters (flatten (get_weights som)) = Ok node_labels
    /\ getcol hex_df "hc_cluster" = Ok (int_column clusters)
    /\ length clusters = index data_df
    /\ Forall (fun l => l ∈ node_labels) clusters.
Proof.
  intros Hrun. unfold assign_clusters in Hrun.
  destruct (shape (get_weights som)) as [x_dim y_dim].
  destruct (fit_predict _ _) as [node_labels | e]; [| done].
  rewrite bind_Ok in Hrun.
  destruct (traverse _ _) as [clusters | e] eqn:Htr; [| done].
  apply traverse_Forall2 in Htr. rewrite bind_Ok in Hrun.
  destruct (setcol data_df "bmu_x" _) as [df1 | e] eqn:H1; [| done].
  rewrite bind_Ok in Hrun.
  destruct (setcol df1 "bmu_y" _) as [df2 | e] eqn:H2; [| done].
  rewrite bind_Ok in Hrun.
  destruct (setcol df2 "hc_cluster" _) as [df3 | e] eqn:H3; [| done].
  rewrite bind_Ok in Hrun. injection Hrun as <-.
  exists node_labels, clusters. split; [done |].
  split; [exact (getcol_setcol_same _ _ _ _ H3) |].
  split.
  { apply Forall2_length in Htr. rewrite !length_map, values_length in Htr.
    simpl in Htr. lia. }
  apply Forall_forall. intros l Hl.
  apply list_elem_of_lookup in Hl as [k Hk].
  destruct (Forall2_lookup_r _ _ _ _ _ Htr Hk) as (idx & _ & Hat).
  unfold at_ in Hat. destruct (node_labels !! idx) eqn:Hn; [| done].
  injection Hat as ->. by eapply list_elem_of_lookup_2.
Qed.

(** X12: steps 3 of [main.py] together.  With a clustering that keeps
    the library's contract, the summary of the frame that
    [assign_clusters] returned has at most [n_clusters] rows, at most
    one row per observation, and at least one row when there is an
    observation. *)
Theorem summary_rows_bounded (som : MiniSom) (data_df hex_df out : DataFrame)
    (n_clusters : Z) :
  lawful C ->
  assign_clusters som data_df n_clusters = Ok hex_df ->
  compute_cluster_means hex_df = Ok out ->
  (Z.of_nat (index out) <= n_clusters)%Z
  /\ (index out <= index data_df)%nat
  /\ ((0 < index data_df)%nat -> (0 < index out)%nat).
Proof.
  intros Hlaw Hassign Hmeans.
  destruct (assigned_clusters _ _ _ _ Hassign)
    as (node_labels & clusters & Hfit & Hcol & Hlen & Hin).
  destruct (compute_cluster_means_key _ _ Hmeans) as (dt & ks & Hk & Hidx & _).
  rewrite Hcol in Hk. injection Hk as <- <-. rewrite Hidx.
  destruct (Hlaw _ _ _ Hfit) as (_ & Hn & Hlt).
  split; [| split].
  - enough (length (uniques (map Qc_of_nat clusters)) <= Z.to_nat n_clusters)%nat by lia.
    apply uniques_bounded. rewrite Forall_forall in Hin, Hlt.
    apply Forall_forall. intros l Hl. specialize (Hlt l (Hin l Hl)). lia.
  - pose proof (uniques_length (map Qc_of_nat clusters)) as Hle.
    rewrite length_map in Hle. lia.
  - intros Hpos. destruct clusters as [| l clusters]; [simpl in Hlen; lia |].
    assert (Hl : Qc_of_nat l ∈ uniques (map Qc_of_nat (l :: clusters))).
    { apply uniques_elem. simpl. left. }
    destruct (uniques _); [by apply elem_of_nil in Hl | simpl; lia].
Qed.

End SummaryPipeline.

Section ButtonRows.

Context `{P : Palettes}.

Lemma create_cluster_buttons_length (n : Z) :
  length (Widgets.create_cluster_buttons n) = Z.to_nat n.
Proof. unfold Widgets.create_cluster_buttons. by rewrite length_map, length_seq. Qed.

Lemma create_cluster_buttons_lookup (n : Z) (i : nat) :
  (i < Z.to_nat n)%nat ->
  Widgets.create_cluster_buttons n !! i
  = Some (Widgets.mkButton (pretty i) ["cluster-btn-" +:+ pretty i] 30).
Proof.
  intros Hi. unfold Widgets.create_cluster_buttons. cbv zeta.
  change (map ?f ?l) with (f <$> l).
  rewrite list_lookup_fmap, lookup_seq_lt by done. done.
Qed.

(** X13: [create_cluster_buttons] makes one button for each of
    [0 .. n_clusters - 1] in this order, labelled with the decimal
    digits of its number and carrying the class [cluster-btn-<number>];
    no two buttons share a label; a negative or zero [n_clusters] makes
    no button. *)
Theorem create_cluster_buttons_spec (n_clusters : Z) :
  let buttons := Widgets.create_cluster_buttons n_clusters in
  length buttons = Z.to_nat n_clusters
  /\ (forall i, (i < Z.to_nat n_clusters)%nat ->
        exists b, buttons !! i = Some b
          /\ Widgets.label b = pretty i
          /\ Widgets.css_classes b = ["cluster-btn-" +:+ pretty i]
          /\ Widgets.width b = 30%Z)
  /\ NoDup (Widgets.label <$> buttons)
  /\ ((n_clusters <= 0)%Z -> buttons = []).
Proof.
  intros buttons. split; [apply create_cluster_buttons_length |].
  split.
  { intros i Hi. eexists. split; [by apply create_cluster_buttons_lookup |]. done. }
  split.
  - unfold buttons, Widgets.create_cluster_buttons. cbv zeta.
    change (map ?f ?l) with (f <$> l). rewrite <- list_fmap_compose.
    apply NoDup_fmap_2; [| apply NoDup_seq].
    intros i j Hij. simpl in Hij. unfold Widgets.str in Hij.
    by apply (inj pretty) in Hij.
  - intros Hn. unfold buttons, Widgets.create_cluster_buttons.
    by replace (Z.to_nat n_clusters) with 0%nat by lia.
Qed.


End ButtonRows.

Lemma sparse_names : NoDup (names Examples.sparse).
Proof. apply (bool_decide_unpack _). vm_compute. reflexivity. Qed.



Lemma summary_rows_bounded_witness :
  exists hex_df out,
    @assign_clusters Examples.chain_clustering Examples.line_som Examples.three_obs 5
      = Ok hex_df
    /\ compute_cluster_means hex_df = Ok out
    /\ (Z.of_nat (index out) <= 5)%Z
    /\ (index out <= 3)%nat
    /\ (0 < index out)%nat.
Proof.
  eexists _, _. split; [reflexivity |]. split; [reflexivity |].
  destruct (@summary_rows_bounded Examples.chain_clustering Examples.line_som
              Examples.three_obs _ _ 5 chain_clustering_lawful eq_refl eq_refl)
    as (H1 & H2 & H3).
  split; [exact H1 |]. split; [exact H2 |]. apply H3. simpl. lia.
Defined.


(** ** plots.py: the node grid *)

Section GridLayout.

Lemma grid_elem (X Y i j : nat) : (i, j) ∈ grid X Y <-> (i < X)%nat /\ (j < Y)%nat.
Proof.
  unfold grid. rewrite list_elem_of_bind. split.
  - intros (i' & Hin & Hi'). apply list_elem_of_bind in Hin as (j' & Hin & Hj').
    apply list_elem_of_singleton in Hin as [= -> ->].
    apply elem_of_seq in Hi', Hj'. lia.
  - intros [Hi Hj]. exists i. split; [| apply elem_of_seq; lia].
    apply list_elem_of_bind. exists j. split; [by apply list_elem_of_singleton |].
    apply elem_of_seq. lia.
Qed.

(** The loops visit node [(k / Y, k mod Y)] at step [k]. *)
Lemma grid_lookup (X Y k : nat) :
  (k < X * Y)%nat -> grid X Y !! k = Some ((k `div` Y)%nat, (k `mod` Y)%nat).
Proof.
  intros Hk.
  destruct (grid X Y !! k) as [[i j] |] eqn:Hij.
  2: { apply lookup_ge_None in Hij. rewrite grid_length in Hij. lia. }
  assert (Hin : (i, j) ∈ grid X Y) by (by eapply list_elem_of_lookup_2).
  apply grid_elem in Hin as [Hi Hj].
  assert (Hidx : ((fun ij : nat * nat => (ij.1 * Y + ij.2)%nat) <$> grid X Y) !! k
                 = Some (i * Y + j)%nat) by (by rewrite list_lookup_fmap, Hij).
  rewrite grid_indices in Hidx. apply lookup_seq in Hidx as [Hidx _]. simpl in Hidx.
  f_equal. f_equal.
  - apply (Nat.div_unique k Y i j); lia.
  - apply (Nat.mod_unique k Y i j); lia.
Qed.

Lemma grid_lookup_node (X Y i j : nat) :
  (i < X)%nat -> (j < Y)%nat -> grid X Y !! (i * Y + j)%nat = Some (i, j).
Proof.
  intros Hi Hj. rewrite grid_lookup by nia. f_equal. f_equal.
  - symmetry. apply (Nat.div_unique _ Y i j); lia.
  - symmetry. apply (Nat.mod_unique _ Y i j); lia.
Qed.

End GridLayout.

(** ** plots.py: the palettes *)

Section PaletteFacts.

Context {A : Type}.

Lemma getitem_nat (l : list A) (i : nat) (a : A) :
  getitem l (Z.of_nat i) = Ok a <-> l !! i = Some a.
Proof.
  unfold getitem. cbv zeta.
  rewrite (bool_decide_eq_false_2 (Z.of_nat i < 0)%Z) by lia.
  rewrite Nat2Z.id.
  case_bool_decide as Hr.
  - destruct (l !! i); split; congruence.
  - split; [done |]. intros Hl. apply lookup_lt_Some in Hl. lia.
Qed.

Lemma getitem_Ok (l : list A) (z : Z) (a : A) :
  (0 <= z)%Z -> getitem l z = Ok a -> l !! Z.to_nat z = Some a.
Proof.
  intros Hz H. apply getitem_nat. by rewrite Z2Nat.id.
Qed.

(** [l * k] holds [l] again and again. *)
Lemma py_repeat_lookup (l : list A) (k : Z) (i : nat) :
  (0 < length l)%nat -> (i < Z.to_nat k * length l)%nat ->
  py_repeat l k !! i = l !! (i `mod` length l)%nat.
Proof.
  intros Hl. unfold py_repeat. generalize (Z.to_nat k). clear k. intros K. revert i.
  induction K as [| K IH]; intros i Hi; [lia |].
  simpl. destruct (decide (i < length l)%nat) as [Hlt | Hge].
  - rewrite lookup_app_l by done. by rewrite Nat.mod_small.
  - rewrite lookup_app_r by lia. rewrite IH by lia.
    f_equal. replace i with ((i - length l) + 1 * length l)%nat at 2 by lia.
    by rewrite Nat.Div0.mod_add.
Qed.

Lemma py_repeat_nil (l : list A) (k : Z) : (k <= 0)%Z -> py_repeat l k = [].
Proof. intros Hk. unfold py_repeat. by replace (Z.to_nat k) with 0%nat by lia. Qed.

(** The cluster palette of [n] colours, [(base * (n // 10 + 1))[:n]],
    and the palette of the map, [(base * (m // 10 + 1))[:m + 1]]: entry
    [i] is entry [i mod 10] of the base. *)
Lemma hex_palette_lookup (base : list A) (n : Z) (i : nat) (c : A) :
  length base = 10%nat ->
  py_prefix (py_repeat base (n / 10 + 1)) n !! i = Some c ->
  (Z.of_nat i < n)%Z /\ base !! (i `mod` 10)%nat = Some c.
Proof.
  intros Hbase Hi. unfold py_prefix in Hi. case_bool_decide as Hn.
  - apply lookup_take_Some in Hi as [Hi Hlt]. split; [lia |].
    rewrite py_repeat_lookup in Hi; [by rewrite Hbase in Hi | lia |].
    rewrite Hbase. pose proof (Z.div_mod n 10 ltac:(lia)) as Hdm.
    pose proof (Z.mod_pos_bound n 10 ltac:(lia)). lia.
  - rewrite py_repeat_nil in Hi; [by rewrite take_nil in Hi |].
    pose proof (Z.div_mod n 10 ltac:(lia)) as Hdm.
    pose proof (Z.mod_pos_bound n 10 ltac:(lia)). lia.
Qed.

Lemma hex_palette_length (base : list A) (n : Z) :
  length base = 10%nat -> (0 <= n)%Z ->
  length (py_prefix (py_repeat base (n / 10 + 1)) n) = Z.to_nat n.
Proof.
  intros Hbase Hn. unfold py_prefix. rewrite bool_decide_eq_true_2 by done.
  apply length_take_le. unfold py_repeat.
  assert (Hsum : forall K, length (concat (replicate K base)) = (K * 10)%nat).
  { induction K as [| K IH]; [done |]. simpl. rewrite length_app, IH, Hbase. lia. }
  rewrite Hsum.
  pose proof (Z.div_mod n 10 ltac:(lia)) as Hdm.
  pose proof (Z.mod_pos_bound n 10 ltac:(lia)).
  assert (0 <= n / 10)%Z by (apply Z.div_pos; lia). lia.
Qed.

Lemma map_palette_lookup (base : list A) (m : Z) (i : nat) :
  length base = 10%nat -> (Z.of_nat i < m + 1)%Z ->
  py_prefix (py_repeat base (m / 10 + 1)) (m + 1) !! i = base !! (i `mod` 10)%nat.
Proof.
  intros Hbase Hi. unfold py_prefix. rewrite bool_decide_eq_true_2 by lia.
  rewrite lookup_take_lt by lia.
  rewrite py_repeat_lookup; [by rewrite Hbase | lia |].
  rewrite Hbase. pose proof (Z.div_mod m 10 ltac:(lia)) as Hdm.
  pose proof (Z.mod_pos_bound m 10 ltac:(lia)).
  assert (0 <= m / 10)%Z by (apply Z.div_pos; lia). lia.
Qed.

End PaletteFacts.

(** ** plots.py: the node source of [build_hex_plot] *)

Section HexPlotFacts.

Context `{C : Clustering} `{P : Palettes}.

(** The list [records], record by record. *)
Lemma node_records_run (hex_df : DataFrame) (som : MiniSom) (um_flat : list Qc)
    (records : list node) :
  node_records hex_df som um_flat = Ok records ->
  let X := (shape (get_weights som)).1 in
  let Y := (shape (get_weights som)).2 in
  exists m labels lo hi,
    column_max hex_df "hc_cluster" = Ok m
    /\ fit_predict (int m + 1) (flatten (get_weights som)) = Ok labels
    /\ amin um_flat = Ok lo /\ amax um_flat = Ok hi
    /\ Forall2 (fun ij r =>
         exists d norm,
           um_flat !! (ij.1 * Y + ij.2)%nat = Some d
           /\ palette_index d lo hi = Ok norm
           /\ labels !! (ij.1 * Y + ij.2)%nat = Some (hc_cluster r)
           /\ getitem Viridis256 norm = Ok (u_color r)
           /\ getitem (py_prefix (py_repeat Category10_10 ((int m + 1) / 10 + 1))
                                 (int m + 1))
                      (Z.of_nat (hc_cluster r)) = Ok (color r)
           /\ bmu_x r = ij.1 /\ bmu_y r = ij.2 /\ alpha r = 1%Z)
       (grid X Y) records.
Proof.
  intros Hrec X Y. unfold node_records in Hrec. subst X Y.
  destruct (column_max hex_df "hc_cluster") as [m | e]; [| done].
  rewrite bind_Ok in Hrec.
  destruct (shape (get_weights som)) as [X Y] eqn:Hshape. cbn [fst snd].
  destruct (fit_predict _ _) as [labels | e] eqn:Hfit; [| done].
  rewrite bind_Ok in Hrec.
  destruct (amin um_flat) as [lo | e]; [| done]. rewrite bind_Ok in Hrec.
  destruct (amax um_flat) as [hi | e]; [| done]. rewrite bind_Ok in Hrec.
  exists m, labels, lo, hi. repeat (split; [done |]).
  apply traverse_Forall2 in Hrec.
  eapply Forall2_impl; [exact Hrec |].
  intros ij r Hr. simpl in Hr.
  destruct (at_ um_flat _) as [d | e] eqn:Hd; [| done]. rewrite bind_Ok in Hr.
  destruct (palette_index d lo hi) as [norm | e] eqn:Hn; [| done]. rewrite bind_Ok in Hr.
  destruct (at_ labels _) as [label | e] eqn:Hl; [| done]. rewrite bind_Ok in Hr.
  destruct (getitem Viridis256 norm) as [u | e] eqn:Hu; [| done]. rewrite bind_Ok in Hr.
  destruct (getitem _ (Z.of_nat label)) as [c | e] eqn:Hc; [| done]. rewrite bind_Ok in Hr.
  injection Hr as <-. exists d, norm. simpl.
  unfold at_ in Hd, Hl.
  destruct (um_flat !! _); [| done]. destruct (labels !! _); [| done].
  by simplify_eq.
Qed.

Lemma Forall2_fmap_eq {A B D} (f : A -> D) (g : B -> D) (l : list A) (k : list B) :
  Forall2 (fun a b => g b = f a) l k -> g <$> k = f <$> l.
Proof. induction 1 as [| a b l k Hab _ IH]; [done |]. csimpl. by rewrite Hab, IH. Qed.

Lemma grid_fst (X Y : nat) :
  fst <$> grid X Y = (fun k => k `div` Y)%nat <$> seq 0 (X * Y).
Proof.
  apply list_eq. intros k. rewrite !list_lookup_fmap.
  destruct (decide (k < X * Y)%nat) as [Hk | Hk].
  - by rewrite grid_lookup, lookup_seq_lt by done.
  - rewrite (proj2 (lookup_ge_None (grid X Y) k)) by (rewrite grid_length; lia).
    rewrite (proj2 (lookup_ge_None (seq 0 (X * Y)) k)) by (rewrite length_seq; lia).
    done.
Qed.

Lemma grid_snd (X Y : nat) :
  snd <$> grid X Y = (fun k => k `mod` Y)%nat <$> seq 0 (X * Y).
Proof.
  apply list_eq. intros k. rewrite !list_lookup_fmap.
  destruct (decide (k < X * Y)%nat) as [Hk | Hk].
  - by rewrite grid_lookup, lookup_seq_lt by done.
  - rewrite (proj2 (lookup_ge_None (grid X Y) k)) by (rewrite grid_length; lia).
    rewrite (proj2 (lookup_ge_None (seq 0 (X * Y)) k)) by (rewrite length_seq; lia).
    done.
Qed.

(** The columns of the node source. *)
Lemma node_columns_lookup (records : list node) (name : string) (col : list prim) :
  node_columns records !! name = Some col ->
  (name = "index" /\ col = positions (length records))
  \/ (name = "bmu_x" /\ col = nums (map bmu_x records))
  \/ (name = "bmu_y" /\ col = nums (map bmu_y records))
  \/ (name = "hc_cluster" /\ col = nums (map hc_cluster records))
  \/ (name = "u_color" /\ col = map (fun r => Str (u_color r)) records)
  \/ (name = "color" /\ col = map (fun r => Str (color r)) records)
  \/ (name = "alpha" /\ col = map (fun r => Num (alpha r)) records)
  \/ (name = "display_color" /\ col = map (fun r => Str (color r)) records).
Proof.
  unfold node_columns. rewrite !lookup_insert_Some, lookup_empty.
  intros H. repeat (destruct H as [[<- <-] | [_ H]]; [tauto |]). done.
Qed.

Lemma node_columns_length (records : list node) (name : string) (col : list prim) :
  node_columns records !! name = Some col -> length col = length records.
Proof.
  intros H. apply node_columns_lookup in H.
  repeat (destruct H as [[_ ->] | H];
          [unfold positions, nums; by rewrite ?length_map, ?length_seq |]).
  destruct H as [_ ->]. by rewrite length_map.
Qed.

(** X15: the node source that [build_hex_plot] returns has one row per
    node of the grid, in row-major order: row [k] is the node
    [(k div Y, k mod Y)] of an X by Y map.  There is at least one node,
    every column has X * Y entries, the colours shown are the cluster
    colours, nothing is selected, the handlers' flags are not set, and
    of the two colour bars the cluster bar is the visible one. *)
Theorem build_hex_plot_layout (hex_df : DataFrame) (som : MiniSom) (um_flat : list Qc)
    (view : HexView) :
  build_hex_plot hex_df som um_flat = Ok view ->
  let X := (shape (get_weights som)).1 in
  let Y := (shape (get_weights som)).2 in
  let src := node_source view in
  (0 < X * Y)%nat
  /\ data src !! "index" = Some (positions (X * Y))
  /\ data src !! "bmu_x" = Some (nums (map (fun k => k `div` Y)%nat (seq 0 (X * Y))))
  /\ data src !! "bmu_y" = Some (nums (map (fun k => k `mod` Y)%nat (seq 0 (X * Y))))
  /\ data src !! "display_color" = data src !! "color"
  /\ (forall name col, data src !! name = Some col -> length col = (X * Y)%nat)
  /\ selected src = [] /\ _skip src = Undefined /\ _last_sel src = Undefined
  /\ bar_c_visible view = true /\ bar_u_visible view = false.
Proof.
  intros Hbuild X Y src.
  apply build_hex_plot_source in Hbuild as Hsrc. destruct Hsrc as (records & Hrec & ->).
  destruct (node_records_run _ _ _ _ Hrec) as (m & labels & lo & hi & _ & _ & _ & _ & Hall).
  fold X Y in Hall.
  assert (Hlen : length records = (X * Y)%nat).
  { apply Forall2_length in Hall. by rewrite grid_length in Hall. }
  assert (Hx : map bmu_x records = map (fun k => k `div` Y)%nat (seq 0 (X * Y))).
  { change (bmu_x <$> records = (fun k => k `div` Y)%nat <$> seq 0 (X * Y)).
    rewrite <- grid_fst. apply Forall2_fmap_eq.
    eapply Forall2_impl; [exact Hall |]. intros ij r (d & norm & H). tauto. }
  assert (Hy : map bmu_y records = map (fun k => k `mod` Y)%nat (seq 0 (X * Y))).
  { change (bmu_y <$> records = (fun k => k `mod` Y)%nat <$> seq 0 (X * Y)).
    rewrite <- grid_snd. apply Forall2_fmap_eq.
    eapply Forall2_impl; [exact Hall |]. intros ij r (d & norm & H). tauto. }
  subst src. cbn [node_source data selected _skip _last_sel bar_c_visible bar_u_visible].
  split.
  { unfold build_hex_plot in Hbuild. rewrite Hrec, bind_Ok in Hbuild.
    destruct records; [done | simpl in Hlen; lia]. }
  split; [by rewrite <- Hlen |].
  split; [by rewrite <- Hx |].
  split; [by rewrite <- Hy |].
  split; [done |].
  split; [| done].
  intros name col Hcol. rewrite <- Hlen. by eapply node_columns_length.
Qed.

(** X16: the cluster colour of a node.  With the ten colours of
    [Category10[10]], the tile of a node with label [l] is given colour
    [l mod 10] of the palette: labels that differ by a multiple of ten
    share a colour.  Every label shown is below the number of clusters
    that the view asked for, [max(hc_cluster) + 1]. *)
Theorem node_cluster_colors (hex_df : DataFrame) (som : MiniSom) (um_flat : list Qc)
    (view : HexView) :
  palettes_ok P ->
  build_hex_plot hex_df som um_flat = Ok view ->
  exists m labels colors,
    column_max hex_df "hc_cluster" = Ok m
    /\ data (node_source view) !! "hc_cluster" = Some (nums labels)
    /\ data (node_source view) !! "color" = Some (Str <$> colors)
    /\ Forall2 (fun l c => (Z.of_nat l < int m + 1)%Z
                           /\ Category10_10 !! (l `mod` 10)%nat = Some c)
               labels colors.
Proof.
  intros [Hbase _] Hbuild.
  apply build_hex_plot_source in Hbuild as (records & Hrec & ->).
  destruct (node_records_run _ _ _ _ Hrec) as (m & labels & lo & hi & Hm & _ & _ & _ & Hall).
  exists m, (hc_cluster <$> records), (color <$> records).
  split; [done |]. split; [done |].
  split; [simpl; unfold node_columns; by rewrite <- list_fmap_compose |].
  apply Forall2_fmap. apply Forall_Forall2_diag.
  apply Forall_forall. intros r Hr.
  apply list_elem_of_lookup in Hr as [k Hk].
  destruct (Forall2_lookup_r _ _ _ _ _ Hall Hk) as (ij & _ & d & norm & _ & _ & _ & _ & Hc & _).
  apply getitem_nat in Hc. by apply hex_palette_lookup in Hc.
Qed.

Lemma column_max_setcol (geo_df hex_df df : DataFrame) (c : column) :
  getcol hex_df "hc_cluster" = Ok c ->
  setcol geo_df "hc_cluster" c = Ok df ->
  column_max df "hc_cluster" = column_max hex_df "hc_cluster".
Proof.
  intros Hc Hset. unfold column_max.
  by rewrite (getcol_setcol_same _ _ _ _ Hset), Hc.
Qed.

(** X17: the palette of the map matches the palette of the hex view.
    [build_map_plot] attaches the observations' [hc_cluster] to the
    geometry table, leaves its other columns alone, and maps the range
    [0 .. max(hc_cluster)]; at every label shown in the hex view, its
    palette has the colour of the hex tiles with that label. *)
Theorem map_palette_matches_hex (hex_df geo_df : DataFrame) (som : MiniSom)
    (um_flat : list Qc) (view : HexView) (mv : MapView) :
  palettes_ok P ->
  build_hex_plot hex_df som um_flat = Ok view ->
  build_map_plot geo_df hex_df = Ok mv ->
  (exists labels colors,
     data (node_source view) !! "hc_cluster" = Some (nums labels)
     /\ data (node_source view) !! "color" = Some (Str <$> colors)
     /\ Forall2 (fun l c => map_palette mv !! l = Some c) labels colors)
  /\ getcol (map_frame mv) "hc_cluster" = getcol hex_df "hc_cluster"
  /\ (forall name, name <> "hc_cluster" ->
        getcol (map_frame mv) name = getcol geo_df name)
  /\ index (map_frame mv) = index geo_df
  /\ map_low mv = 0%Z
  /\ exists m, column_max hex_df "hc_cluster" = Ok m /\ map_high mv = int m.
Proof.
  intros [Hbase _] Hbuild Hmap.
  apply build_hex_plot_source in Hbuild as (records & Hrec & ->).
  destruct (node_records_run _ _ _ _ Hrec) as (m & labels & lo & hi & Hm & _ & _ & _ & Hall).
  unfold build_map_plot in Hmap.
  destruct (getcol hex_df "hc_cluster") as [c | e] eqn:Hc; [| done].
  rewrite bind_Ok in Hmap.
  destruct (setcol geo_df "hc_cluster" c) as [df | e] eqn:Hset; [| done].
  rewrite bind_Ok in Hmap.
  rewrite (column_max_setcol _ _ _ _ Hc Hset), Hm, bind_Ok in Hmap.
  injection Hmap as <-. cbn [map_frame map_palette map_low map_high].
  split.
  { exists (hc_cluster <$> records), (color <$> records).
    split; [done |].
    split; [simpl; unfold node_columns; by rewrite <- list_fmap_compose |].
    apply Forall2_fmap. apply Forall_Forall2_diag.
    apply Forall_forall. intros r Hr.
    apply list_elem_of_lookup in Hr as [k Hk].
    destruct (Forall2_lookup_r _ _ _ _ _ Hall Hk)
      as (ij & _ & d & norm & _ & _ & _ & _ & Hcol & _).
    apply getitem_nat in Hcol. apply hex_palette_lookup in Hcol as [Hlt Hcol]; [| done].
    by rewrite map_palette_lookup. }
  split; [exact (getcol_setcol_same _ _ _ _ Hset) |].
  split; [intros name Hname; by apply (getcol_setcol_other _ _ "hc_cluster" name c) |].
  split; [exact (setcol_index _ _ _ _ Hset) |].
  split; [done |]. by exists m.
Qed.

Lemma foldl_min_const (v : Qc) (xs : list Qc) :
  Forall (fun d => d = v) xs -> foldl Qcmin v xs = v.
Proof.
  induction 1 as [| x xs -> _ IH]; [done |]. simpl.
  unfold Qcmin at 2. by rewrite bool_decide_eq_true_2 by apply Qcle_refl.
Qed.

Lemma foldl_max_const (v : Qc) (xs : list Qc) :
  Forall (fun d => d = v) xs -> foldl Qcmax v xs = v.
Proof.
  induction 1 as [| x xs -> _ IH]; [done |]. simpl.
  unfold Qcmax at 2. by rewrite bool_decide_eq_true_2 by apply Qcle_refl.
Qed.

(** X18: on a U-Matrix whose values are all equal (or that has no
    value), [build_hex_plot] raises ValueError: for a grid with a node,
    after the clustering of the node weights has returned, the first
    node's colour index divides by [um_max - um_min = 0]. *)
Theorem build_hex_plot_flat_umatrix (hex_df : DataFrame) (som : MiniSom)
    (um_flat : list Qc) (v m : Qc) (labels : list nat) :
  column_max hex_df "hc_cluster" = Ok m ->
  fit_predict (int m + 1) (flatten (get_weights som)) = Ok labels ->
  (0 < (shape (get_weights som)).1)%nat ->
  (0 < (shape (get_weights som)).2)%nat ->
  Forall (fun d => d = v) um_flat ->
  build_hex_plot hex_df som um_flat = Raise ValueError.
Proof.
  intros Hm Hfit HX HY Hflat.
  unfold build_hex_plot, node_records. rewrite Hm, bind_Ok.
  destruct (shape (get_weights som)) as [X Y] eqn:Hshape. cbn [fst snd] in *.
  rewrite Hfit, bind_Ok.
  destruct um_flat as [| d0 um]; [done |].
  apply Forall_cons in Hflat as [-> Hflat].
  cbn [amin amax]. rewrite foldl_min_const, foldl_max_const, !bind_Ok by done.
  pose proof (grid_lookup X Y 0 ltac:(nia)) as Hg.
  rewrite Nat.Div0.div_0_l, Nat.Div0.mod_0_l in Hg.
  destruct (grid X Y) as [| ij rest]; [done |]. injection Hg as ->.
  cbn [traverse fst snd]. simpl.
  unfold palette_index. rewrite decide_True by ring. done.
Qed.

End HexPlotFacts.

Section PaletteIndexOrder.

Lemma int_mono (x y : Qc) : 0 ≤ x -> x ≤ y -> (int x <= int y)%Z.
Proof.
  unfold Qcle, Qle, int. destruct x as [[a b] Hx], y as [[c d] Hy]. simpl.
  intros H0 Hxy.
  rewrite !Z.quot_div_nonneg by nia.
  apply Z.div_le_lower_bound; [lia |].
  pose proof (Z.mul_div_le a (Z.pos b) ltac:(lia)) as Hq.
  assert (0 <= a / Z.pos b)%Z by (apply Z.div_pos; lia).
  nia.
Qed.

Lemma int_of_Z (z : Z) : int (Qc_of_Z z) = z.
Proof. unfold int, Qc_of_Z. simpl. apply Z.quot_1_r. Qed.

(** X19: the colour scale of the U-Matrix is monotone and uses the whole
    palette.  For a range with [um_min < um_max]: the index of [um_min]
    is 0, the index of [um_max] is 255, and of two values at or above
    [um_min] the larger one has the index that is at least as large. *)
Theorem palette_index_monotone (um_min um_max d1 d2 : Qc) :
  um_min < um_max -> um_min ≤ d1 -> d1 ≤ d2 ->
  palette_index um_min um_min um_max = Ok 0%Z
  /\ palette_index um_max um_min um_max = Ok 255%Z
  /\ exists k1 k2,
       palette_index d1 um_min um_max = Ok k1
       /\ palette_index d2 um_min um_max = Ok k2
       /\ (0 <= k1 <= k2)%Z.
Proof.
  intros Hlt H1 H12.
  assert (Hpos : 0 < um_max - um_min) by (by apply Qc_sub_pos).
  assert (Hne : um_max - um_min <> 0).
  { intros Heq. rewrite Heq in Hpos. by apply (irreflexivity Qclt 0). }
  assert (H255 : 0 ≤ Qc_of_Z 255) by (rewrite <- Z2Qc_inj_0; by apply Z2Qc_inj_le).
  assert (Hinv : 0 ≤ / (um_max - um_min)) by (by apply Qclt_le_weak, Qcinv_pos).
  unfold palette_index. rewrite !decide_False by done.
  split.
  { f_equal. replace ((um_min - um_min) / (um_max - um_min) * Qc_of_Z 255)
      with (Qc_of_Z 0) by (rewrite Z2Qc_inj_0; unfold Qcdiv; ring).
    apply int_of_Z. }
  split.
  { f_equal. replace ((um_max - um_min) / (um_max - um_min) * Qc_of_Z 255)
      with (Qc_of_Z 255) by (field; done).
    apply int_of_Z. }
  eexists _, _. split; [done |]. split; [done |].
  assert (Hd1 : 0 ≤ (d1 - um_min) / (um_max - um_min) * Qc_of_Z 255).
  { apply Qcmult_nonneg_nonneg; [| done].
    apply Qcmult_nonneg_nonneg; [by apply Qc_sub_nonneg | done]. }
  split.
  - rewrite <- (int_of_Z 0). apply int_mono; rewrite Z2Qc_inj_0; [apply Qcle_refl | done].
  - apply int_mono; [done |].
    apply Qcmult_le_mono_nonneg_r; [done |].
    apply Qcmult_le_mono_nonneg_r; [done |].
    by apply Qcplus_le_mono_r.
Qed.

End PaletteIndexOrder.

Lemma palette_index_monotone_witness :
  palette_index (Qc_of_Z 1) (Qc_of_Z 1) (Qc_of_Z 16) = Ok 0%Z
  /\ palette_index (Qc_of_Z 16) (Qc_of_Z 1) (Qc_of_Z 16) = Ok 255%Z
  /\ exists k1 k2,
       palette_index (Qc_of_Z 3) (Qc_of_Z 1) (Qc_of_Z 16) = Ok k1
       /\ palette_index (Qc_of_Z 12) (Qc_of_Z 1) (Qc_of_Z 16) = Ok k2
       /\ (0 <= k1 <= k2)%Z.
Proof.
  apply (palette_index_monotone (Qc_of_Z 1) (Qc_of_Z 16) (Qc_of_Z 3) (Qc_of_Z 12)).
  - by apply Z2Qc_inj_lt.
  - by apply Z2Qc_inj_le.
  - by apply Z2Qc_inj_le.
Defined.

(** ** plots.py and som_model.py: the U-Matrix colour of a node *)

Section NodeUColor.

Context `{C : Clustering} `{P : Palettes}.

(** X20: each node is coloured by its own cell of the U-Matrix.  With
    the flattened distance map that [compute_umatrix] returns, of the
    shape of the grid, the record of node [(i, j)] is at position
    [i * Y + j], and its [u_color] is the entry of [Viridis256] at the
    index of [distance_map[i][j]] between the minimum and the maximum
    of the map. *)
Theorem node_u_color (hex_df : DataFrame) (som : MiniSom) (records : list node)
    (i j : nat) (row : list Qc) (d : Qc) :
  node_records hex_df som (compute_umatrix som) = Ok records ->
  rectangular (distance_map som) ->
  shape (distance_map som) = shape (get_weights som) ->
  distance_map som !! i = Some row -> row !! j = Some d ->
  exists r lo hi norm,
    records !! (i * (shape (get_weights som)).2 + j)%nat = Some r
    /\ bmu_x r = i /\ bmu_y r = j
    /\ amin (compute_umatrix som) = Ok lo /\ amax (compute_umatrix som) = Ok hi
    /\ lo ≤ d /\ d ≤ hi
    /\ palette_index d lo hi = Ok norm
    /\ getitem Viridis256 norm = Ok (u_color r).
Proof.
  intros Hrec Hrect Hshape Hrow Hd.
  destruct (node_records_run _ _ _ _ Hrec) as (m & labels & lo & hi & _ & _ & Hlo & Hhi & Hall).
  assert (Hi : (i < (shape (get_weights som)).1)%nat).
  { rewrite <- Hshape. simpl. by eapply lookup_lt_Some. }
  assert (Hj : (j < (shape (get_weights som)).2)%nat).
  { rewrite <- Hshape. unfold rectangular in Hrect. rewrite Forall_forall in Hrect.
    rewrite <- (Hrect row) by (by eapply list_elem_of_lookup_2).
    by eapply lookup_lt_Some. }
  pose proof (grid_lookup_node _ _ i j Hi Hj) as Hg.
  destruct (Forall2_lookup_l _ _ _ _ _ Hall Hg)
    as (r & Hr & d' & norm & Hd' & Hn & _ & Hu & _ & Hx & Hy & _).
  cbn [fst snd] in Hd', Hx, Hy.
  assert (d' = d) as ->.
  { unfold compute_umatrix in Hd'. rewrite <- Hshape in Hd'.
    rewrite (flatten_row_major _ i j row Hrect Hrow) in Hd' by (by rewrite Hshape).
    congruence. }
  exists r, lo, hi, norm. repeat (split; [done |]).
  assert (Hin : d ∈ compute_umatrix som) by (by eapply list_elem_of_lookup_2).
  split; [by eapply amin_le |]. split; [by eapply amax_ge |]. done.
Qed.

End NodeUColor.

(** ** main.py on the sources that plots.py builds *)

Section TapFacts.

Context `{C : Clustering} `{P : Palettes}.










End TapFacts.

(** ** plots.py: the data table *)

Section DataTableFacts.

Lemma filter_all {A} (Q : A -> Prop) `{!forall a, Decision (Q a)} (l : list A) :
  Forall Q l -> filter Q l = l.
Proof.
  induction 1 as [| a l Ha _ IH]; [done |].
  by rewrite filter_cons, decide_True, IH.
Qed.

Lemma tabulate_names (h : string -> column) (l : list string) :
  (map (fun c => (c, h c)) l).*1 = l.
Proof. induction l as [| c l IH]; [done |]. simpl. by f_equal. Qed.

(** X23: the columns of the data table over a summary.  On a summary
    that [compute_cluster_means] returned for a table with distinct
    column names, [build_data_table] returns; the first column shows
    [hc_cluster] under the title Cluster, and the others are, in the
    order of the table, the averaged columns under their own names:
    none of [bmu_x], [bmu_y], [hex_x], [hex_y] is shown.  On a frame
    without a column [hc_cluster] it raises KeyError. *)
Theorem build_data_table_columns (hex_df out : DataFrame) :
  NoDup (names hex_df) ->
  compute_cluster_means hex_df = Ok out ->
  let averaged := filter (fun c => c ∉ bookkeeping)
                         (names (select_dtypes is_float_or_int hex_df)) in
  build_data_table out
  = Ok (mkTableColumn "hc_cluster" "Cluster" 60
        :: map (fun c => mkTableColumn c c 120) averaged)
  /\ Forall (fun c => c ∉ bookkeeping) averaged
  /\ (forall df, has_column df "hc_cluster" = false ->
        build_data_table df = Raise KeyError).
Proof.
  intros Hnd Hrun averaged.
  destruct (compute_cluster_means_key _ _ Hrun) as (dt & ks & Hk & _ & _).
  rewrite (compute_cluster_means_run _ dt ks Hnd Hk) in Hrun. injection Hrun as <-.
  assert (Hav : Forall (fun c => c ∉ bookkeeping) averaged).
  { apply Forall_forall. intros c Hc. by apply list_elem_of_filter in Hc as [Hc _]. }
  split; [| split; [done |]].
  - match goal with |- build_data_table ?o = _ =>
      assert (Hn : names o = "hc_cluster" :: averaged)
    end.
    { unfold names. cbn [columns]. rewrite fmap_cons. f_equal.
      apply (tabulate_names (fun c => NumCol Float64 _)). }
    unfold build_data_table, index_drop. rewrite Hn.
    rewrite bool_decide_eq_true_2 by left. rewrite bind_Ok.
    rewrite filter_cons, decide_False by (by intros H; apply H).
    rewrite (filter_all (fun c => c <> "hc_cluster") averaged); [done |].
    rewrite Forall_forall in Hav. apply Forall_forall. intros c Hc ->.
    apply (Hav _ Hc). unfold bookkeeping. left.
  - intros df Hno. unfold build_data_table, index_drop.
    unfold has_column in Hno. by rewrite Hno.
Qed.

End DataTableFacts.

(** ** plots.py: the toggle on the view that [build_hex_plot] returns *)

Section ToggleOnView.

Context `{C : Clustering} `{P : Palettes}.

(** X24: on the view that [build_hex_plot] returns the toggle never
    throws.  It shows the U-Matrix colours when switched on and the
    cluster colours when switched off, one colour per node, and changes
    no other column: the coordinates and the labels that the selection
    callbacks read are the same in both modes. *)
Theorem toggle_on_built_view (hex_df : DataFrame) (som : MiniSom) (um_flat : list Qc)
    (view : HexView) (active : bool) :
  build_hex_plot hex_df som um_flat = Ok view ->
  exists v' colors,
    toggle_changed active view = Ok v'
    /\ data (node_source view) !! (if active then "u_color" else "color") = Some colors
    /\ data (node_source v') !! "display_color" = Some colors
    /\ length colors
       = ((shape (get_weights som)).1 * (shape (get_weights som)).2)%nat
    /\ (forall name, name <> "display_color" ->
          data (node_source v') !! name = data (node_source view) !! name)
    /\ selected (node_source v') = [] /\ bar_u_visible v' = active
    /\ bar_c_visible v' = negb active.
Proof.
  intros Hbuild.
  destruct (build_hex_plot_layout _ _ _ _ Hbuild)
    as (_ & _ & _ & _ & _ & Hlen & Hsel & _).
  apply build_hex_plot_source in Hbuild as Hsrc. destruct Hsrc as (records & _ & Hview).
  assert (Hc : exists colors,
             data (node_source view) !! (if active then "u_color" else "color")
             = Some colors).
  { rewrite Hview. destruct active; by eexists. }
  destruct Hc as [colors Hc]. exists (mkHexView (set_column (node_source view) "display_color" colors)
                                       (negb active) active), colors.
  split.
  { unfold toggle_changed, column_of. by rewrite Hc, bind_Ok. }
  split; [done |]. cbn [node_source set_column data selected bar_u_visible bar_c_visible].
  split; [by rewrite lookup_insert_eq |].
  split; [by eapply Hlen |].
  split; [intros name Hne; by rewrite lookup_insert_ne |]. done.
Qed.

End ToggleOnView.

(** ** main.py: the labels of the node view and of the assignment *)

Section LabelsAgreeIff.

Context `{C : Clustering} `{P : Palettes}.

Lemma nums_inj (l1 l2 : list nat) : nums l1 = nums l2 -> l1 = l2.
Proof.
  revert l2. induction l1 as [| a l1 IH]; intros [| b l2]; simpl; try done.
  intros [= Hab Hl]. f_equal; [lia | by apply IH].
Qed.

(** X25: when the node view shows the labels of the assignment.  With a
    clustering that keeps the library's contract, the labels shown in
    the hex view are the node labels that [assign_clusters] used exactly
    when the highest cluster id among the observations is
    [n_clusters - 1], so that the view asks for the same number of
    clusters. *)
Theorem hex_labels_agree_iff (som : MiniSom) (scaled_df hex_df : DataFrame)
    (view : HexView) (node_labels : list nat) (m : Qc) :
  lawful C -> rectangular (get_weights som) ->
  fit_predict default_n_clusters (flatten (get_weights som)) = Ok node_labels ->
  node_view som scaled_df = Ok (hex_df, view) ->
  column_max hex_df "hc_cluster" = Ok m ->
  data (node_source view) !! "hc_cluster" = Some (nums node_labels)
  <-> (int m + 1)%Z = default_n_clusters.
Proof.
  intros Hlaw Hrect Hfit Hview Hmax. split.
  - intros Hshown.
    unfold node_view in Hview.
    destruct (assign_clusters som scaled_df default_n_clusters) as [hex_df' | e];
      [| done].
    rewrite bind_Ok in Hview.
    destruct (build_hex_plot hex_df' som _) as [view' | e] eqn:Hbuild; [| done].
    rewrite bind_Ok in Hview. injection Hview as -> ->.
    apply build_hex_plot_source in Hbuild as (records & Hrec & ->).
    destruct (node_records_labels _ _ _ _ _ Hrec Hmax) as (labels & Hfit' & Hall).
    destruct (Hlaw _ _ _ Hfit) as (Hlen & Hn & _).
    destruct (Hlaw _ _ _ Hfit') as (Hlen' & Hn' & _).
    rewrite <- flatten_length, <- Hlen' in Hall by done.
    apply read_in_order in Hall.
    simpl in Hshown. unfold node_columns in Hshown.
    rewrite lookup_insert_ne in Hshown by done.
    rewrite lookup_insert_ne in Hshown by done.
    rewrite lookup_insert_ne in Hshown by done.
    rewrite lookup_insert_eq in Hshown. injection Hshown as Hshown.
    apply nums_inj in Hshown.
    change (map hc_cluster records) with (hc_cluster <$> records) in Hshown.
    rewrite Hall in Hshown. subst labels. congruence.
  - intros Heq. by eapply hex_labels_agree.
Qed.

End LabelsAgreeIff.

(** ** cluster_analysis.py: the grid keys do not take part *)

Section GridKeys.

Context `{C : Clustering}.

(** X26: the grid keys are not features.  Two tables that differ in
    their columns [hex_x] and [hex_y] only (after these are dropped the
    tables are equal) are assigned the same best-matching units and the
    same clusters, row by row. *)
Theorem assign_clusters_ignores_grid_keys (som : MiniSom) (df1 df2 out1 out2 : DataFrame)
    (n_clusters : Z) :
  drop ["hex_x"; "hex_y"] df1 = drop ["hex_x"; "hex_y"] df2 ->
  assign_clusters som df1 n_clusters = Ok out1 ->
  assign_clusters som df2 n_clusters = Ok out2 ->
  forall name, name ∈ ["bmu_x"; "bmu_y"; "hc_cluster"] ->
    getcol out1 name = getcol out2 name.
Proof.
  intros Hdrop Hrun1 Hrun2 name Hname.
  destruct (assign_clusters_run _ _ _ _ Hrun1)
    as (labels1 & cl1 & a1 & b1 & Hfit1 & Hcl1 & Ha1 & Hb1 & Hc1).
  destruct (assign_clusters_run _ _ _ _ Hrun2)
    as (labels2 & cl2 & a2 & b2 & Hfit2 & Hcl2 & Ha2 & Hb2 & Hc2).
  rewrite Hfit1 in Hfit2. injection Hfit2 as <-.
  rewrite <- Hdrop in Hcl2, Ha2, Hb2.
  assert (cl1 = cl2) as <-.
  { apply list_eq. intros k.
    destruct (cl1 !! k) as [l |] eqn:Hk.
    - destruct (Forall2_lookup_r _ _ _ _ _ Hcl1 Hk) as (o & Ho & Hl).
      destruct (Forall2_lookup_l _ _ _ _ _ Hcl2 Ho) as (l' & Hk' & Hl').
      congruence.
    - apply lookup_ge_None in Hk. symmetry. apply lookup_ge_None.
      apply Forall2_length in Hcl1, Hcl2. lia. }
  rewrite !elem_of_cons, elem_of_nil in Hname.
  destruct Hname as [-> | [-> | [-> | []]]].
  - rewrite (getcol_setcol_other _ _ "hc_cluster" "bmu_x" _ ltac:(done) Hc1).
    rewrite (getcol_setcol_other _ _ "bmu_y" "bmu_x" _ ltac:(done) Hb1).
    rewrite (getcol_setcol_same _ _ _ _ Ha1).
    rewrite (getcol_setcol_other _ _ "hc_cluster" "bmu_x" _ ltac:(done) Hc2).
    rewrite (getcol_setcol_other _ _ "bmu_y" "bmu_x" _ ltac:(done) Hb2).
    by rewrite (getcol_setcol_same _ _ _ _ Ha2).
  - rewrite (getcol_setcol_other _ _ "hc_cluster" "bmu_y" _ ltac:(done) Hc1).
    rewrite (getcol_setcol_same _ _ _ _ Hb1).
    rewrite (getcol_setcol_other _ _ "hc_cluster" "bmu_y" _ ltac:(done) Hc2).
    by rewrite (getcol_setcol_same _ _ _ _ Hb2).
  - rewrite (getcol_setcol_same _ _ _ _ Hc1).
    by rewrite (getcol_setcol_same _ _ _ _ Hc2).
Qed.

End GridKeys.

(** ** The views of the line map *)

Lemma palettes_ok_examples : palettes_ok Examples.palettes.
Proof. split; reflexivity. Qed.

Lemma line_view :
  exists view,
    @build_hex_plot Examples.chain_clustering Examples.palettes
      Examples.line_hex_df Examples.line_som (compute_umatrix Examples.line_som)
    = Ok view.
Proof. eexists. vm_compute. reflexivity. Qed.

Lemma build_hex_plot_layout_witness :
  exists view,
    @build_hex_plot Examples.chain_clustering Examples.palettes
      Examples.line_hex_df Examples.line_som (compute_umatrix Examples.line_som)
    = Ok view
    /\ data (node_source view) !! "bmu_x" = Some (nums [0; 0; 0; 0; 0; 0]%nat)
    /\ data (node_source view) !! "bmu_y" = Some (nums [0; 1; 2; 3; 4; 5]%nat)
    /\ selected (node_source view) = [].
Proof.
  destruct line_view as [view Hview]. exists view. split; [exact Hview |].
  destruct (@build_hex_plot_layout Examples.chain_clustering Examples.palettes
              _ _ _ _ Hview) as (_ & _ & Hx & Hy & _ & _ & Hsel & _).
  split; [exact Hx |]. split; [exact Hy | exact Hsel].
Defined.

Lemma node_cluster_colors_witness :
  exists view m labels colors,
    column_max Examples.line_hex_df "hc_cluster" = Ok m
    /\ data (node_source view) !! "hc_cluster" = Some (nums labels)
    /\ data (node_source view) !! "color" = Some (Str <$> colors)
    /\ Forall2 (fun l c => (Z.of_nat l < int m + 1)%Z
                           /\ @Category10_10 Examples.palettes !! (l `mod` 10)%nat = Some c)
               labels colors.
Proof.
  destruct line_view as [view Hview]. exists view.
  exact (@node_cluster_colors Examples.chain_clustering Examples.palettes
           _ _ _ _ palettes_ok_examples Hview).
Defined.

Lemma map_palette_matches_hex_witness :
  exists view mv labels colors,
    @build_map_plot Examples.palettes Examples.line_geo_df Examples.line_hex_df = Ok mv
    /\ data (node_source view) !! "hc_cluster" = Some (nums labels)
    /\ data (node_source view) !! "color" = Some (Str <$> colors)
    /\ Forall2 (fun l c => map_palette mv !! l = Some c) labels colors
    /\ getcol (map_frame mv) "geometry" = getcol Examples.line_geo_df "geometry".
Proof.
  destruct line_view as [view Hview].
  assert (Hmap : exists mv,
             @build_map_plot Examples.palettes Examples.line_geo_df Examples.line_hex_df
             = Ok mv) by (eexists; vm_compute; reflexivity).
  destruct Hmap as [mv Hmap].
  destruct (@map_palette_matches_hex Examples.chain_clustering Examples.palettes
              _ _ _ _ _ _ palettes_ok_examples Hview Hmap)
    as ((labels & colors & Hl & Hc & Hall) & _ & Hkeep & _).
  exists view, mv, labels, colors. repeat (split; [assumption |]).
  by apply Hkeep.
Defined.

Lemma build_hex_plot_flat_umatrix_witness :
  @build_hex_plot Examples.chain_clustering Examples.palettes
    Examples.line_hex_df Examples.flat_som (compute_umatrix Examples.flat_som)
  = Raise ValueError.
Proof.
  apply (@build_hex_plot_flat_umatrix Examples.chain_clustering Examples.palettes
           Examples.line_hex_df Examples.flat_som _ (Qc_of_Z 1) (Qc_of_nat 2)
           [0; 1; 2; 2; 2; 2]%nat).
  - reflexivity.
  - reflexivity.
  - simpl. lia.
  - simpl. lia.
  - repeat constructor.
Defined.

Lemma line_distance_map_rectangular : rectangular (distance_map Examples.line_som).
Proof. by repeat constructor. Qed.

Lemma node_u_color_witness :
  exists records r lo hi norm,
    @node_records Examples.chain_clustering Examples.palettes
      Examples.line_hex_df Examples.line_som (compute_umatrix Examples.line_som)
    = Ok records
    /\ records !! 2%nat = Some r
    /\ bmu_x r = 0%nat /\ bmu_y r = 2%nat
    /\ amin (compute_umatrix Examples.line_som) = Ok lo
    /\ amax (compute_umatrix Examples.line_som) = Ok hi
    /\ palette_index (Qc_of_Z 6) lo hi = Ok norm
    /\ getitem (@Viridis256 Examples.palettes) norm = Ok (u_color r).
Proof.
  assert (Hrec : exists records,
             @node_records Examples.chain_clustering Examples.palettes
               Examples.line_hex_df Examples.line_som (compute_umatrix Examples.line_som)
             = Ok records) by (eexists; vm_compute; reflexivity).
  destruct Hrec as [records Hrec].
  destruct (@node_u_color Examples.chain_clustering Examples.palettes
              _ _ _ 0%nat 2%nat _ (Qc_of_Z 6) Hrec line_distance_map_rectangular
              eq_refl eq_refl eq_refl)
    as (r & lo & hi & norm & Hr & Hx & Hy & Hlo & Hhi & _ & _ & Hn & Hu).
  exists records, r, lo, hi, norm. repeat (split; [assumption |]). assumption.
Defined.



Lemma build_data_table_columns_witness :
  exists out,
    compute_cluster_means Examples.clustered = Ok out
    /\ build_data_table out
       = Ok [mkTableColumn "hc_cluster" "Cluster" 60; mkTableColumn "x" "x" 120].
Proof.
  assert (Hrun : exists out, compute_cluster_means Examples.clustered = Ok out)
    by (eexists; vm_compute; reflexivity).
  destruct Hrun as [out Hrun]. exists out. split; [exact Hrun |].
  destruct (build_data_table_columns Examples.clustered out clustered_names Hrun)
    as (Htable & _).
  exact Htable.
Defined.

Lemma toggle_on_built_view_witness :
  exists view v' colors,
    toggle_changed true view = Ok v'
    /\ data (node_source view) !! "u_color" = Some colors
    /\ data (node_source v') !! "display_color" = Some colors
    /\ length colors = 6%nat.
Proof.
  destruct line_view as [view Hview].
  destruct (@toggle_on_built_view Examples.chain_clustering Examples.palettes
              _ _ _ view true Hview)
    as (v' & colors & Hrun & Hu & Hd & Hlen & _).
  exists view, v', colors. repeat (split; [assumption |]). exact Hlen.
Defined.

Lemma hex_labels_agree_iff_witness :
  exists hex_df view m,
    @node_view Examples.chain_clustering Examples.palettes
       Examples.line_som Examples.three_obs = Ok (hex_df, view)
    /\ column_max hex_df "hc_cluster" = Ok m
    /\ (data (node_source view) !! "hc_cluster" = Some (nums [0; 1; 2; 3; 4; 4]%nat)
        <-> (int m + 1)%Z = default_n_clusters).
Proof.
  assert (H : exists hex_df view m,
             @node_view Examples.chain_clustering Examples.palettes
               Examples.line_som Examples.three_obs = Ok (hex_df, view)
             /\ column_max hex_df "hc_cluster" = Ok m).
  { eexists _, _, _. split; [vm_compute; reflexivity | vm_compute; reflexivity]. }
  destruct H as (hex_df & view & m & Hview & Hmax).
  exists hex_df, view, m. split; [exact Hview |]. split; [exact Hmax |].
  exact (@hex_labels_agree_iff Examples.chain_clustering Examples.palettes
           Examples.line_som Examples.three_obs hex_df view
           [0; 1; 2; 3; 4; 4]%nat m
           chain_clustering_lawful line_weights_rectangular eq_refl Hview Hmax).
Defined.

Lemma assign_clusters_ignores_grid_keys_witness :
  exists out1 out2,
    @assign_clusters Examples.chain_clustering Examples.line_som Examples.three_obs 5
      = Ok out1
    /\ @assign_clusters Examples.chain_clustering Examples.line_som
         (mkDF 3 [("x", NumCol Float64 [Qc_of_Z 1; Qc_of_Z 15; Qc_of_Z 25]);
                  ("hex_x", NumCol Int64 [Qc_of_Z 7; Qc_of_Z 8; Qc_of_Z 9])]) 5
       = Ok out2
    /\ getcol out1 "hc_cluster" = getcol out2 "hc_cluster".
Proof.
  eexists _, _. split; [reflexivity |]. split; [reflexivity |].
  apply (@assign_clusters_ignores_grid_keys Examples.chain_clustering Examples.line_som
           Examples.three_obs
           (mkDF 3 [("x", NumCol Float64 [Qc_of_Z 1; Qc_of_Z 15; Qc_of_Z 25]);
                    ("hex_x", NumCol Int64 [Qc_of_Z 7; Qc_of_Z 8; Qc_of_Z 9])])
           _ _ 5).
  - reflexivity.
  - reflexivity.
  - reflexivity.
  - rewrite !elem_of_cons. auto.
Defined.
